(** * Products REST API: the product model, repository, service and router

    A shallow embedding of the Python sources under [app/]:
    [models/product.py], [exceptions/product_exceptions.py],
    [repositories/product_repository.py], [services/product_service.py],
    [routers/products.py], [schemas/product.py] and [database.py].

    Python objects become records, dictionaries become [gmap string value],
    the MongoDB collection becomes the list of its documents in natural
    order, and code that reads the clock, draws a random UUID, talks to the
    driver or raises runs in a state-and-exception monad over [World]. *)

From Stdlib Require Import ZArith List String Ascii Bool Lia.
From Stdlib Require Import Floats.SpecFloat.
From stdpp Require Import base option list strings pretty gmap.

Local Open Scope string_scope.
Local Open Scope Z_scope.

(** ** Fixed-width numerals

    [str(UUID)] prints an integer as 32 hexadecimal digits and
    [datetime.isoformat] prints its fields as zero-padded decimals;
    [UUID(...)] and [datetime.fromisoformat] read them back. *)

Definition chars (s : string) : list ascii := list_ascii_of_string s.
Definition text (cs : list ascii) : string := string_of_list_ascii cs.

Definition digit_char (n : Z) : ascii :=
  if n <? 10 then ascii_of_nat (Z.to_nat (48 + n))
  else ascii_of_nat (Z.to_nat (87 + n)).

Definition digit_value (base : Z) (c : ascii) : option Z :=
  let n := Z.of_nat (nat_of_ascii c) in
  let v := if (48 <=? n) && (n <=? 57) then n - 48
           else if (97 <=? n) && (n <=? 122) then n - 87
           else if (65 <=? n) && (n <=? 90) then n - 55
           else base in
  if v <? base then Some v else None.

(** ['%0<width>x' % n] and ['%0<width>d' % n] for [0 <= n < base ^ width]. *)
Fixpoint format_digits (base : Z) (width : nat) (n : Z) : list ascii :=
  match width with
  | O => []
  | S w => format_digits base w (n / base) ++ [digit_char (n mod base)]
  end.

(** [int(cs, base)] on a run of digits, most significant first. *)
Fixpoint parse_digits (base : Z) (acc : Z) (cs : list ascii) : option Z :=
  match cs with
  | [] => Some acc
  | c :: cs' =>
      match digit_value base c with
      | Some v => parse_digits base (acc * base + v) cs'
      | None => None
      end
  end.

(** Reads exactly [width] characters as a number in [base]. *)
Definition take_number (base : Z) (width : nat) (cs : list ascii)
  : option (Z * list ascii) :=
  if Nat.eqb (length (take width cs)) width
  then n ← parse_digits base 0 (take width cs); Some (n, drop width cs)
  else None.

Definition expect (c : ascii) (cs : list ascii) : option (list ascii) :=
  match cs with
  | c' :: rest => if Ascii.eqb c c' then Some rest else None
  | [] => None
  end.

(** ** UUID

    A [uuid.UUID] is a 128-bit integer; the constructor refuses anything
    else, so the bound travels with the value. *)

Record UUID := mkUUID {
  uuid_int : Z;
  uuid_in_range : Is_true ((0 <=? uuid_int) && (uuid_int <? 2 ^ 128))
}.

Definition make_uuid (n : Z) : option UUID :=
  match decide (Is_true ((0 <=? n) && (n <? 2 ^ 128))) with
  | left H => Some (mkUUID n H)
  | right _ => None
  end.

Definition hyphen : ascii := "-"%char.

(** [UUID.__str__]: the 32 hex digits grouped 8-4-4-4-12. *)
Definition uuid_str (u : UUID) : string :=
  let hex := format_digits 16 32 (uuid_int u) in
  text (take 8 hex ++ [hyphen] ++ take 4 (drop 8 hex) ++ [hyphen]
        ++ take 4 (drop 12 hex) ++ [hyphen] ++ take 4 (drop 16 hex)
        ++ [hyphen] ++ drop 20 hex).

(** [UUID(hex)]: hyphens are removed, 32 characters must remain and they
    are read as a base-16 integer; [None] stands for the [ValueError].
    (The [urn:uuid:] prefix and the braces that CPython also strips do not
    occur in what [uuid_str] writes and are not modelled.) *)
Definition uuid_parse (s : string) : option UUID :=
  let hex := filter (λ c, c ≠ hyphen) (chars s) in
  if Nat.eqb (length hex) 32
  then n ← parse_digits 16 0 hex; make_uuid n
  else None.

(** ** datetime

    A naive [datetime.datetime] (what [datetime.utcnow()] returns): seven
    integer fields which the constructor range-checks. *)

Definition is_leap (y : Z) : bool :=
  (y mod 4 =? 0) && (negb (y mod 100 =? 0) || (y mod 400 =? 0)).

Definition days_in_month (y m : Z) : Z :=
  if m =? 2 then (if is_leap y then 29 else 28)
  else if (m =? 4) || (m =? 6) || (m =? 9) || (m =? 11) then 30
  else 31.

Definition between (lo hi x : Z) : bool := (lo <=? x) && (x <=? hi).

Definition check_fields (y m d hh mm ss us : Z) : bool :=
  between 1 9999 y && between 1 12 m && between 1 (days_in_month y m) d
  && between 0 23 hh && between 0 59 mm && between 0 59 ss
  && between 0 999999 us.

Record datetime := mkDatetime {
  year : Z; month : Z; day : Z;
  hour : Z; minute : Z; second : Z; microsecond : Z;
  datetime_in_range :
    Is_true (check_fields year month day hour minute second microsecond)
}.

Definition make_datetime (y m d hh mm ss us : Z) : option datetime :=
  match decide (Is_true (check_fields y m d hh mm ss us)) with
  | left H => Some (mkDatetime y m d hh mm ss us H)
  | right _ => None
  end.

(** [datetime.isoformat()]: [YYYY-MM-DDTHH:MM:SS], followed by [.ffffff]
    when the microsecond field is not zero. *)
Definition isoformat (t : datetime) : string :=
  text (format_digits 10 4 (year t) ++ chars "-"
        ++ format_digits 10 2 (month t) ++ chars "-"
        ++ format_digits 10 2 (day t) ++ chars "T"
        ++ format_digits 10 2 (hour t) ++ chars ":"
        ++ format_digits 10 2 (minute t) ++ chars ":"
        ++ format_digits 10 2 (second t)
        ++ (if microsecond t =? 0 then []
            else chars "." ++ format_digits 10 6 (microsecond t))).

(** [datetime.fromisoformat] on the two layouts [isoformat] writes for a
    naive value; [None] stands for the [ValueError]. (CPython 3.12 reads
    further ISO 8601 layouts; the program never stores one.) *)
Definition fromisoformat (s : string) : option datetime :=
  '(y, r) ← take_number 10 4 (chars s); r ← expect "-" r;
  '(m, r) ← take_number 10 2 r; r ← expect "-" r;
  '(d, r) ← take_number 10 2 r; r ← expect "T" r;
  '(hh, r) ← take_number 10 2 r; r ← expect ":" r;
  '(mm, r) ← take_number 10 2 r; r ← expect ":" r;
  '(ss, r) ← take_number 10 2 r;
  match r with
  | [] => make_datetime y m d hh mm ss 0
  | _ =>
      r ← expect "." r;
      '(us, r) ← take_number 10 6 r;
      match r with
      | [] => make_datetime y m d hh mm ss us
      | _ => None
      end
  end.

(** Naive datetimes compare as the tuples of their fields. *)
Definition datetime_key (t : datetime) : list Z :=
  [year t; month t; day t; hour t; minute t; second t; microsecond t].

Fixpoint lex_le (a b : list Z) : bool :=
  match a, b with
  | [], _ => true
  | _ :: _, [] => false
  | x :: a', y :: b' => (x <? y) || ((x =? y) && lex_le a' b')
  end.

Definition datetime_le (a b : datetime) : Prop :=
  Is_true (lex_le (datetime_key a) (datetime_key b)).

(** ** Values, documents and exceptions *)

(** A Python [float] (price) as an IEEE 754 datum. *)
Abbreviation float := spec_float.

(** What a dictionary of the program can hold, tagged with its Python type;
    [VObjectId] is the [_id] MongoDB adds to each stored document. *)
Inductive value :=
| VNone
| VStr (s : string)
| VInt (n : Z)
| VFloat (x : float)
| VUuid (u : UUID)
| VDatetime (t : datetime)
| VObjectId (n : nat).

Abbreviation document := (gmap string value).

(** Truth value of an object, as [if x], [x and y] and [x or y] take it. *)
Definition truthy (v : value) : bool :=
  match v with
  | VNone => false
  | VStr s => negb (String.eqb s "")
  | VInt n => negb (n =? 0)
  | VFloat (S754_zero _) => false
  | _ => true
  end.

(** [d.get(key)]: [None] when the key is missing. *)
Definition dict_get (d : document) (key : string) : value :=
  match d !! key with
  | Some v => v
  | None => VNone
  end.

(** The exception classes of [exceptions/product_exceptions.py], the
    builtin ones the model code can run into, the driver's error and
    FastAPI's [HTTPException]. *)
Inductive exn :=
| ProductNotFoundException (product_id : string)
| ProductAlreadyDeletedException (product_id : string)
| ProductValidationException (message : string)
| DatabaseException (message : string)
| KeyError (key : string)
| ValueError (message : string)
| TypeError (message : string)
| RuntimeError (message : string)
| ValidationError (message : string)
| PyMongoError (message : string)
| HTTPException (status_code : Z) (detail : string).

(** [str(e)]: the message each [__init__] hands to [Exception.__init__]. *)
Definition str (e : exn) : string :=
  match e with
  | ProductNotFoundException product_id =>
      "Product with id '" +:+ product_id +:+ "' not found"
  | ProductAlreadyDeletedException product_id =>
      "Product with id '" +:+ product_id +:+ "' has been deleted"
  | ProductValidationException message => message
  | DatabaseException message => "Database error: " +:+ message
  | KeyError key => "'" +:+ key +:+ "'"
  | ValueError message => message
  | TypeError message => message
  | RuntimeError message => message
  | ValidationError message => message
  | PyMongoError message => message
  | HTTPException status_code detail => pretty status_code +:+ ": " +:+ detail
  end.

(** ** The world and the monad of effects *)

Record World := mkWorld {
  documents : list document;      (* the collection, in natural order *)
  next_oid : nat;                 (* next ObjectId the driver hands out *)
  utc : nat → datetime;           (* successive readings of the UTC clock *)
  ticks : nat;                    (* readings taken so far *)
  uuids : nat → UUID;             (* successive results of uuid4() *)
  draws : nat;                    (* UUIDs drawn so far *)
  outages : nat → option string;  (* driver call i fails with this message *)
  calls : nat                     (* driver calls made so far *)
}.

Definition set_documents (docs : list document) (w : World) : World :=
  mkWorld docs (next_oid w) (utc w) (ticks w) (uuids w) (draws w)
          (outages w) (calls w).

Definition set_next_oid (n : nat) (w : World) : World :=
  mkWorld (documents w) n (utc w) (ticks w) (uuids w) (draws w)
          (outages w) (calls w).

Definition set_ticks (n : nat) (w : World) : World :=
  mkWorld (documents w) (next_oid w) (utc w) n (uuids w) (draws w)
          (outages w) (calls w).

Definition set_draws (n : nat) (w : World) : World :=
  mkWorld (documents w) (next_oid w) (utc w) (ticks w) (uuids w) n
          (outages w) (calls w).

Definition set_calls (n : nat) (w : World) : World :=
  mkWorld (documents w) (next_oid w) (utc w) (ticks w) (uuids w) (draws w)
          (outages w) n.

Inductive result (A : Type) :=
| Ok (a : A)
| Raise (e : exn).
Arguments Ok {A} a.
Arguments Raise {A} e.

Definition M (A : Type) : Type := World → result A * World.

#[export] Instance M_ret : MRet M := λ A a w, (Ok a, w).

#[export] Instance M_bind : MBind M := λ A B f m w,
  match m w with
  | (Ok a, w') => f a w'
  | (Raise e, w') => (Raise e, w')
  end.

Definition raise {A} (e : exn) : M A := λ w, (Raise e, w).

(** [try: body  except Exception as e: handler e]. *)
Definition try_except {A} (body : M A) (handler : exn → M A) : M A := λ w,
  match body w with
  | (Ok a, w') => (Ok a, w')
  | (Raise e, w') => handler e w'
  end.

(** [for x in xs: ys.append(f x)]. *)
Fixpoint for_each {A B} (f : A → M B) (xs : list A) : M (list B) :=
  match xs with
  | [] => mret []
  | x :: xs' => y ← f x; ys ← for_each f xs'; mret (y :: ys)
  end.

(** ** Coroutines and the event loop

    An [async def] runs without interruption until it awaits the document
    store; while it waits, the event loop may run other tasks. A coroutine
    is therefore a sequence of blocks, each run in one piece, with the
    rest depending on what the block returned: the store calls, and the
    synchronous code between two of them. The store serves a call some
    time after the synchronous code before it has run and some time
    before the code after it resumes, so other tasks may run between any
    two blocks. *)
Inductive coroutine (A : Type) : Type :=
| Last (m : M A)
| Step {X : Type} (m : M X) (k : X → coroutine A).
Arguments Last {A} m.
Arguments Step {A X} m k.

(** The coroutine run from its first block to its last with no other task
    in between. *)
Fixpoint run_alone {A} (c : coroutine A) : M A :=
  match c with
  | Last m => m
  | Step m k => x ← m; run_alone (k x)
  end.

(** A task of the event loop is still running, or has returned or raised. *)
Inductive task (A : Type) : Type :=
| Running (c : coroutine A)
| Finished (r : result A).
Arguments Running {A} c.
Arguments Finished {A} r.

(** Runs the next block of a coroutine; an exception that nothing catches
    ends it. *)
Definition advance {A} (c : coroutine A) (w : World) : task A * World :=
  match c with
  | Last m => let '(r, w') := m w in (Finished r, w')
  | Step m k =>
      match m w with
      | (Ok x, w') => (Running (k x), w')
      | (Raise e, w') => (Finished (Raise e), w')
      end
  end.

(** The event loop: at each turn the named task runs its next block; a
    turn given to a finished or missing task passes. *)
Fixpoint schedule {A} (turns : list nat) (tasks : list (task A)) (w : World)
  : list (task A) * World :=
  match turns with
  | [] => (tasks, w)
  | i :: rest =>
      match tasks !! i with
      | Some (Running c) =>
          let '(t, w') := advance c w in schedule rest (<[i := t]> tasks) w'
      | _ => schedule rest tasks w
      end
  end.

(** [datetime.utcnow()]. *)
Definition utcnow : M datetime := λ w,
  (Ok (utc w (ticks w)), set_ticks (S (ticks w)) w).

(** [uuid4()]. *)
Definition uuid4 : M UUID := λ w,
  (Ok (uuids w (draws w)), set_draws (S (draws w)) w).

(** [data[key]]. *)
Definition getitem (d : document) (key : string) : M value :=
  match d !! key with
  | Some v => mret v
  | None => raise (KeyError key)
  end.

(** ** The document store

    The part of MongoDB the repository uses, on one collection carrying
    the unique index on [id] that [connect_db] creates. Every driver call
    may fail (connectivity, timeout) before touching the collection. *)

Definition driver_call : M () := λ w,
  match outages w (calls w) with
  | Some message => (Raise (PyMongoError message), set_calls (S (calls w)) w)
  | None => (Ok (), set_calls (S (calls w)) w)
  end.

Definition get_documents : M (list document) := λ w, (Ok (documents w), w).

Definition put_documents (docs : list document) : M () := λ w,
  (Ok (), set_documents docs w).

Definition fresh_oid : M nat := λ w,
  (Ok (next_oid w), set_next_oid (S (next_oid w)) w).

#[export] Instance UUID_eq_dec : EqDecision UUID.
Proof.
  intros [a Ha] [b Hb]. destruct (decide (a = b)) as [->|Hne].
  - left. f_equal. apply proof_irrel.
  - right. intros [=]. done.
Defined.

#[export] Instance datetime_eq_dec : EqDecision datetime.
Proof.
  intros [y1 m1 d1 h1 i1 s1 u1 H1] [y2 m2 d2 h2 i2 s2 u2 H2].
  destruct (decide ((y1, m1, d1, h1, i1, s1, u1) = (y2, m2, d2, h2, i2, s2, u2)))
    as [E|Hne].
  - left. injection E as -> -> -> -> -> -> ->. f_equal. apply proof_irrel.
  - right. intros [=]. apply Hne. congruence.
Defined.

#[export] Instance float_eq_dec : EqDecision float.
Proof. solve_decision. Defined.

#[export] Instance value_eq_dec : EqDecision value.
Proof. solve_decision. Defined.

(** A query document of equalities [{field: value, ...}]: a stored document
    matches when each field has that value; a [None] in the query also
    matches a document without the field. *)
Definition field_matches (doc : document) (key : string) (v : value) : Prop :=
  match v with
  | VNone => doc !! key = None ∨ doc !! key = Some VNone
  | _ => doc !! key = Some v
  end.

#[export] Instance field_matches_dec doc key v : Decision (field_matches doc key v).
Proof. destruct v; simpl; apply _. Defined.

Definition matches (query doc : document) : bool :=
  bool_decide (map_Forall (field_matches doc) query).

(** [collection.find_one(query)]. *)
Definition find_one (query : document) : M (option document) :=
  _ ← driver_call;
  docs ← get_documents;
  mret (head (filter (λ d, Is_true (matches query d)) docs)).

(** [collection.find(query)] followed by [cursor.to_list(length=None)]. *)
Definition find (query : document) : M (list document) :=
  _ ← driver_call;
  docs ← get_documents;
  mret (filter (λ d, Is_true (matches query d)) docs).

(** [collection.insert_one(document)]: refuses a second document with the
    same [id] (unique index), otherwise stores the document under a fresh
    [_id]. *)
Definition insert_one (doc : document) : M () :=
  _ ← driver_call;
  docs ← get_documents;
  if bool_decide (Exists (λ d, d !! "id" = doc !! "id") docs)
  then raise (PyMongoError "E11000 duplicate key error")
  else
    oid ← fresh_oid;
    put_documents (docs ++ [<["_id" := VObjectId oid]> doc]).

Fixpoint set_first (query fields : document) (docs : list document)
  : list document :=
  match docs with
  | [] => []
  | d :: rest =>
      if matches query d then (fields ∪ d) :: rest
      else d :: set_first query fields rest
  end.

(** [collection.update_one(query, {"$set": fields})]: the first matching
    document takes the given fields; nothing happens when none matches. *)
Definition update_one (query fields : document) : M () :=
  _ ← driver_call;
  docs ← get_documents;
  put_documents (set_first query fields docs).

Fixpoint remove_first (query : document) (docs : list document)
  : list document * Z :=
  match docs with
  | [] => ([], 0)
  | d :: rest =>
      if matches query d then (rest, 1)
      else let '(rest', n) := remove_first query rest in (d :: rest', n)
  end.

(** [collection.delete_one(query)], returning [result.deleted_count]. *)
Definition delete_one (query : document) : M Z :=
  _ ← driver_call;
  docs ← get_documents;
  let '(docs', n) := remove_first query docs in
  _ ← put_documents docs';
  mret n.

(** [collection.count_documents(query)]. *)
Definition count_documents (query : document) : M Z :=
  _ ← driver_call;
  docs ← get_documents;
  mret (Z.of_nat (length (filter (λ d, Is_true (matches query d)) docs))).

(** ** Typed reading of dictionary values

    The fields of a product carry the types of their annotations, and the
    embedding covers the documents whose entries have these types: a
    [str], a [UUID] or a [datetime] where the code tests for them, and
    strings in the formats [str(UUID)] and [isoformat()] write. Python
    itself checks no type here: a value of another type would be stored
    in the object as it is, and a false one in the place of the id or of
    a timestamp would reach the [or] of [__init__]. Such documents are
    outside the embedding, which reports reading them as [TypeError] or
    [ValueError]. *)

Definition as_str (v : value) : M string :=
  match v with VStr s => mret s | _ => raise (TypeError "str expected") end.

Definition as_optional_str (v : value) : M (option string) :=
  match v with
  | VNone => mret None
  | VStr s => mret (Some s)
  | _ => raise (TypeError "Optional[str] expected")
  end.

Definition as_float (v : value) : M float :=
  match v with VFloat x => mret x | _ => raise (TypeError "float expected") end.

Definition as_int (v : value) : M Z :=
  match v with VInt n => mret n | _ => raise (TypeError "int expected") end.

Definition is_str (v : value) : bool :=
  match v with VStr _ => true | _ => false end.

(** [UUID(s)]. *)
Definition UUID_of_str (s : string) : M UUID :=
  match uuid_parse s with
  | Some u => mret u
  | None => raise (ValueError "badly formed hexadecimal UUID string")
  end.

(** [datetime.fromisoformat(s)]. *)
Definition datetime_fromisoformat (s : string) : M datetime :=
  match fromisoformat s with
  | Some t => mret t
  | None => raise (ValueError ("Invalid isoformat string: '" +:+ s +:+ "'"))
  end.

Definition optional_str_value (o : option string) : value :=
  match o with Some s => VStr s | None => VNone end.

(** ** models/product.py *)

Module Product.

Record t := mk {
  id : UUID;
  name : string;
  description : option string;
  category : string;
  price : float;
  stock : Z;
  created_at : datetime;
  updated_at : datetime;
  deleted_at : option datetime
}.

(** [Product.__init__]: [id or uuid4()], [created_at or utcnow()] and
    [updated_at or utcnow()], evaluated in this order; UUID and datetime
    objects are always true, so [or] falls through on [None] only. *)
Definition init (name category : string) (price : float) (stock : Z)
    (description : option string) (id : option UUID)
    (created_at updated_at deleted_at : option datetime) : M t :=
  id ← (match id with Some u => mret u | None => uuid4 end);
  created_at ← (match created_at with Some t => mret t | None => utcnow end);
  updated_at ← (match updated_at with Some t => mret t | None => utcnow end);
  mret (mk id name description category price stock
           created_at updated_at deleted_at).

Definition to_dict (self : t) : document :=
  <["id" := VStr (uuid_str (id self))]>
  (<["name" := VStr (name self)]>
  (<["description" := optional_str_value (description self)]>
  (<["category" := VStr (category self)]>
  (<["price" := VFloat (price self)]>
  (<["stock" := VInt (stock self)]>
  (<["createdAt" := VStr (isoformat (created_at self))]>
  (<["updatedAt" := VStr (isoformat (updated_at self))]>
  (<["deletedAt" := match deleted_at self with
                    | Some t => VStr (isoformat t)
                    | None => VNone
                    end]> ∅)))))))).

Definition from_dict (data : document) : M t :=
  v ← getitem data "id";
  id ← (if is_str v then s ← as_str v; UUID_of_str s
        else match v with
             | VUuid u => mret u
             | _ => raise (TypeError "UUID expected")
             end);
  name ← getitem data "name" ≫= as_str;
  description ← as_optional_str (dict_get data "description");
  category ← getitem data "category" ≫= as_str;
  price ← getitem data "price" ≫= as_float;
  stock ← getitem data "stock" ≫= as_int;
  v ← getitem data "createdAt";
  created_at ← (if is_str v then s ← as_str v; datetime_fromisoformat s
                else match v with
                     | VDatetime t => mret t
                     | _ => raise (TypeError "datetime expected")
                     end);
  v ← getitem data "updatedAt";
  updated_at ← (if is_str v then s ← as_str v; datetime_fromisoformat s
                else match v with
                     | VDatetime t => mret t
                     | _ => raise (TypeError "datetime expected")
                     end);
  deleted_at ← (if truthy (dict_get data "deletedAt")
                   && is_str (dict_get data "deletedAt")
                then v ← getitem data "deletedAt";
                     s ← as_str v; t ← datetime_fromisoformat s; mret (Some t)
                else match dict_get data "deletedAt" with
                     | VNone => mret None
                     | VDatetime t => mret (Some t)
                     | _ => raise (TypeError "Optional[datetime] expected")
                     end);
  init name category price stock description (Some id)
       (Some created_at) (Some updated_at) deleted_at.

Definition soft_delete (self : t) : M t :=
  now ← utcnow;
  let self := mk (id self) (name self) (description self) (category self)
                 (price self) (stock self) (created_at self)
                 (updated_at self) (Some now) in
  now ← utcnow;
  mret (mk (id self) (name self) (description self) (category self)
           (price self) (stock self) (created_at self) now (deleted_at self)).

Definition is_deleted (self : t) : bool :=
  match deleted_at self with Some _ => true | None => false end.

Definition update (self : t) (name description category : option string)
    (price : option float) (stock : option Z) : M t :=
  let self := match name with
              | Some v => mk (id self) v (Product.description self)
                             (Product.category self) (Product.price self)
                             (Product.stock self) (created_at self)
                             (updated_at self) (deleted_at self)
              | None => self
              end in
  let self := match description with
              | Some v => mk (id self) (Product.name self) (Some v)
                             (Product.category self) (Product.price self)
                             (Product.stock self) (created_at self)
                             (updated_at self) (deleted_at self)
              | None => self
              end in
  let self := match category with
              | Some v => mk (id self) (Product.name self)
                             (Product.description self) v (Product.price self)
                             (Product.stock self) (created_at self)
                             (updated_at self) (deleted_at self)
              | None => self
              end in
  let self := match price with
              | Some v => mk (id self) (Product.name self)
                             (Product.description self)
                             (Product.category self) v
                             (Product.stock self) (created_at self)
                             (updated_at self) (deleted_at self)
              | None => self
              end in
  let self := match stock with
              | Some v => mk (id self) (Product.name self)
                             (Product.description self)
                             (Product.category self) (Product.price self)
                             v (created_at self)
                             (updated_at self) (deleted_at self)
              | None => self
              end in
  now ← utcnow;
  mret (mk (id self) (Product.name self) (Product.description self)
           (Product.category self) (Product.price self) (Product.stock self)
           (created_at self) now (deleted_at self)).

End Product.

(** ** schemas/product.py *)

Module ProductCreate.
Record t := mk {
  name : string;
  description : option string;
  category : string;
  price : float;
  stock : Z
}.
End ProductCreate.

Module ProductUpdate.

(** Every field is optional with default [None]; [model_fields_set] holds
    the names of the fields the request body spelled out, be it with a
    value or with [null]. *)
Record t := mk {
  name : option string;
  description : option string;
  category : option string;
  price : option float;
  stock : option Z;
  model_fields_set : gset string
}.

Definition model_dump (self : t) : document :=
  <["name" := optional_str_value (name self)]>
  (<["description" := optional_str_value (description self)]>
  (<["category" := optional_str_value (category self)]>
  (<["price" := match price self with Some x => VFloat x | None => VNone end]>
  (<["stock" := match stock self with Some n => VInt n | None => VNone end]>
   ∅)))).

(** [self.model_dump(exclude_unset=True)]. *)
Definition model_dump_exclude_unset (self : t) : document :=
  filter (λ kv, kv.1 ∈ model_fields_set self) (model_dump self).

End ProductUpdate.

Module ProductResponse.

Record t := mk {
  id : UUID;
  name : string;
  description : option string;
  category : string;
  price : float;
  stock : Z;
  createdAt : datetime;
  updatedAt : datetime;
  deletedAt : option datetime
}.

Definition required (data : document) (key : string) : M value :=
  match data !! key with
  | Some v => mret v
  | None => raise (ValidationError (key +:+ ": Field required"))
  end.

Definition uuid_field (v : value) : M UUID :=
  match v with
  | VUuid u => mret u
  | VStr s =>
      match uuid_parse s with
      | Some u => mret u
      | None => raise (ValidationError "Input should be a valid UUID")
      end
  | _ => raise (ValidationError "Input should be a valid UUID")
  end.

Definition datetime_field (v : value) : M datetime :=
  match v with
  | VDatetime t => mret t
  | VStr s =>
      match fromisoformat s with
      | Some t => mret t
      | None => raise (ValidationError "Input should be a valid datetime")
      end
  | _ => raise (ValidationError "Input should be a valid datetime")
  end.

Definition str_field (v : value) : M string :=
  match v with
  | VStr s => mret s
  | _ => raise (ValidationError "Input should be a valid string")
  end.

(** [ProductResponse] built from the entries of [data] as keyword
    arguments: pydantic checks each declared field and reads the string
    forms of UUIDs and timestamps. *)
Definition validate (data : document) : M t :=
  id ← required data "id" ≫= uuid_field;
  name ← required data "name" ≫= str_field;
  description ← (match dict_get data "description" with
                 | VNone => mret None
                 | v => s ← str_field v; mret (Some s)
                 end);
  category ← required data "category" ≫= str_field;
  price ← (v ← required data "price";
           match v with
           | VFloat x => mret x
           | _ => raise (ValidationError "Input should be a valid number")
           end);
  stock ← (v ← required data "stock";
           match v with
           | VInt n => mret n
           | _ => raise (ValidationError "Input should be a valid integer")
           end);
  createdAt ← required data "createdAt" ≫= datetime_field;
  updatedAt ← required data "updatedAt" ≫= datetime_field;
  deletedAt ← (match dict_get data "deletedAt" with
               | VNone => mret None
               | v => t ← datetime_field v; mret (Some t)
               end);
  mret (mk id name description category price stock
           createdAt updatedAt deletedAt).

End ProductResponse.

Module ProductListResponse.
Record t := mk {
  products : list ProductResponse.t;
  total : Z
}.
End ProductListResponse.

(** ** repositories/product_repository.py *)

Module ProductRepository.

Definition create (product : Product.t) : M Product.t :=
  try_except
    (let document := Product.to_dict product in
     _ ← insert_one document;
     mret product)
    (λ e, raise (DatabaseException ("Failed to create product: " +:+ str e))).

(** [if document:] is true for every non-empty dictionary. *)
Definition find_by_id (product_id : UUID) : M (option Product.t) :=
  try_except
    (document ← find_one {["id" := VStr (uuid_str product_id)]};
     match document with
     | Some document =>
         if bool_decide (document = ∅) then mret None
         else
           let document := delete "_id" document in
           product ← Product.from_dict document;
           mret (Some product)
     | None => mret None
     end)
    (λ e, raise (DatabaseException ("Failed to find product: " +:+ str e))).

Definition find_all (include_deleted : bool) : M (list Product.t) :=
  try_except
    (let query : document :=
       if include_deleted then ∅ else {["deletedAt" := VNone]} in
     documents ← find query;
     products ← for_each (λ doc, Product.from_dict (delete "_id" doc)) documents;
     mret products)
    (λ e, raise (DatabaseException ("Failed to find products: " +:+ str e))).

Definition update (product : Product.t) : M Product.t :=
  try_except
    (let document := Product.to_dict product in
     _ ← update_one {["id" := VStr (uuid_str (Product.id product))]} document;
     mret product)
    (λ e, raise (DatabaseException ("Failed to update product: " +:+ str e))).

Definition delete (product_id : UUID) : M bool :=
  try_except
    (deleted_count ← delete_one {["id" := VStr (uuid_str product_id)]};
     mret (0 <? deleted_count))
    (λ e, raise (DatabaseException ("Failed to delete product: " +:+ str e))).

Definition exists_ (product_id : UUID) : M bool :=
  try_except
    (count ← count_documents {["id" := VStr (uuid_str product_id)]};
     mret (0 <? count))
    (λ e, raise (DatabaseException
                   ("Failed to check product existence: " +:+ str e))).

End ProductRepository.

(** ** services/product_service.py *)

Module ProductService.

(** Each operation is written with its blocks: [Step] for a block that is
    followed by more, [Last] for the final one. The awaits of the source
    are the Repository calls. *)

Definition create_product (product_data : ProductCreate.t)
  : coroutine Product.t :=
  Step (Product.init (ProductCreate.name product_data)
                     (ProductCreate.category product_data)
                     (ProductCreate.price product_data)
                     (ProductCreate.stock product_data)
                     (ProductCreate.description product_data)
                     None None None None)
       (λ product, Last (ProductRepository.create product)).

(** A [Product] object is always true, so [if not product] is the test for
    [None]. *)
Definition get_product_by_id (product_id : UUID) : coroutine Product.t :=
  Step (ProductRepository.find_by_id product_id)
       (λ product,
          Last (match product with
                | None => raise (ProductNotFoundException (uuid_str product_id))
                | Some product =>
                    if Product.is_deleted product
                    then raise (ProductAlreadyDeletedException
                                  (uuid_str product_id))
                    else mret product
                end)).

Definition get_all_products : coroutine (list Product.t) :=
  Step (ProductRepository.find_all false) (λ products, Last (mret products)).

(** The value [update_data.get(field)] yields, at the type of the
    parameter of [Product.update] it is passed for. *)
Definition optional_str (v : value) : option string :=
  match v with VStr s => Some s | _ => None end.

Definition optional_float (v : value) : option float :=
  match v with VFloat x => Some x | _ => None end.

Definition optional_int (v : value) : option Z :=
  match v with VInt n => Some n | _ => None end.

(** The look-up and the write are two store calls: other tasks may run
    after the look-up and before the write. *)
Definition update_product (product_id : UUID) (product_data : ProductUpdate.t)
  : coroutine Product.t :=
  Step (ProductRepository.find_by_id product_id)
       (λ product,
          match product with
          | None =>
              Last (raise (ProductNotFoundException (uuid_str product_id)))
          | Some product =>
              if Product.is_deleted product
              then Last (raise (ProductAlreadyDeletedException
                                  (uuid_str product_id)))
              else
                let update_data :=
                  ProductUpdate.model_dump_exclude_unset product_data in
                Step (Product.update product
                        (optional_str (dict_get update_data "name"))
                        (optional_str (dict_get update_data "description"))
                        (optional_str (dict_get update_data "category"))
                        (optional_float (dict_get update_data "price"))
                        (optional_int (dict_get update_data "stock")))
                     (λ product, Last (ProductRepository.update product))
          end).

Definition delete_product (product_id : UUID) : coroutine Product.t :=
  Step (ProductRepository.find_by_id product_id)
       (λ product,
          match product with
          | None =>
              Last (raise (ProductNotFoundException (uuid_str product_id)))
          | Some product =>
              if Product.is_deleted product
              then Last (raise (ProductAlreadyDeletedException
                                  (uuid_str product_id)))
              else
                Step (Product.soft_delete product)
                     (λ product, Last (ProductRepository.update product))
          end).

End ProductService.

(** ** routers/products.py

    Each endpoint is [try: ... except ...:]; the chain of [except] clauses
    of an endpoint is the function that follows it. An endpoint awaits
    only inside its Service call; it is given here as the handler run
    alone, from the request to its answer. *)

Module Router.

Definition HTTP_400_BAD_REQUEST : Z := 400.
Definition HTTP_404_NOT_FOUND : Z := 404.
Definition HTTP_410_GONE : Z := 410.
Definition HTTP_500_INTERNAL_SERVER_ERROR : Z := 500.

Definition unexpected (e : exn) : string :=
  "An unexpected error occurred: " +:+ str e.

(** POST /products *)
Definition create_product_except {A} (e : exn) : M A :=
  match e with
  | ProductValidationException _ =>
      raise (HTTPException HTTP_400_BAD_REQUEST (str e))
  | DatabaseException _ =>
      raise (HTTPException HTTP_500_INTERNAL_SERVER_ERROR (str e))
  | _ => raise (HTTPException HTTP_500_INTERNAL_SERVER_ERROR (unexpected e))
  end.

Definition create_product (product_data : ProductCreate.t)
  : M ProductResponse.t :=
  try_except
    (product ← run_alone (ProductService.create_product product_data);
     ProductResponse.validate (Product.to_dict product))
    create_product_except.

(** GET /products *)
Definition get_all_products_except {A} (e : exn) : M A :=
  match e with
  | DatabaseException _ =>
      raise (HTTPException HTTP_500_INTERNAL_SERVER_ERROR (str e))
  | _ => raise (HTTPException HTTP_500_INTERNAL_SERVER_ERROR (unexpected e))
  end.

Definition get_all_products : M ProductListResponse.t :=
  try_except
    (products ← run_alone (ProductService.get_all_products);
     product_responses ←
       for_each (λ p, ProductResponse.validate (Product.to_dict p)) products;
     mret (ProductListResponse.mk product_responses
             (Z.of_nat (length products))))
    get_all_products_except.

(** GET /products/{product_id} *)
Definition get_product_except {A} (e : exn) : M A :=
  match e with
  | ProductNotFoundException _ =>
      raise (HTTPException HTTP_404_NOT_FOUND (str e))
  | ProductAlreadyDeletedException _ =>
      raise (HTTPException HTTP_410_GONE (str e))
  | DatabaseException _ =>
      raise (HTTPException HTTP_500_INTERNAL_SERVER_ERROR (str e))
  | _ => raise (HTTPException HTTP_500_INTERNAL_SERVER_ERROR (unexpected e))
  end.

Definition get_product (product_id : UUID) : M ProductResponse.t :=
  try_except
    (product ← run_alone (ProductService.get_product_by_id product_id);
     ProductResponse.validate (Product.to_dict product))
    get_product_except.

(** PUT /products/{product_id} *)
Definition update_product_except {A} (e : exn) : M A :=
  match e with
  | ProductNotFoundException _ =>
      raise (HTTPException HTTP_404_NOT_FOUND (str e))
  | ProductAlreadyDeletedException _ =>
      raise (HTTPException HTTP_410_GONE (str e))
  | ProductValidationException _ =>
      raise (HTTPException HTTP_400_BAD_REQUEST (str e))
  | DatabaseException _ =>
      raise (HTTPException HTTP_500_INTERNAL_SERVER_ERROR (str e))
  | _ => raise (HTTPException HTTP_500_INTERNAL_SERVER_ERROR (unexpected e))
  end.

Definition update_product (product_id : UUID) (product_data : ProductUpdate.t)
  : M ProductResponse.t :=
  try_except
    (product ← run_alone (ProductService.update_product product_id product_data);
     ProductResponse.validate (Product.to_dict product))
    update_product_except.

(** DELETE /products/{product_id} *)
Definition delete_product_except {A} (e : exn) : M A :=
  match e with
  | ProductNotFoundException _ =>
      raise (HTTPException HTTP_404_NOT_FOUND (str e))
  | ProductAlreadyDeletedException _ =>
      raise (HTTPException HTTP_410_GONE (str e))
  | DatabaseException _ =>
      raise (HTTPException HTTP_500_INTERNAL_SERVER_ERROR (str e))
  | _ => raise (HTTPException HTTP_500_INTERNAL_SERVER_ERROR (unexpected e))
  end.

Definition delete_product (product_id : UUID) : M ProductResponse.t :=
  try_except
    (product ← run_alone (ProductService.delete_product product_id);
     ProductResponse.validate (Product.to_dict product))
    delete_product_except.

End Router.

(** ** config.py and database.py *)

Module Settings.
Record t := mk {
  mongodb_url : string;
  mongodb_database : string;
  mongodb_collection : string
}.

Definition defaults : t :=
  mk "mongodb://localhost:27017" "products_db" "products".
End Settings.

Module Database.

(** A client knows its server and whether [close()] was called on it; a
    collection handle names its database and collection. *)
Record AsyncIOMotorClient := mkClient {
  url : string;
  closed : bool
}.

Record AsyncIOMotorCollection := mkCollection {
  database_name : string;
  collection_name : string
}.

(** The class attributes [client] and [collection], the indexes requested
    from the server and the lines printed so far. *)
Record t := mk {
  client : option AsyncIOMotorClient;
  collection : option AsyncIOMotorCollection;
  indexes : list (string * bool);
  stdout : list string
}.

Definition initial : t := mk None None [] [].

Definition connect_db (settings : Settings.t) (cls : t) : t :=
  let client := mkClient (Settings.mongodb_url settings) false in
  let collection := mkCollection (Settings.mongodb_database settings)
                                 (Settings.mongodb_collection settings) in
  mk (Some client) (Some collection)
     (indexes cls ++ [("id", true); ("category", false); ("deletedAt", false)])
     (stdout cls ++ ["Connected to MongoDB: "
                      +:+ Settings.mongodb_database settings]).

(** [if cls.client:] holds for every client object. *)
Definition close_db (cls : t) : t :=
  match client cls with
  | Some c =>
      mk (Some (mkClient (url c) true)) (collection cls) (indexes cls)
         (stdout cls ++ ["MongoDB connection closed"])
  | None => cls
  end.

Definition get_collection (cls : t) : result AsyncIOMotorCollection :=
  match collection cls with
  | None => Raise (RuntimeError "Database not connected. Call connect_db() first.")
  | Some c => Ok c
  end.

End Database.

(** ** Notions used to state the properties *)

(** A computation that neither reads nor changes the world. *)
Definition stateless {A} (m : M A) : Prop := ∃ r, ∀ w, m w = (r, w).

(** 1970-01-01T00:00:00 and the nil UUID. *)
Definition epoch : datetime := mkDatetime 1970 1 1 0 0 0 0 I.
Definition nil_uuid : UUID := mkUUID 0 I.

(** An empty collection, a stopped clock and a driver that never fails. *)
Definition blank : World :=
  mkWorld [] 0 (λ _, epoch) 0 (λ _, nil_uuid) 0 (λ _, None) 0.

(** What [Product.from_dict] makes of a document. *)
Definition read (data : document) : result Product.t :=
  (Product.from_dict data blank).1.

(** The world after one more driver call. *)
Definition called (w : World) : World := set_calls (S (calls w)) w.

(** The stored document carries the string form of this id. *)
Definition has_id (product_id : UUID) (d : document) : Prop :=
  d !! "id" = Some (VStr (uuid_str product_id)).

#[export] Instance has_id_dec product_id d : Decision (has_id product_id d).
Proof. unfold has_id. apply _. Defined.

(** What the loop of [find_all] makes of the documents it is given. *)
Fixpoint read_all (docs : list document) : result (list Product.t) :=
  match docs with
  | [] => Ok []
  | d :: rest =>
      match read (delete "_id" d) with
      | Ok p =>
          match read_all rest with
          | Ok ps => Ok (p :: ps)
          | Raise e => Raise e
          end
      | Raise e => Raise e
      end
  end.

(** The stored document is soft-deleted: its [deletedAt] is neither
    missing nor [None]. *)
Definition marked_deleted (d : document) : Prop := dict_get d "deletedAt" ≠ VNone.

#[export] Instance marked_deleted_dec d : Decision (marked_deleted d).
Proof. unfold marked_deleted. apply _. Defined.

(** The three Service operations that address one product. *)
Inductive operation :=
| GetProductById
| UpdateProduct (product_data : ProductUpdate.t)
| DeleteProduct.

Definition service_operation (op : operation) (product_id : UUID)
  : coroutine Product.t :=
  match op with
  | GetProductById => ProductService.get_product_by_id product_id
  | UpdateProduct product_data =>
      ProductService.update_product product_id product_data
  | DeleteProduct => ProductService.delete_product product_id
  end.

(** The operation run alone, with no other task between its blocks. *)
Definition run_operation (op : operation) (product_id : UUID) : M Product.t :=
  run_alone (service_operation op product_id).

(** A call of any of the five Service operations. *)
Inductive call :=
| Create (product_data : ProductCreate.t)
| GetAll
| On (op : operation) (product_id : UUID).

(** Performs the call alone and keeps whether it succeeded. *)
Definition perform (c : call) : M () :=
  match c with
  | Create product_data =>
      _ ← run_alone (ProductService.create_product product_data); mret ()
  | GetAll => _ ← run_alone ProductService.get_all_products; mret ()
  | On op product_id => _ ← run_operation op product_id; mret ()
  end.

(** What an operation does with the active product it found. *)
Definition proceed (op : operation) (product : Product.t) : M Product.t :=
  match op with
  | GetProductById => mret product
  | UpdateProduct product_data =>
      let update_data := ProductUpdate.model_dump_exclude_unset product_data in
      product ← Product.update product
                  (ProductService.optional_str (dict_get update_data "name"))
                  (ProductService.optional_str (dict_get update_data "description"))
                  (ProductService.optional_str (dict_get update_data "category"))
                  (ProductService.optional_float (dict_get update_data "price"))
                  (ProductService.optional_int (dict_get update_data "stock"));
      ProductRepository.update product
  | DeleteProduct =>
      product ← Product.soft_delete product;
      ProductRepository.update product
  end.

(** The blocks an operation still has to run once its look-up has found
    an active product. *)
Definition resume (op : operation) (product : Product.t)
  : coroutine Product.t :=
  match op with
  | GetProductById => Last (mret product)
  | UpdateProduct product_data =>
      let update_data := ProductUpdate.model_dump_exclude_unset product_data in
      Step (Product.update product
              (ProductService.optional_str (dict_get update_data "name"))
              (ProductService.optional_str (dict_get update_data "description"))
              (ProductService.optional_str (dict_get update_data "category"))
              (ProductService.optional_float (dict_get update_data "price"))
              (ProductService.optional_int (dict_get update_data "stock")))
           (λ product, Last (ProductRepository.update product))
  | DeleteProduct =>
      Step (Product.soft_delete product)
           (λ product, Last (ProductRepository.update product))
  end.

(** A task that has nothing left to do but raise. *)
Definition raising {A} (e : exn) : task A := Running (Last (raise e)).



(** A clock that never runs backwards. *)
Definition monotone (clock : nat → datetime) : Prop :=
  ∀ i j, (i ≤ j)%nat → datetime_le (clock i) (clock j).

(** The state-changing operations of the domain model. *)
Inductive mutation :=
| ApplyPartialUpdate (name description category : option string)
                     (price : option float) (stock : option Z)
| MarkDeleted.

Definition mutate (m : mutation) (p : Product.t) : M Product.t :=
  match m with
  | ApplyPartialUpdate name description category price stock =>
      Product.update p name description category price stock
  | MarkDeleted => Product.soft_delete p
  end.

Fixpoint mutate_all (ms : list mutation) (p : Product.t) : M Product.t :=
  match ms with
  | [] => mret p
  | m :: rest => q ← mutate m p; mutate_all rest q
  end.

(** Timestamps handed to the constructor that respect the invariant: in
    order, and a creation time that the clock has reached. *)
Definition timestamps_in_order (created_at updated_at : option datetime)
    (w : World) : Prop :=
  match created_at, updated_at with
  | None, None => True
  | Some c, None => ∀ k, (ticks w ≤ k)%nat → datetime_le c (utc w k)
  | None, Some u => datetime_le (utc w (ticks w)) u
  | Some c, Some u =>
      datetime_le c u ∧ ∀ k, (ticks w ≤ k)%nat → datetime_le c (utc w k)
  end.

(** What [update_data.get(field)] hands to [Product.update]: the value of
    the field when the request spelled the field out, [None] otherwise. *)
Definition supplied {A} (product_data : ProductUpdate.t) (field : string)
    (v : option A) : option A :=
  if decide (field ∈ ProductUpdate.model_fields_set product_data)
  then v else None.

(** The field was given a value other than [null]. *)
Definition has_value (product_data : ProductUpdate.t) (field : string) : Prop :=
  dict_get (ProductUpdate.model_dump product_data) field ≠ VNone.

#[export] Instance has_value_dec product_data field :
  Decision (has_value product_data field).
Proof. unfold has_value. apply _. Defined.


(** The response a product is rendered as. *)
Definition response_of (p : Product.t) : ProductResponse.t :=
  ProductResponse.mk (Product.id p) (Product.name p) (Product.description p)
                     (Product.category p) (Product.price p) (Product.stock p)
                     (Product.created_at p) (Product.updated_at p)
                     (Product.deleted_at p).

(** The requests of the five product routes. *)
Inductive request :=
| POST_products (product_data : ProductCreate.t)
| GET_products
| GET_product (product_id : UUID)
| PUT_product (product_id : UUID) (product_data : ProductUpdate.t)
| DELETE_product (product_id : UUID).

Inductive body :=
| ProductBody (r : ProductResponse.t)
| ListBody (r : ProductListResponse.t).

(** The endpoint function FastAPI calls for a request. *)
Definition endpoint (req : request) : M body :=
  match req with
  | POST_products product_data =>
      r ← Router.create_product product_data; mret (ProductBody r)
  | GET_products => r ← Router.get_all_products; mret (ListBody r)
  | GET_product product_id =>
      r ← Router.get_product product_id; mret (ProductBody r)
  | PUT_product product_id product_data =>
      r ← Router.update_product product_id product_data; mret (ProductBody r)
  | DELETE_product product_id =>
      r ← Router.delete_product product_id; mret (ProductBody r)
  end.

(** The [try] block of that endpoint, without its [except] clauses. *)
Definition attempt (req : request) : M body :=
  match req with
  | POST_products product_data =>
      product ← run_alone (ProductService.create_product product_data);
      r ← ProductResponse.validate (Product.to_dict product);
      mret (ProductBody r)
  | GET_products =>
      products ← run_alone (ProductService.get_all_products);
      product_responses ←
        for_each (λ p, ProductResponse.validate (Product.to_dict p)) products;
      mret (ListBody (ProductListResponse.mk product_responses
                        (Z.of_nat (length products))))
  | GET_product product_id =>
      product ← run_alone (ProductService.get_product_by_id product_id);
      r ← ProductResponse.validate (Product.to_dict product);
      mret (ProductBody r)
  | PUT_product product_id product_data =>
      product ← run_alone (ProductService.update_product product_id product_data);
      r ← ProductResponse.validate (Product.to_dict product);
      mret (ProductBody r)
  | DELETE_product product_id =>
      product ← run_alone (ProductService.delete_product product_id);
      r ← ProductResponse.validate (Product.to_dict product);
      mret (ProductBody r)
  end.

(** The status code and the message the specification gives each error
    kind. *)
Definition spec_status (e : exn) : Z :=
  match e with
  | ProductNotFoundException _ => 404
  | ProductAlreadyDeletedException _ => 410
  | ProductValidationException _ => 400
  | DatabaseException _ => 500
  | _ => 500
  end.

Definition spec_detail (e : exn) : string :=
  match e with
  | ProductNotFoundException product_id =>
      "Product with id '" +:+ product_id +:+ "' not found"
  | ProductAlreadyDeletedException product_id =>
      "Product with id '" +:+ product_id +:+ "' has been deleted"
  | ProductValidationException message => message
  | DatabaseException cause => "Database error: " +:+ cause
  | _ => "An unexpected error occurred: " +:+ str e
  end.

(** The error kinds the [try] block of a request can end in. *)
Definition may_raise (req : request) (e : exn) : Prop :=
  match req with
  | POST_products _ | GET_products => ∃ cause, e = DatabaseException cause
  | GET_product product_id
  | PUT_product product_id _
  | DELETE_product product_id =>
      e = ProductNotFoundException (uuid_str product_id)
      ∨ e = ProductAlreadyDeletedException (uuid_str product_id)
      ∨ ∃ cause, e = DatabaseException cause
  end.

(** One for a Create that succeeded, one for a Delete that succeeded. *)
Definition created (c : call) (r : result ()) : nat :=
  match c, r with
  | Create _, Ok _ => 1
  | _, _ => 0
  end.

Definition deleted (c : call) (r : result ()) : nat :=
  match c, r with
  | On DeleteProduct _, Ok _ => 1
  | _, _ => 0
  end.

(** Performs the calls in turn; yields how many products were created, how
    many were deleted, and the world at the end. *)
Fixpoint perform_all (cs : list call) (w : World) : nat * nat * World :=
  match cs with
  | [] => (0, 0, w)%nat
  | c :: rest =>
      let '(r, w1) := perform c w in
      let '(n, k, w2) := perform_all rest w1 in
      (created c r + n, deleted c r + k, w2)%nat
  end.

(** The stored document can be read back as a product. *)
Definition readable (d : document) : Prop :=
  ∃ p, read (delete "_id" d) = Ok p.

(** ** Sample data

    The product of the schema examples, a clock that advances by one second
    per reading for a while, and worlds built by running the Service. *)

Definition id_a : UUID := mkUUID 0x123e4567e89b12d3a456426614174000 I.
Definition id_b : UUID := mkUUID 0x123e4567e89b12d3a456426614174001 I.
Definition id_c : UUID := mkUUID 0xffffffffffffffffffffffffffffffff I.

Definition at_second (s : Z) (H : Is_true (check_fields 2026 2 6 10 30 s 0))
  : datetime := mkDatetime 2026 2 6 10 30 s 0 H.

Definition ticking (n : nat) : datetime :=
  match n with
  | 0%nat => at_second 0 I
  | 1%nat => at_second 1 I
  | 2%nat => at_second 2 I
  | 3%nat => at_second 3 I
  | 4%nat => at_second 4 I
  | 5%nat => at_second 5 I
  | _ => at_second 6 I
  end.

Definition sample_uuids (n : nat) : UUID :=
  match n with
  | 0%nat => id_a
  | 1%nat => id_b
  | _ => id_c
  end.

Definition price_29_99 : float := S754_finite false 0x1dfd70a3d70a3d (-48).
Definition price_34_99 : float := S754_finite false 0x117eb851eb851f (-47).

Definition wireless_mouse : ProductCreate.t :=
  ProductCreate.mk "Wireless Mouse"
    (Some "Ergonomic wireless mouse with USB receiver") "Electronics"
    price_29_99 150.

Definition usb_cable : ProductCreate.t :=
  ProductCreate.mk "USB Cable" None "Electronics" price_34_99 20.

(** Nothing stored yet. *)
Definition opening : World :=
  mkWorld [] 0 ticking 0 sample_uuids 0 (λ _, None) 0.

(** Two products created. *)
Definition stocked : World :=
  (perform (Create usb_cable) (perform (Create wireless_mouse) opening).2).2.

(** The second product deleted. *)
Definition shop : World := (perform (On DeleteProduct id_b) stocked).2.

(** The first product as the Service built it. *)
Definition mouse : Product.t :=
  Product.mk id_a "Wireless Mouse"
    (Some "Ergonomic wireless mouse with USB receiver") "Electronics"
    price_29_99 150 (ticking 0) (ticking 1) None.

(** The second product after its deletion, and the document storing it. *)
Definition cable : Product.t :=
  Product.mk id_b "USB Cable" None "Electronics" price_34_99 20
             (ticking 2) (ticking 5) (Some (ticking 4)).


Definition only_price (x : float) : ProductUpdate.t :=
  ProductUpdate.mk None None None (Some x) None {["price"]}.

(** The document of a product with some of the id and timestamp entries
    already typed, as the driver returns natively stored values; an absent
    [deleted_at] is then a missing key. *)
Definition typed_dict (typed_id typed_created typed_updated typed_deleted : bool)
    (p : Product.t) : document :=
  let d := Product.to_dict p in
  let d := if typed_id then <["id" := VUuid (Product.id p)]> d else d in
  let d := if typed_created
           then <["createdAt" := VDatetime (Product.created_at p)]> d else d in
  let d := if typed_updated
           then <["updatedAt" := VDatetime (Product.updated_at p)]> d else d in
  if typed_deleted
  then match Product.deleted_at p with
       | Some t => <["deletedAt" := VDatetime t]> d
       | None => delete "deletedAt" d
       end
  else d.

(** [n] times serialize and deserialize. *)
Fixpoint round_trips (n : nat) (p : Product.t) : M Product.t :=
  match n with
  | O => mret p
  | S n' => q ← Product.from_dict (Product.to_dict p); round_trips n' q
  end.


(** ** Python string methods

    A Python [str] is a sequence of Unicode code points, and
    [str.strip()] removes from both ends the code points that
    [str.isspace()] accepts, wherever they lie in the code space. *)

(** [c.isspace()] for a code point. *)
Definition isspace (c : Z) : bool :=
  ((9 <=? c) && (c <=? 13)) || ((28 <=? c) && (c <=? 32))
  || (c =? 133) || (c =? 160) || (c =? 5760)
  || ((8192 <=? c) && (c <=? 8202))
  || (c =? 8232) || (c =? 8233) || (c =? 8239) || (c =? 8287)
  || (c =? 12288).

Fixpoint lstrip_code_points (s : list Z) : list Z :=
  match s with
  | [] => []
  | c :: rest => if isspace c then lstrip_code_points rest else s
  end.

Definition rstrip_code_points (s : list Z) : list Z :=
  reverse (lstrip_code_points (reverse s)).

(** [s.strip()] on code points. *)
Definition strip_code_points (s : list Z) : list Z :=
  rstrip_code_points (lstrip_code_points s).

(** The settings are read as strings of characters below U+0100, one
    character per code point: [str.strip()] and [str.split(sep)] with a
    one-character separator on these. *)

(** [c.isspace()] for such a character. *)
Definition is_space (c : ascii) : bool := isspace (Z.of_nat (nat_of_ascii c)).

Fixpoint lstrip_chars (cs : list ascii) : list ascii :=
  match cs with
  | [] => []
  | c :: rest => if is_space c then lstrip_chars rest else cs
  end.

Definition rstrip_chars (cs : list ascii) : list ascii :=
  reverse (lstrip_chars (reverse cs)).

(** [s.strip()]. *)
Definition strip (s : string) : string :=
  text (rstrip_chars (lstrip_chars (chars s))).

Fixpoint split_chars (sep : ascii) (cs : list ascii) : list (list ascii) :=
  match cs with
  | [] => [[]]
  | c :: rest =>
      if Ascii.eqb c sep then [] :: split_chars sep rest
      else match split_chars sep rest with
           | [] => [[c]]
           | word :: words => (c :: word) :: words
           end
  end.

(** [s.split(sep)]. *)
Definition split (sep : ascii) (s : string) : list string :=
  text <$> split_chars sep (chars s).

(** [sep.join(words)]. *)
Fixpoint join (sep : string) (words : list string) : string :=
  match words with
  | [] => ""
  | [word] => word
  | word :: rest => word +:+ sep +:+ join sep rest
  end.

(** ** config.py and main.py: the CORS settings *)

Module CorsSettings.

Record t := mk {
  cors_origins : string;
  cors_allow_credentials : bool;
  cors_allow_methods : string;
  cors_allow_headers : string
}.

Definition defaults : t :=
  mk "http://localhost:3000,http://localhost:8000" true "*" "*".

(** The property [Settings.cors_origins_list]. *)
Definition cors_origins_list (self : t) : list string :=
  strip <$> split "," (cors_origins self).

(** The [allow_methods] and [allow_headers] arguments [main.py] hands to
    the CORS middleware. *)
Definition allow_methods (settings : t) : list string :=
  if String.eqb (cors_allow_methods settings) "*" then ["*"]
  else split "," (cors_allow_methods settings).

Definition allow_headers (settings : t) : list string :=
  if String.eqb (cors_allow_headers settings) "*" then ["*"]
  else split "," (cors_allow_headers settings).

End CorsSettings.

(** ** schemas/product.py: the validator of ProductUpdate

    The validator is handed the field as Python holds it, a sequence of
    code points. *)

Module ProductUpdateValidator.

(** [validate_non_empty_strings], run on [name], [category] and
    [description]; the empty [str] is the false one. *)
Definition validate_non_empty_strings (v : option (list Z))
  : result (option (list Z)) :=
  match v with
  | Some s =>
      if bool_decide (strip_code_points s = [])
      then Raise (ValueError "Field cannot be empty or whitespace only")
      else Ok v
  | None => Ok v
  end.

End ProductUpdateValidator.

(** ** Further notions used to state properties *)

(** No two stored documents carry the same product id. *)
Definition distinct_ids (docs : list document) : Prop :=
  ∀ i j d1 d2 product_id,
    docs !! i = Some d1 → docs !! j = Some d2 →
    has_id product_id d1 → has_id product_id d2 → i = j.

(** All code points are whitespace. *)
Definition whitespace_only (s : list Z) : Prop :=
  Forall (λ c, Is_true (isspace c)) s.

(** The first document carrying the id stores this soft-deleted record. *)
Definition stores_deleted (product_id : UUID) (p : Product.t) (w : World) : Prop :=
  is_Some (Product.deleted_at p)
  ∧ ∃ i d, list_find (has_id product_id) (documents w)
           = Some (i, Product.to_dict p ∪ d).

(** The coroutine of a call with its result dropped, as a task that has
    not run yet, and the tasks of a list of calls. *)
Fixpoint discard {A} (c : coroutine A) : coroutine () :=
  match c with
  | Last m => Last (_ ← m; mret ())
  | Step m k => Step m (λ x, discard (k x))
  end.

Definition start (c : call) : task () :=
  Running (match c with
           | Create product_data =>
               discard (ProductService.create_product product_data)
           | GetAll => discard ProductService.get_all_products
           | On op product_id => discard (service_operation op product_id)
           end).

(** Whatever blocks of the coroutine run, each in a world where [I] holds,
    [I] holds afterwards. *)
Fixpoint keeps (I : World → Prop) {A} (c : coroutine A) : Prop :=
  match c with
  | Last m => ∀ w, I w → I (m w).2
  | Step m k =>
      ∀ w, I w → I (m w).2 ∧ ∀ x, (m w).1 = Ok x → keeps I (k x)
  end.

Definition task_keeps (I : World → Prop) {A} (t : task A) : Prop :=
  match t with
  | Running c => keeps I c
  | Finished _ => True
  end.

(** The first document carrying the id stores this record. *)
Definition stores (product_id : UUID) (p : Product.t) (w : World) : Prop :=
  ∃ i d, list_find (has_id product_id) (documents w)
         = Some (i, Product.to_dict p ∪ d).

(** The call is an Update or a Delete of this product. *)
Definition writes_to (product_id : UUID) (c : call) : Prop :=
  match c with
  | On (UpdateProduct _) x | On DeleteProduct x => x = product_id
  | _ => False
  end.

(** The keys [from_dict] reads with [data[key]]. *)
Definition required_keys : list string :=
  ["id"; "name"; "category"; "price"; "stock"; "createdAt"; "updatedAt"].

Definition lacks_required_key (d : document) : Prop :=
  Exists (λ k, d !! k = None) required_keys.

(** The clock readings a mutation of the domain model takes. *)
Definition readings (m : mutation) : nat :=
  match m with
  | ApplyPartialUpdate _ _ _ _ _ => 1
  | MarkDeleted => 2
  end.

Definition total_readings (ms : list mutation) : nat :=
  foldr (λ m n, (readings m + n)%nat) 0%nat ms.

(** The route that runs an operation on a product, the Service call a
    request leads to, and the world after a sequence of requests. *)
Definition route (op : operation) (product_id : UUID) : request :=
  match op with
  | GetProductById => GET_product product_id
  | UpdateProduct product_data => PUT_product product_id product_data
  | DeleteProduct => DELETE_product product_id
  end.

Definition call_of (req : request) : call :=
  match req with
  | POST_products product_data => Create product_data
  | GET_products => GetAll
  | GET_product product_id => On GetProductById product_id
  | PUT_product product_id product_data =>
      On (UpdateProduct product_data) product_id
  | DELETE_product product_id => On DeleteProduct product_id
  end.

Fixpoint serve_all (reqs : list request) (w : World) : World :=
  match reqs with
  | [] => w
  | req :: rest => serve_all rest (endpoint req w).2
  end.

(** What the failing driver call of a request was doing, as the
    repository words it. *)
Definition failed_to (req : request) : string :=
  match req with
  | POST_products _ => "Failed to create product: "
  | GET_products => "Failed to find products: "
  | _ => "Failed to find product: "
  end.

(** The events of the application's life that reach [Database], and the
    class attributes after a sequence of them; [get_settings] is cached,
    so every [connect_db] sees the same settings. *)
Inductive lifecycle := ConnectDb | CloseDb.

#[export] Instance lifecycle_eq_dec : EqDecision lifecycle.
Proof. solve_decision. Defined.

Definition lifecycle_step (settings : Settings.t) (cls : Database.t)
    (event : lifecycle) : Database.t :=
  match event with
  | ConnectDb => Database.connect_db settings cls
  | CloseDb => Database.close_db cls
  end.

Definition run_lifecycle (settings : Settings.t) (events : list lifecycle)
  : Database.t :=
  foldl (lifecycle_step settings) Database.initial events.

(** The second sample product as the Service built it, before its
    deletion. *)
Definition cable_as_created : Product.t :=
  Product.mk id_b "USB Cable" None "Electronics" price_34_99 20
             (ticking 2) (ticking 3) None.

(** * Properties *)

(** ** Numerals, UUIDs and timestamps as text *)

Lemma chars_text cs : chars (text cs) = cs.
Proof. apply list_ascii_of_string_of_list_ascii. Qed.

Lemma small_cases (d : Z) : 0 ≤ d < 16 →
  d = 0 ∨ d = 1 ∨ d = 2 ∨ d = 3 ∨ d = 4 ∨ d = 5 ∨ d = 6 ∨ d = 7 ∨ d = 8
  ∨ d = 9 ∨ d = 10 ∨ d = 11 ∨ d = 12 ∨ d = 13 ∨ d = 14 ∨ d = 15.
Proof. lia. Qed.

Lemma digit_value_char (base d : Z) :
  0 ≤ d < base → base ≤ 16 → digit_value base (digit_char d) = Some d.
Proof.
  intros Hd Hb.
  assert (Hlt : (d <? base) = true) by (apply Z.ltb_lt; lia).
  destruct (small_cases d) as [E|E]; [lia| |];
    repeat (destruct E as [E|E]); subst d;
    unfold digit_value;
    match goal with
    | |- context [Z.of_nat (nat_of_ascii (digit_char ?k))] =>
        let c := eval vm_compute in (Z.of_nat (nat_of_ascii (digit_char k))) in
        change (Z.of_nat (nat_of_ascii (digit_char k))) with c
    end; cbn -[Z.ltb Z.sub];
    match goal with
    | |- context [?a - ?b <? _] =>
        let c := eval vm_compute in (a - b) in change (a - b) with c
    end; rewrite Hlt; reflexivity.
Qed.

Lemma digit_char_not_hyphen (d : Z) : 0 ≤ d < 16 → digit_char d ≠ hyphen.
Proof.
  intros Hd. destruct (small_cases d) as [E|E]; [lia| |];
    repeat (destruct E as [E|E]); subst d; discriminate.
Qed.

Lemma length_format_digits base w n : length (format_digits base w n) = w.
Proof.
  revert n. induction w as [|w IH]; intros n; simpl; [done|].
  rewrite length_app, IH. simpl. lia.
Qed.

Lemma parse_format_digits base w : 1 < base ≤ 16 → ∀ n acc rest, 0 ≤ n →
  parse_digits base acc (format_digits base w n ++ rest)
  = parse_digits base (acc * base ^ Z.of_nat w + n mod base ^ Z.of_nat w) rest.
Proof.
  intros Hb. induction w as [|w IH]; intros n acc rest Hn.
  - change (Z.of_nat 0) with 0. rewrite Z.pow_0_r, Z.mod_1_r.
    simpl. f_equal. lia.
  - simpl format_digits. rewrite <- app_assoc. simpl app.
    rewrite IH by (apply Z.div_pos; lia).
    simpl parse_digits.
    rewrite digit_value_char
      by (pose proof (Z.mod_pos_bound n base); lia).
    f_equal. rewrite Nat2Z.inj_succ, Z.pow_succ_r by lia.
    rewrite (Z.rem_mul_r n base (base ^ Z.of_nat w)) by lia. ring.
Qed.

Lemma take_number_format base w n rest :
  1 < base ≤ 16 → 0 ≤ n < base ^ Z.of_nat w →
  take_number base w (format_digits base w n ++ rest) = Some (n, rest).
Proof.
  intros Hb Hn. unfold take_number.
  rewrite take_app_length' by (by rewrite length_format_digits).
  rewrite drop_app_length' by (by rewrite length_format_digits).
  rewrite length_format_digits, Nat.eqb_refl.
  rewrite <- (app_nil_r (format_digits base w n)), parse_format_digits by lia.
  simpl. rewrite Z.mod_small by lia. done.
Qed.

Lemma format_digits_no_hyphen base w n :
  1 < base ≤ 16 → Forall (λ c, c ≠ hyphen) (format_digits base w n).
Proof.
  intros Hb. revert n. induction w as [|w IH]; intros n; simpl; [constructor|].
  apply Forall_app. split; [apply IH|].
  constructor; [|constructor].
  apply digit_char_not_hyphen. pose proof (Z.mod_pos_bound n base). lia.
Qed.

Lemma filter_all {A} (P : A → Prop) `{∀ x, Decision (P x)} (l : list A) :
  Forall P l → filter P l = l.
Proof.
  induction 1 as [|x l Hx Hl IH]; [done|].
  rewrite filter_cons_True by done. by rewrite IH.
Qed.

Lemma make_uuid_int u : make_uuid (uuid_int u) = Some u.
Proof.
  destruct u as [n Hn]. unfold make_uuid. simpl.
  destruct (decide _) as [H|H]; [|done].
  do 2 f_equal. apply proof_irrel.
Qed.

Lemma uuid_int_bounds u : 0 ≤ uuid_int u < 2 ^ 128.
Proof.
  destruct u as [n Hn]. simpl.
  apply Is_true_true, andb_true_iff in Hn as [H1 H2].
  apply Z.leb_le in H1. apply Z.ltb_lt in H2. lia.
Qed.

Lemma uuid_parse_str u : uuid_parse (uuid_str u) = Some u.
Proof.
  unfold uuid_parse, uuid_str. rewrite chars_text.
  remember (format_digits 16 32 (uuid_int u)) as hex eqn:Ehex.
  assert (Hhex : Forall (λ c, c ≠ hyphen) hex)
    by (subst hex; apply format_digits_no_hyphen; lia).
  assert (Hlen : length hex = 32%nat)
    by (subst hex; apply length_format_digits).
  rewrite !filter_app.
  rewrite !(filter_all _ (take _ _)), (filter_all _ (drop 20 hex))
    by (repeat first [apply Forall_take|apply Forall_drop]; done).
  assert (Hh : filter (λ c, c ≠ hyphen) [hyphen] = []).
  { rewrite filter_cons_False by (intros H; by apply H). done. }
  rewrite Hh. simpl app.
  replace (drop 12 hex) with (drop 4 (drop 8 hex)) by (by rewrite drop_drop).
  replace (drop 16 hex) with (drop 4 (drop 4 (drop 8 hex))) by (by rewrite !drop_drop).
  replace (drop 20 hex) with (drop 4 (drop 4 (drop 4 (drop 8 hex)))) by (by rewrite !drop_drop).
  rewrite !take_drop. rewrite Hlen. simpl Nat.eqb. cbv iota.
  subst hex. rewrite <- (app_nil_r (format_digits 16 32 _)).
  rewrite parse_format_digits by (pose proof (uuid_int_bounds u); lia).
  simpl parse_digits. simpl mbind.
  pose proof (uuid_int_bounds u).
  change (Z.of_nat 32) with 32. rewrite Z.mod_small by lia.
  simpl. apply make_uuid_int.
Qed.

Lemma between_spec lo hi x : Is_true (between lo hi x) ↔ lo ≤ x ≤ hi.
Proof.
  unfold between. rewrite andb_True, !Is_true_true, !Z.leb_le. done.
Qed.

Lemma days_in_month_le y m : days_in_month y m ≤ 31.
Proof.
  unfold days_in_month.
  repeat match goal with |- context [if ?b then _ else _] => destruct b end; lia.
Qed.

Lemma datetime_bounds t :
  1 ≤ year t ≤ 9999 ∧ 1 ≤ month t ≤ 12 ∧ 1 ≤ day t ≤ 31
  ∧ 0 ≤ hour t ≤ 23 ∧ 0 ≤ minute t ≤ 59 ∧ 0 ≤ second t ≤ 59
  ∧ 0 ≤ microsecond t ≤ 999999.
Proof.
  destruct t as [y m d hh mm ss us H]. simpl. unfold check_fields in H.
  rewrite !andb_True, !between_spec in H.
  pose proof (days_in_month_le y m). lia.
Qed.

Lemma make_datetime_fields t :
  make_datetime (year t) (month t) (day t) (hour t) (minute t) (second t)
                (microsecond t) = Some t.
Proof.
  destruct t as [y m d hh mm ss us H]. unfold make_datetime. simpl.
  destruct (decide _) as [H'|H']; [|done].
  do 2 f_equal. apply proof_irrel.
Qed.

Lemma expect_cons c rest : expect c (c :: rest) = Some rest.
Proof. unfold expect. by rewrite Ascii.eqb_refl. Qed.

Lemma fromisoformat_isoformat t : fromisoformat (isoformat t) = Some t.
Proof.
  pose proof (datetime_bounds t) as (Hy & Hm & Hd & Hh & Hmi & Hs & Hu).
  unfold fromisoformat, isoformat. rewrite chars_text.
  change (chars "-") with ["-"%char]. change (chars "T") with ["T"%char].
  change (chars ":") with [":"%char]. change (chars ".") with ["."%char].
  do 5 (rewrite take_number_format by (simpl; lia);
        cbn [mbind option_bind app]; rewrite expect_cons;
        cbn [mbind option_bind]).
  destruct (Z.eqb_spec (microsecond t) 0) as [E|E].
  - rewrite take_number_format by (simpl; lia). cbn [mbind option_bind].
    rewrite <- E. apply make_datetime_fields.
  - rewrite take_number_format by (simpl; lia).
    cbn [mbind option_bind app]. rewrite expect_cons. cbn [mbind option_bind].
    rewrite <- (app_nil_r (format_digits 10 6 _)).
    rewrite take_number_format by (simpl; lia). cbn [mbind option_bind].
    apply make_datetime_fields.
Qed.

Lemma isoformat_truthy t : truthy (VStr (isoformat t)) = true.
Proof.
  reflexivity.
Qed.

Lemma bind_ret {A B} (a : A) (f : A → M B) : mret a ≫= f = f a.
Proof. reflexivity. Qed.

Lemma UUID_of_str_uuid_str u : UUID_of_str (uuid_str u) = mret u.
Proof. unfold UUID_of_str. by rewrite uuid_parse_str. Qed.

Lemma datetime_fromisoformat_isoformat t :
  datetime_fromisoformat (isoformat t) = mret t.
Proof. unfold datetime_fromisoformat. by rewrite fromisoformat_isoformat. Qed.

Lemma to_dict_lookup p :
  Product.to_dict p !! "id" = Some (VStr (uuid_str (Product.id p)))
  ∧ Product.to_dict p !! "name" = Some (VStr (Product.name p))
  ∧ Product.to_dict p !! "description"
    = Some (optional_str_value (Product.description p))
  ∧ Product.to_dict p !! "category" = Some (VStr (Product.category p))
  ∧ Product.to_dict p !! "price" = Some (VFloat (Product.price p))
  ∧ Product.to_dict p !! "stock" = Some (VInt (Product.stock p))
  ∧ Product.to_dict p !! "createdAt"
    = Some (VStr (isoformat (Product.created_at p)))
  ∧ Product.to_dict p !! "updatedAt"
    = Some (VStr (isoformat (Product.updated_at p)))
  ∧ Product.to_dict p !! "deletedAt"
    = Some (match Product.deleted_at p with
            | Some t => VStr (isoformat t)
            | None => VNone
            end)
  ∧ Product.to_dict p !! "_id" = None.
Proof. repeat split; reflexivity. Qed.


Ltac mstep :=
  repeat first
    [ rewrite bind_ret
    | rewrite UUID_of_str_uuid_str
    | rewrite datetime_fromisoformat_isoformat
    | rewrite isoformat_truthy
    | progress cbn beta iota delta
        [is_str as_str as_float as_int as_optional_str
         optional_str_value andb] ].

Lemma from_dict_to_dict p : Product.from_dict (Product.to_dict p) = mret p.
Proof.
  destruct (to_dict_lookup p)
    as (Hid & Hname & Hdesc & Hcat & Hprice & Hstock & Hc & Hu & Hd & _).
  unfold Product.from_dict, getitem, dict_get.
  rewrite Hid, Hname, Hdesc, Hcat, Hprice, Hstock, Hc, Hu, Hd.
  clear. destruct p as [id name description category price stock created updated deleted].
  cbn [Product.id Product.name Product.description Product.category
       Product.price Product.stock Product.created_at Product.updated_at
       Product.deleted_at].
  destruct description, deleted; mstep; reflexivity.
Qed.

(** ** Stateless computations *)

Lemma stateless_ret {A} (a : A) : stateless (mret a).
Proof. by exists (Ok a). Qed.

Lemma stateless_raise {A} (e : exn) : stateless (@raise A e).
Proof. by exists (Raise e). Qed.

Lemma stateless_bind {A B} (m : M A) (f : A → M B) :
  stateless m → (∀ a, stateless (f a)) → stateless (m ≫= f).
Proof.
  intros [r Hr] Hf. destruct r as [a|e].
  - destruct (Hf a) as [r' Hr']. exists r'. intros w.
    unfold mbind, M_bind. by rewrite Hr, Hr'.
  - exists (Raise e). intros w. unfold mbind, M_bind. by rewrite Hr.
Qed.

Ltac stateless_step :=
  first
    [ apply stateless_ret
    | apply stateless_raise
    | apply stateless_bind; [|intros ?]
    | match goal with
      | |- stateless (match ?x with _ => _ end) => destruct x
      end ].

Lemma from_dict_stateless data : stateless (Product.from_dict data).
Proof.
  unfold Product.from_dict, Product.init, getitem, as_str, as_optional_str,
    as_float, as_int, UUID_of_str, datetime_fromisoformat.
  repeat stateless_step.
Qed.

Lemma from_dict_read data w : Product.from_dict data w = (read data, w).
Proof.
  destruct (from_dict_stateless data) as [r Hr].
  unfold read. by rewrite !Hr.
Qed.

Lemma validate_stateless data : stateless (ProductResponse.validate data).
Proof.
  unfold ProductResponse.validate, ProductResponse.required,
    ProductResponse.uuid_field, ProductResponse.datetime_field,
    ProductResponse.str_field.
  repeat stateless_step.
Qed.

(** ** The document store *)

Lemma matches_id product_id d :
  Is_true (matches {["id" := VStr (uuid_str product_id)]} d) ↔ has_id product_id d.
Proof.
  unfold matches, has_id. rewrite bool_decide_spec, map_Forall_singleton. done.
Qed.

Lemma matches_id_bool product_id d :
  matches {["id" := VStr (uuid_str product_id)]} d = bool_decide (has_id product_id d).
Proof.
  apply eq_true_iff_eq. rewrite <- !Is_true_true, matches_id, bool_decide_spec. done.
Qed.

Lemma head_filter_find {A} (P : A → Prop) `{∀ x, Decision (P x)} (l : list A) :
  head (filter P l) = snd <$> list_find P l.
Proof.
  induction l as [|x l IH]; [done|].
  cbn [list_find]. destruct (decide (P x)).
  - by rewrite filter_cons_True.
  - rewrite filter_cons_False by done. rewrite IH.
    by destruct (list_find P l) as [[i y]|].
Qed.

Lemma set_first_find product_id fields docs :
  set_first {["id" := VStr (uuid_str product_id)]} fields docs
  = match list_find (has_id product_id) docs with
    | Some (i, d) => <[i := fields ∪ d]> docs
    | None => docs
    end.
Proof.
  induction docs as [|d docs IH]; [done|].
  cbn [set_first list_find]. rewrite matches_id_bool.
  destruct (decide (has_id product_id d)) as [Hd|Hd].
  - by rewrite bool_decide_eq_true_2.
  - rewrite bool_decide_eq_false_2 by done. rewrite IH.
    by destruct (list_find _ docs) as [[i y]|].
Qed.

Lemma find_one_run query w :
  find_one query w
  = match outages w (calls w) with
    | Some message => (Raise (PyMongoError message), called w)
    | None =>
        (Ok (head (filter (λ d, Is_true (matches query d)) (documents w))),
         called w)
    end.
Proof.
  unfold find_one, driver_call, get_documents, mbind, M_bind, mret, M_ret, called.
  by destruct (outages w (calls w)).
Qed.

Lemma find_one_by_id product_id w :
  find_one {["id" := VStr (uuid_str product_id)]} w
  = match outages w (calls w) with
    | Some message => (Raise (PyMongoError message), called w)
    | None => (Ok (snd <$> list_find (has_id product_id) (documents w)), called w)
    end.
Proof.
  rewrite find_one_run. destruct (outages w (calls w)); [done|].
  rewrite <- head_filter_find. do 3 f_equal.
  apply list_filter_iff. intros d. apply matches_id.
Qed.

Lemma has_id_nonempty product_id d : has_id product_id d → d ≠ ∅.
Proof. intros H ->. unfold has_id in H. by rewrite lookup_empty in H. Qed.

Lemma find_by_id_run product_id w :
  ProductRepository.find_by_id product_id w
  = match outages w (calls w) with
    | Some message =>
        (Raise (DatabaseException ("Failed to find product: " +:+ message)),
         called w)
    | None =>
        match list_find (has_id product_id) (documents w) with
        | None => (Ok None, called w)
        | Some (i, d) =>
            match read (delete "_id" d) with
            | Ok p => (Ok (Some p), called w)
            | Raise e =>
                (Raise (DatabaseException
                          ("Failed to find product: " +:+ str e)), called w)
            end
        end
    end.
Proof.
  unfold ProductRepository.find_by_id, try_except, mbind, M_bind.
  rewrite find_one_by_id.
  destruct (outages w (calls w)) as [message|]; [done|].
  destruct (list_find _ _) as [[i d]|] eqn:Hfind; [|done].
  cbn [fmap option_fmap option_map snd].
  apply list_find_Some in Hfind as (_ & Hd & _).
  rewrite bool_decide_eq_false_2 by (by eapply has_id_nonempty).
  rewrite from_dict_read. by destruct (read _).
Qed.

Lemma update_run product w :
  ProductRepository.update product w
  = match outages w (calls w) with
    | Some message =>
        (Raise (DatabaseException ("Failed to update product: " +:+ message)),
         called w)
    | None =>
        (Ok product,
         set_documents
           (set_first {["id" := VStr (uuid_str (Product.id product))]}
                      (Product.to_dict product) (documents w))
           (called w))
    end.
Proof.
  unfold ProductRepository.update, try_except, update_one, driver_call,
    get_documents, put_documents, mbind, M_bind, mret, M_ret, called.
  by destruct (outages w (calls w)).
Qed.

Lemma create_run product w :
  ProductRepository.create product w
  = match outages w (calls w) with
    | Some message =>
        (Raise (DatabaseException ("Failed to create product: " +:+ message)),
         called w)
    | None =>
        if bool_decide (Exists (λ d, d !! "id" = Product.to_dict product !! "id")
                               (documents w))
        then (Raise (DatabaseException
                       "Failed to create product: E11000 duplicate key error"),
              called w)
        else (Ok product,
              set_documents
                (documents w
                 ++ [<["_id" := VObjectId (next_oid w)]> (Product.to_dict product)])
                (set_next_oid (S (next_oid w)) (called w)))
    end.
Proof.
  unfold ProductRepository.create, try_except, insert_one, driver_call,
    get_documents, put_documents, fresh_oid, mbind, M_bind, mret, M_ret, called.
  destruct (outages w (calls w)); [done|].
  cbn. by destruct (bool_decide _).
Qed.

Lemma for_each_read docs w :
  for_each (λ doc, Product.from_dict (delete "_id" doc)) docs w
  = (read_all docs, w).
Proof.
  induction docs as [|d docs IH]; [done|].
  cbn [for_each read_all]. unfold mbind, M_bind.
  rewrite from_dict_read. destruct (read _); [|done].
  rewrite IH. by destruct (read_all docs).
Qed.

Lemma find_all_run include_deleted w :
  ProductRepository.find_all include_deleted w
  = match outages w (calls w) with
    | Some message =>
        (Raise (DatabaseException ("Failed to find products: " +:+ message)),
         called w)
    | None =>
        match read_all
                (filter (λ d, Is_true
                                (matches (if include_deleted then ∅
                                          else {["deletedAt" := VNone]}) d))
                        (documents w)) with
        | Ok ps => (Ok ps, called w)
        | Raise e =>
            (Raise (DatabaseException ("Failed to find products: " +:+ str e)),
             called w)
        end
    end.
Proof.
  unfold ProductRepository.find_all, try_except, find, driver_call,
    get_documents, mbind, M_bind, mret, M_ret, called.
  destruct (outages w (calls w)); [done|].
  rewrite for_each_read. by destruct (read_all _).
Qed.

Lemma bind_Ok {A B} (m : M A) (f : A → M B) w b w' :
  (m ≫= f) w = (Ok b, w') → ∃ a w1, m w = (Ok a, w1) ∧ f a w1 = (Ok b, w').
Proof.
  unfold mbind, M_bind. destruct (m w) as [[a|e] w1]; [eauto|done].
Qed.

Lemma ret_Ok {A} (a b : A) w w1 : (mret a : M A) w = (Ok b, w1) → a = b ∧ w = w1.
Proof. unfold mret, M_ret. by intros [= -> ->]. Qed.

Tactic Notation "inv_bind" hyp(H) "as" ident(a) ident(H1) :=
  let w1 := fresh "w" in
  apply bind_Ok in H as (a & w1 & H1 & H).

(** What a successful [from_dict] says about [id] and [deleted_at]. *)
Lemma from_dict_Ok data w p w' :
  Product.from_dict data w = (Ok p, w') →
  (∀ product_id, data !! "id" = Some (VStr (uuid_str product_id)) →
                 Product.id p = product_id)
  ∧ (Product.deleted_at p = None ↔ dict_get data "deletedAt" = VNone).
Proof.
  unfold Product.from_dict. intros H.
  inv_bind H as v Hv. inv_bind H as id Hid. inv_bind H as name Hname.
  inv_bind H as description Hdescription. inv_bind H as category Hcategory.
  inv_bind H as price Hprice. inv_bind H as stock Hstock.
  inv_bind H as vc Hvc. inv_bind H as created Hcreated.
  inv_bind H as vu Hvu. inv_bind H as updated Hupdated.
  inv_bind H as deleted Hdeleted.
  unfold Product.init in H.
  inv_bind H as id' Hid'. inv_bind H as created' Hcreated'.
  inv_bind H as updated' Hupdated'.
  apply ret_Ok in H as [<- _]. cbn [Product.id Product.deleted_at].
  apply ret_Ok in Hid' as [<- _].
  split.
  - intros product_id Hdata. unfold getitem in Hv. rewrite Hdata in Hv.
    apply ret_Ok in Hv as [<- <-]. cbn [is_str] in Hid.
    inv_bind Hid as s Hs. apply ret_Ok in Hs as [<- <-].
    rewrite UUID_of_str_uuid_str in Hid. by apply ret_Ok in Hid as [? _].
  - clear -Hdeleted.
    destruct (dict_get data "deletedAt") as [| s | | x | | t |] eqn:E;
      cbn [truthy is_str andb] in Hdeleted;
      try (by apply ret_Ok in Hdeleted as [<- _]); try done.
    + destruct (negb (String.eqb s "")); [|done].
      inv_bind Hdeleted as v Hv. inv_bind Hdeleted as s' Hs.
      inv_bind Hdeleted as t Ht.
      by apply ret_Ok in Hdeleted as [<- _].
    + rewrite andb_false_r in Hdeleted. done.
    + destruct x; done.
Qed.

(** ** The model operations *)

Lemma soft_delete_run p w :
  Product.soft_delete p w
  = (Ok (Product.mk (Product.id p) (Product.name p) (Product.description p)
                    (Product.category p) (Product.price p) (Product.stock p)
                    (Product.created_at p) (utc w (S (ticks w)))
                    (Some (utc w (ticks w)))),
     set_ticks (S (S (ticks w))) w).
Proof. reflexivity. Qed.

Lemma init_run name category price stock description w :
  Product.init name category price stock description None None None None w
  = (Ok (Product.mk (uuids w (draws w)) name description category price stock
                    (utc w (ticks w)) (utc w (S (ticks w))) None),
     set_ticks (S (S (ticks w))) (set_draws (S (draws w)) w)).
Proof. reflexivity. Qed.

Lemma model_update_run p name description category price stock w :
  Product.update p name description category price stock w
  = (Ok (Product.mk (Product.id p)
                    (default (Product.name p) name)
                    (match description with
                     | Some s => Some s
                     | None => Product.description p
                     end)
                    (default (Product.category p) category)
                    (default (Product.price p) price)
                    (default (Product.stock p) stock)
                    (Product.created_at p) (utc w (ticks w))
                    (Product.deleted_at p)),
     set_ticks (S (ticks w)) w).
Proof.
  destruct p. destruct name, description, category, price, stock; reflexivity.
Qed.

(** ** The service operations *)

Lemma run_operation_run op product_id w :
  run_operation op product_id w
  = match ProductRepository.find_by_id product_id w with
    | (Raise e, w1) => (Raise e, w1)
    | (Ok None, w1) =>
        (Raise (ProductNotFoundException (uuid_str product_id)), w1)
    | (Ok (Some p), w1) =>
        if Product.is_deleted p
        then (Raise (ProductAlreadyDeletedException (uuid_str product_id)), w1)
        else proceed op p w1
    end.
Proof.
  unfold run_operation.
  destruct op; cbn [service_operation];
    unfold ProductService.get_product_by_id, ProductService.update_product,
      ProductService.delete_product;
    cbn [run_alone]; unfold mbind at 1, M_bind at 1;
    destruct (ProductRepository.find_by_id product_id w) as [[[p|]|e] w1];
    try done; by destruct (Product.is_deleted p).
Qed.

Lemma find_by_id_world product_id w :
  (ProductRepository.find_by_id product_id w).2 = called w.
Proof.
  rewrite find_by_id_run. destruct (outages w (calls w)); [done|].
  destruct (list_find _ _) as [[i d]|]; [|done]. by destruct (read _).
Qed.


Lemma proceed_outcome op p w :
  (∃ p', (proceed op p w).1 = Ok p')
  ∨ (∃ message, (proceed op p w).1 = Raise (DatabaseException message)).
Proof.
  destruct op as [|data|]; cbn [proceed].
  - left. by exists p.
  - unfold mbind, M_bind. rewrite model_update_run, update_run.
    destruct (outages _ _); [right|left]; eauto.
  - unfold mbind, M_bind. rewrite soft_delete_run, update_run.
    destruct (outages _ _); [right|left]; eauto.
Qed.

Lemma read_Ok data p :
  read data = Ok p →
  (∀ product_id, data !! "id" = Some (VStr (uuid_str product_id)) →
                 Product.id p = product_id)
  ∧ (Product.deleted_at p = None ↔ dict_get data "deletedAt" = VNone).
Proof.
  intros H. apply (from_dict_Ok data blank p blank).
  rewrite from_dict_read. by rewrite H.
Qed.

Lemma read_stored_active product_id d p :
  has_id product_id d → read (delete "_id" d) = Ok p →
  Product.id p = product_id
  ∧ (Product.is_deleted p = false ↔ ¬ marked_deleted d).
Proof.
  intros Hid [Hp Hdel]%read_Ok. split.
  - apply Hp. by rewrite lookup_delete_ne.
  - unfold marked_deleted, Product.is_deleted.
    replace (dict_get (delete "_id" d) "deletedAt")
      with (dict_get d "deletedAt") in Hdel
      by (unfold dict_get; by rewrite lookup_delete_ne).
    destruct (Product.deleted_at p) as [t|].
    + split; [done|]. intros H.
      destruct (decide (dict_get d "deletedAt" = VNone)) as [E|E].
      * by apply Hdel in E.
      * by destruct H.
    + split; [|done]. intros _ H. apply H. by apply Hdel.
Qed.



Lemma get_all_products_documents w :
  documents (run_alone ProductService.get_all_products w).2 = documents w.
Proof.
  unfold ProductService.get_all_products. cbn [run_alone]. unfold mbind, M_bind.
  rewrite find_all_run. destruct (outages _ _); [done|].
  by destruct (read_all _).
Qed.


Lemma discard_world {A} (m : M A) w : ((_ ← m; mret ()) w).2 = (m w).2.
Proof. unfold mbind, M_bind. by destruct (m w) as [[?|?] ?]. Qed.



Lemma is_deleted_Some p :
  Product.is_deleted p = true ↔ is_Some (Product.deleted_at p).
Proof.
  unfold Product.is_deleted. destruct (Product.deleted_at p); split;
    intros H; try done; by destruct H.
Qed.

Lemma advance_service_operation op product_id w :
  advance (service_operation op product_id) w
  = match ProductRepository.find_by_id product_id w with
    | (Raise e, w1) => (Finished (Raise e), w1)
    | (Ok None, w1) =>
        (raising (ProductNotFoundException (uuid_str product_id)), w1)
    | (Ok (Some p), w1) =>
        if Product.is_deleted p
        then (raising (ProductAlreadyDeletedException (uuid_str product_id)), w1)
        else (Running (resume op p), w1)
    end.
Proof.
  destruct op; cbn [service_operation];
    unfold ProductService.get_product_by_id, ProductService.update_product,
      ProductService.delete_product;
    cbn [advance];
    destruct (ProductRepository.find_by_id product_id w) as [[[p|]|e] w1];
    try done; by destruct (Product.is_deleted p).
Qed.

Lemma resume_alone op p w : run_alone (resume op p) w = proceed op p w.
Proof. by destruct op. Qed.


(** ** Serialization *)

Lemma typed_dict_lookup a b c d p :
  typed_dict a b c d p !! "id"
  = Some (if a then VUuid (Product.id p) else VStr (uuid_str (Product.id p)))
  ∧ typed_dict a b c d p !! "name" = Some (VStr (Product.name p))
  ∧ typed_dict a b c d p !! "description"
    = Some (optional_str_value (Product.description p))
  ∧ typed_dict a b c d p !! "category" = Some (VStr (Product.category p))
  ∧ typed_dict a b c d p !! "price" = Some (VFloat (Product.price p))
  ∧ typed_dict a b c d p !! "stock" = Some (VInt (Product.stock p))
  ∧ typed_dict a b c d p !! "createdAt"
    = Some (if b then VDatetime (Product.created_at p)
            else VStr (isoformat (Product.created_at p)))
  ∧ typed_dict a b c d p !! "updatedAt"
    = Some (if c then VDatetime (Product.updated_at p)
            else VStr (isoformat (Product.updated_at p)))
  ∧ typed_dict a b c d p !! "deletedAt"
    = match Product.deleted_at p with
      | Some t => Some (if d then VDatetime t else VStr (isoformat t))
      | None => if d then None else Some VNone
      end.
Proof.
  destruct p as [? ? ? ? ? ? ? ? deleted].
  destruct a, b, c, d, deleted; repeat split; reflexivity.
Qed.

Lemma from_dict_typed_dict a b c d p :
  Product.from_dict (typed_dict a b c d p) = mret p.
Proof.
  destruct (typed_dict_lookup a b c d p)
    as (Hid & Hname & Hdesc & Hcat & Hprice & Hstock & Hc & Hu & Hd).
  unfold Product.from_dict, getitem, dict_get.
  rewrite Hid, Hname, Hdesc, Hcat, Hprice, Hstock, Hc, Hu, Hd.
  clear. destruct p as [id name description category price stock created updated deleted].
  cbn [Product.id Product.name Product.description Product.category
       Product.price Product.stock Product.created_at Product.updated_at
       Product.deleted_at].
  destruct a, b, c, d, description, deleted; mstep; reflexivity.
Qed.

Lemma round_trips_id n p : round_trips n p = mret p.
Proof.
  induction n as [|n IH]; [done|].
  cbn [round_trips]. by rewrite from_dict_to_dict, bind_ret.
Qed.

(** C2. Deserializing the document that serialization produced gives back
    the product, whatever description and deleted_at are; the same
    holds when id and timestamps arrive already typed and an absent
    deleted_at is a missing key; and any number of serialize/deserialize
    round trips gives back the product. *)
Theorem from_dict_to_dict_roundtrip p w :
  Product.from_dict (Product.to_dict p) w = (Ok p, w)
  ∧ (∀ typed_id typed_created typed_updated typed_deleted,
       Product.from_dict
         (typed_dict typed_id typed_created typed_updated typed_deleted p) w
       = (Ok p, w))
  ∧ (∀ n, round_trips n p w = (Ok p, w)).
Proof.
  split; [by rewrite from_dict_to_dict|]. split.
  - intros a b c d. by rewrite from_dict_typed_dict.
  - intros n. by rewrite round_trips_id.
Qed.

(** ** Timestamps *)

Lemma monotone_ticking : monotone ticking.
Proof.
  intros i j Hij.
  do 7 (destruct i as [|i]; [do 7 (destruct j as [|j]; [first [exact I|lia]|]); exact I|]).
  do 7 (destruct j as [|j]; [lia|]). exact I.
Qed.

Lemma delete_product_Ok product_id w p' w' :
  run_alone (ProductService.delete_product product_id) w = (Ok p', w') →
  Product.deleted_at p' = Some (utc w (ticks w))
  ∧ Product.updated_at p' = utc w (S (ticks w)).
Proof.
  change (run_alone (ProductService.delete_product product_id))
    with (run_operation DeleteProduct product_id).
  rewrite run_operation_run, find_by_id_run.
  destruct (outages w (calls w)); [done|].
  destruct (list_find _ _) as [[i d]|]; [|done].
  destruct (read _) as [p|]; [|done].
  destruct (Product.is_deleted p); [done|].
  cbn [proceed]. unfold mbind, M_bind. rewrite soft_delete_run, update_run.
  destruct (outages _ _); [done|]. by intros [= <- _].
Qed.

(** C5, as the code has it. Mark-deleted sets deleted_at to one reading of
    the UTC clock and updated_at to the next reading, and leaves every other
    field alone; after a successful Delete the returned record carries
    these two readings. They are the same instant exactly when the clock
    gives the same reading twice, and under a clock that never runs
    backwards deleted_at is not later than updated_at. *)
Theorem soft_delete_two_readings p w :
  Product.soft_delete p w
  = (Ok (Product.mk (Product.id p) (Product.name p) (Product.description p)
                    (Product.category p) (Product.price p) (Product.stock p)
                    (Product.created_at p) (utc w (S (ticks w)))
                    (Some (utc w (ticks w)))),
     set_ticks (S (S (ticks w))) w)
  ∧ (∀ product_id p' w',
       run_alone (ProductService.delete_product product_id) w = (Ok p', w') →
       Product.deleted_at p' = Some (utc w (ticks w))
       ∧ Product.updated_at p' = utc w (S (ticks w))
       ∧ (Product.deleted_at p' = Some (Product.updated_at p')
          ↔ utc w (ticks w) = utc w (S (ticks w)))
       ∧ (monotone (utc w) →
          datetime_le (utc w (ticks w)) (Product.updated_at p'))).
Proof.
  split; [apply soft_delete_run|].
  intros product_id p' w' [Hd Hu]%delete_product_Ok.
  rewrite Hd, Hu. repeat split; try done.
  - by intros [=].
  - by intros ->.
  - intros Hmono. apply Hmono. lia.
Qed.

Lemma soft_delete_two_readings_witness :
  match (run_alone (ProductService.delete_product id_a) stocked).1 with
  | Ok p' =>
      Product.deleted_at p' = Some (at_second 4 I)
      ∧ Product.updated_at p' = at_second 5 I
      ∧ (Product.deleted_at p' = Some (Product.updated_at p')
         ↔ at_second 4 I = at_second 5 I)
      ∧ (monotone ticking → datetime_le (at_second 4 I) (Product.updated_at p'))
  | Raise _ => False
  end.
Proof.
  destruct (run_alone (ProductService.delete_product id_a) stocked) as [[p'|e] w'] eqn:H.
  - destruct (soft_delete_two_readings mouse stocked) as [_ Hs].
    exact (Hs id_a p' w' H).
  - vm_compute in H. discriminate H.
Defined.

(** Mark-deleted on the sample product while the clock advances: deleted_at
    is 10:30:04 and updated_at is 10:30:05, not the same instant. *)
Lemma soft_delete_two_readings_counterexample :
  Product.soft_delete mouse stocked
  = (Ok (Product.mk id_a "Wireless Mouse"
           (Some "Ergonomic wireless mouse with USB receiver") "Electronics"
           price_29_99 150 (at_second 0 I) (at_second 5 I)
           (Some (at_second 4 I))),
     set_ticks 6 stocked)
  ∧ Some (at_second 4 I) ≠ Some (at_second 5 I).
Proof. split; [reflexivity|discriminate]. Qed.

(** The invariant through the mutations: the creation time stays, and the
    update time is a reading the clock gave after construction. *)
Lemma mutate_all_in_order ms :
  ∀ p w, monotone (utc w) →
    (∀ k, (ticks w ≤ k)%nat → datetime_le (Product.created_at p) (utc w k)) →
    datetime_le (Product.created_at p) (Product.updated_at p) →
    ∃ p' w', mutate_all ms p w = (Ok p', w')
      ∧ Product.created_at p' = Product.created_at p
      ∧ datetime_le (Product.created_at p') (Product.updated_at p').
Proof.
  induction ms as [|m ms IH]; intros p w Hmono Hclock Hle.
  - exists p, w. done.
  - cbn [mutate_all]. unfold mbind, M_bind.
    destruct m as [name description category price stock|]; cbn [mutate].
    + rewrite model_update_run.
      edestruct (IH (Product.mk (Product.id p) (default (Product.name p) name)
                       (match description with
                        | Some s => Some s
                        | None => Product.description p
                        end)
                       (default (Product.category p) category)
                       (default (Product.price p) price)
                       (default (Product.stock p) stock)
                       (Product.created_at p) (utc w (ticks w))
                       (Product.deleted_at p))
                    (set_ticks (S (ticks w)) w))
        as (p' & w' & Hrun & Hc & Hle'); cbn; eauto.
      intros k Hk. apply Hclock. lia.
    + rewrite soft_delete_run.
      edestruct (IH (Product.mk (Product.id p) (Product.name p)
                       (Product.description p) (Product.category p)
                       (Product.price p) (Product.stock p)
                       (Product.created_at p) (utc w (S (ticks w)))
                       (Some (utc w (ticks w))))
                    (set_ticks (S (S (ticks w))) w))
        as (p' & w' & Hrun & Hc & Hle'); cbn; eauto.
      intros k Hk. apply Hclock. lia.
Qed.

Lemma init_in_order
    name category price stock description id created_at updated_at deleted_at w :
  monotone (utc w) →
  timestamps_in_order created_at updated_at w →
  ∃ p w1,
    Product.init name category price stock description id
                 created_at updated_at deleted_at w = (Ok p, w1)
    ∧ utc w1 = utc w
    ∧ (∀ k, (ticks w1 ≤ k)%nat → datetime_le (Product.created_at p) (utc w k))
    ∧ datetime_le (Product.created_at p) (Product.updated_at p).
Proof.
  intros Hmono Horder.
  destruct id as [u|], created_at as [c|], updated_at as [t|];
    cbn [timestamps_in_order] in Horder;
    (eexists _, _; split; [reflexivity|]);
    cbn [utc ticks set_ticks set_draws Product.created_at Product.updated_at];
    (split; [reflexivity|]); split;
    try (intros k Hk; first [apply Horder; lia|apply Hmono; lia]);
    first [apply Horder; lia|apply Hmono; lia|apply Horder].
Qed.

(** C7, as the code has it. Construct keeps the timestamps it is given
    without comparing them. When created_at and updated_at are left
    absent, or are supplied in order with a creation time the clock has
    reached, then after construction and any sequence of
    apply-partial-update and mark-deleted under a clock that never runs
    backwards, updated_at >= created_at holds. *)
Theorem updated_at_not_before_created_at
    name category price stock description id created_at updated_at deleted_at
    ms w :
  monotone (utc w) →
  timestamps_in_order created_at updated_at w →
  ∃ p' w',
    (p ← Product.init name category price stock description id
                      created_at updated_at deleted_at;
     mutate_all ms p) w = (Ok p', w')
    ∧ datetime_le (Product.created_at p') (Product.updated_at p').
Proof.
  intros Hmono Horder.
  destruct (init_in_order name category price stock description id
              created_at updated_at deleted_at w Hmono Horder)
    as (p & w1 & Hinit & Hutc & Hclock & Hle).
  unfold mbind at 1, M_bind at 1. rewrite Hinit.
  destruct (mutate_all_in_order ms p w1) as (p' & w' & Hrun & Hc & Hle').
  - by rewrite Hutc.
  - by rewrite Hutc.
  - done.
  - by exists p', w'.
Qed.

Lemma updated_at_not_before_created_at_witness :
  ∃ p' w',
    (p ← Product.init "Wireless Mouse" "Electronics" price_29_99 150 None
                      None None None None;
     mutate_all [ApplyPartialUpdate None None None (Some price_34_99) None;
                 MarkDeleted] p) opening = (Ok p', w')
    ∧ datetime_le (Product.created_at p') (Product.updated_at p').
Proof.
  exact (updated_at_not_before_created_at
           "Wireless Mouse" "Electronics" price_29_99 150 None
           None None None None
           [ApplyPartialUpdate None None None (Some price_34_99) None;
            MarkDeleted]
           opening monotone_ticking I).
Defined.

(** Construct given a creation time of 10:30:05 and an update time of
    10:30:00, under the advancing clock and with no operation applied:
    the record is built as asked and updated_at is before created_at. *)
Lemma updated_at_not_before_created_at_counterexample :
  monotone (utc opening)
  ∧ (p ← Product.init "Wireless Mouse" "Electronics" price_29_99 150 None
                       (Some id_a) (Some (at_second 5 I)) (Some (at_second 0 I))
                       None;
     mutate_all [] p) opening
    = (Ok (Product.mk id_a "Wireless Mouse" None "Electronics" price_29_99 150
                      (at_second 5 I) (at_second 0 I) None),
       opening)
  ∧ ¬ datetime_le (at_second 5 I) (at_second 0 I).
Proof.
  split; [exact monotone_ticking|]. split; [reflexivity|]. intros H. exact H.
Qed.

(** ** The connection manager *)

(** C9 on the code. Get-active-collection fails when Connect was never
    called and returns the handle after Connect; after Connect and then
    Close it still returns the handle, because close_db leaves the
    collection attribute set. *)
Theorem get_collection_after_close_db settings cls :
  Database.get_collection Database.initial
  = Raise (RuntimeError "Database not connected. Call connect_db() first.")
  ∧ Database.get_collection (Database.connect_db settings cls)
    = Ok (Database.mkCollection (Settings.mongodb_database settings)
                                (Settings.mongodb_collection settings))
  ∧ Database.get_collection
      (Database.close_db (Database.connect_db settings cls))
    = Ok (Database.mkCollection (Settings.mongodb_database settings)
                                (Settings.mongodb_collection settings))
  ∧ Database.closed
    <$> Database.client (Database.close_db (Database.connect_db settings cls))
    = Some true.
Proof. repeat split. Qed.

(** ** Repository update *)

Lemma to_dict_union_lookup p (d : document) k v :
  Product.to_dict p !! k = Some v → (Product.to_dict p ∪ d) !! k = Some v.
Proof. intros H. by apply lookup_union_Some_l. Qed.

(** C8. With the driver answering, Repository.update returns the product;
    when no stored document carries the string form of its id the
    collection is exactly as before, and when one does, the first such
    document takes every entry of the product's serialized state, keeps its
    other entries, and no other document changes; the number of documents
    never changes. *)
Theorem repository_update_set_semantics p w :
  outages w (calls w) = None →
  ∃ w',
    ProductRepository.update p w = (Ok p, w')
    ∧ length (documents w') = length (documents w)
    ∧ ((∀ d, d ∈ documents w → ¬ has_id (Product.id p) d) →
       documents w' = documents w)
    ∧ (∀ i d, list_find (has_id (Product.id p)) (documents w) = Some (i, d) →
         ∃ d', documents w' = <[i := d']> (documents w)
           ∧ (∀ k v, Product.to_dict p !! k = Some v → d' !! k = Some v)
           ∧ (∀ k, Product.to_dict p !! k = None → d' !! k = d !! k)).
Proof.
  intros Hup. rewrite update_run, Hup. eexists. split; [reflexivity|].
  cbn [documents set_documents]. rewrite set_first_find.
  split; [|split].
  - destruct (list_find _ _) as [[i d]|]; [|done]. by rewrite length_insert.
  - intros Hnone. destruct (list_find _ _) as [[i d]|] eqn:Hfind; [|done].
    apply list_find_Some in Hfind as (Hi & Hd & _).
    destruct (Hnone d); [|done]. by eapply list_elem_of_lookup_2.
  - intros i d ->. exists (Product.to_dict p ∪ d). split; [done|]. split.
    + intros k v. apply to_dict_union_lookup.
    + intros k Hk. by rewrite lookup_union_r.
Qed.

(** ** Partial update *)

Lemma update_data_get data k :
  dict_get (ProductUpdate.model_dump_exclude_unset data) k
  = if decide (k ∈ ProductUpdate.model_fields_set data)
    then dict_get (ProductUpdate.model_dump data) k
    else VNone.
Proof.
  unfold dict_get, ProductUpdate.model_dump_exclude_unset.
  rewrite map_lookup_filter.
  destruct (decide (k ∈ ProductUpdate.model_fields_set data)) as [Hin|Hout];
    destruct (ProductUpdate.model_dump data !! k) as [v|]; cbn; try done.
  - by rewrite option_guard_True.
  - by rewrite option_guard_False.
Qed.

Lemma update_data_fields data :
  ProductService.optional_str
    (dict_get (ProductUpdate.model_dump_exclude_unset data) "name")
  = supplied data "name" (ProductUpdate.name data)
  ∧ ProductService.optional_str
      (dict_get (ProductUpdate.model_dump_exclude_unset data) "description")
    = supplied data "description" (ProductUpdate.description data)
  ∧ ProductService.optional_str
      (dict_get (ProductUpdate.model_dump_exclude_unset data) "category")
    = supplied data "category" (ProductUpdate.category data)
  ∧ ProductService.optional_float
      (dict_get (ProductUpdate.model_dump_exclude_unset data) "price")
    = supplied data "price" (ProductUpdate.price data)
  ∧ ProductService.optional_int
      (dict_get (ProductUpdate.model_dump_exclude_unset data) "stock")
    = supplied data "stock" (ProductUpdate.stock data).
Proof.
  rewrite !update_data_get. unfold supplied.
  destruct data as [name description category price stock fields].
  cbn [ProductUpdate.model_fields_set ProductUpdate.name
       ProductUpdate.description ProductUpdate.category ProductUpdate.price
       ProductUpdate.stock].
  repeat split; case_decide; try done.
  - by destruct name.
  - by destruct description.
  - by destruct category.
  - by destruct price.
  - by destruct stock.
Qed.

Lemma proceed_update_run data p w :
  proceed (UpdateProduct data) p w
  = (q ← Product.update p
           (supplied data "name" (ProductUpdate.name data))
           (supplied data "description" (ProductUpdate.description data))
           (supplied data "category" (ProductUpdate.category data))
           (supplied data "price" (ProductUpdate.price data))
           (supplied data "stock" (ProductUpdate.stock data));
     ProductRepository.update q) w.
Proof.
  destruct (update_data_fields data) as (Hn & Hd & Hc & Hp & Hs).
  cbn [proceed]. by rewrite Hn, Hd, Hc, Hp, Hs.
Qed.

Lemma from_dict_agree (d1 d2 : document) :
  (∀ k, k ∈ ["id"; "name"; "description"; "category"; "price"; "stock";
             "createdAt"; "updatedAt"; "deletedAt"] → d1 !! k = d2 !! k) →
  Product.from_dict d1 = Product.from_dict d2.
Proof.
  intros H. unfold Product.from_dict, getitem, dict_get.
  rewrite !(H "id"), !(H "name"), !(H "description"), !(H "category"),
    !(H "price"), !(H "stock"), !(H "createdAt"), !(H "updatedAt"),
    !(H "deletedAt") by (rewrite !elem_of_cons; tauto).
  reflexivity.
Qed.

Lemma to_dict_keys p k :
  k ∈ ["id"; "name"; "description"; "category"; "price"; "stock";
       "createdAt"; "updatedAt"; "deletedAt"] →
  is_Some (Product.to_dict p !! k) ∧ k ≠ "_id".
Proof.
  rewrite !elem_of_cons, elem_of_nil.
  intros H. repeat (destruct H as [->|H]; [split; [by eexists|done]|]). done.
Qed.

(** A stored document that took the entries of [to_dict p] reads as [p]. *)
Lemma read_stored p (d : document) :
  read (delete "_id" (Product.to_dict p ∪ d)) = Ok p.
Proof.
  unfold read.
  rewrite (from_dict_agree _ (Product.to_dict p)), from_dict_to_dict; [done|].
  intros k [[v Hv] Hne]%(to_dict_keys p).
  rewrite lookup_delete_ne by done. rewrite Hv. by apply lookup_union_Some_l.
Qed.

Lemma has_id_stored p (d : document) :
  has_id (Product.id p) (Product.to_dict p ∪ d).
Proof. unfold has_id. by apply lookup_union_Some_l. Qed.

Lemma list_find_insert {A} (P : A → Prop) `{∀ x, Decision (P x)}
    (l : list A) i x y :
  list_find P l = Some (i, x) → P y → list_find P (<[i := y]> l) = Some (i, y).
Proof.
  intros (Hi & Hx & Hbefore)%list_find_Some Hy. apply list_find_Some.
  split; [|split; [done|]].
  - apply list_lookup_insert_eq. by eapply lookup_lt_Some.
  - intros j z Hj Hlt. rewrite list_lookup_insert_ne in Hj by lia. eauto.
Qed.

Lemma find_by_id_Some product_id w p :
  (ProductRepository.find_by_id product_id w).1 = Ok (Some p) →
  outages w (calls w) = None
  ∧ Product.id p = product_id
  ∧ ∃ i d, list_find (has_id product_id) (documents w) = Some (i, d)
           ∧ read (delete "_id" d) = Ok p.
Proof.
  rewrite find_by_id_run. destruct (outages w (calls w)); [done|].
  destruct (list_find _ _) as [[i d]|] eqn:Hfind; [|done].
  destruct (read _) as [q|] eqn:Hread; [|done].
  intros [= ->]. split; [done|].
  apply list_find_Some in Hfind as Hd. destruct Hd as (_ & Hd & _).
  split; [by eapply read_stored_active|]. eauto.
Qed.

(** C4. Update-product on an active product with a request that spells out
    only price, with the driver answering: the returned record is the one
    found with price replaced (by the value given) and updated_at set to the
    clock's reading; name, description, category, stock, id, created_at and
    deleted_at are as found. The first document with that id takes the
    record's entries, and reading the id again yields the same record. *)
Theorem update_only_price product_id data p w :
  (ProductRepository.find_by_id product_id w).1 = Ok (Some p) →
  Product.is_deleted p = false →
  ProductUpdate.model_fields_set data = {["price"]} →
  outages w (S (calls w)) = None →
  ∃ p' w',
    run_alone (ProductService.update_product product_id data) w = (Ok p', w')
    ∧ p' = Product.mk (Product.id p) (Product.name p) (Product.description p)
                      (Product.category p)
                      (default (Product.price p) (ProductUpdate.price data))
                      (Product.stock p) (Product.created_at p)
                      (utc w (ticks w)) (Product.deleted_at p)
    ∧ (∃ i d, list_find (has_id product_id) (documents w) = Some (i, d)
              ∧ documents w' = <[i := Product.to_dict p' ∪ d]> (documents w))
    ∧ (outages w' (calls w') = None →
       (ProductRepository.find_by_id product_id w').1 = Ok (Some p')).
Proof.
  intros Hfound Hactive Hset Hup.
  pose proof (find_by_id_world product_id w) as Hw.
  destruct (find_by_id_Some product_id w p Hfound)
    as (Hup0 & Hid & i & d & Hfind & Hread).
  change (run_alone (ProductService.update_product product_id data))
    with (run_operation (UpdateProduct data) product_id).
  rewrite run_operation_run.
  destruct (ProductRepository.find_by_id product_id w) as [r w1].
  cbn [fst snd] in *. subst r w1. rewrite Hactive, proceed_update_run.
  unfold supplied. rewrite Hset.
  repeat (rewrite decide_False by (by intros ?%elem_of_singleton)).
  rewrite decide_True by (by apply elem_of_singleton).
  unfold mbind, M_bind. rewrite model_update_run, update_run.
  cbn [called outages calls set_calls set_ticks documents]. rewrite Hup.
  eexists _, _. split; [reflexivity|]. split; [reflexivity|].
  cbn [default from_option Datatypes.id Product.id].
  rewrite Hid, set_first_find, Hfind.
  split; [by eexists _, _|].
  cbn [outages calls set_documents set_calls set_ticks]. intros Hup2.
  rewrite find_by_id_run.
  cbn [outages calls documents set_documents set_calls set_ticks].
  rewrite Hup2.
  match goal with
  | |- context [<[i := Product.to_dict ?q ∪ d]> (documents w)] =>
      rewrite (list_find_insert _ _ i d (Product.to_dict q ∪ d) Hfind);
      [by rewrite read_stored|]
  end.
  match goal with
  | |- has_id _ (Product.to_dict ?q ∪ ?d') => exact (has_id_stored q d')
  end.
Qed.

Lemma update_only_price_witness :
  ∃ p' w',
    run_alone (ProductService.update_product id_a (only_price price_34_99)) stocked
    = (Ok p', w')
    ∧ p' = Product.mk id_a "Wireless Mouse"
             (Some "Ergonomic wireless mouse with USB receiver") "Electronics"
             price_34_99 150 (at_second 0 I) (at_second 4 I) None
    ∧ (∃ i d, list_find (has_id id_a) (documents stocked) = Some (i, d)
              ∧ documents w' = <[i := Product.to_dict p' ∪ d]> (documents stocked))
    ∧ (outages w' (calls w') = None →
       (ProductRepository.find_by_id id_a w').1 = Ok (Some p')).
Proof.
  apply (update_only_price id_a (only_price price_34_99) mouse stocked).
  - vm_compute. reflexivity.
  - reflexivity.
  - reflexivity.
  - reflexivity.
Defined.

(** ** Null and omitted fields *)




(** ** The router *)

Lemma uuid_field_str u :
  ProductResponse.uuid_field (VStr (uuid_str u)) = mret u.
Proof. unfold ProductResponse.uuid_field. by rewrite uuid_parse_str. Qed.

Lemma datetime_field_str t :
  ProductResponse.datetime_field (VStr (isoformat t)) = mret t.
Proof.
  unfold ProductResponse.datetime_field. by rewrite fromisoformat_isoformat.
Qed.

Lemma validate_to_dict p :
  ProductResponse.validate (Product.to_dict p) = mret (response_of p).
Proof.
  destruct (to_dict_lookup p)
    as (Hid & Hname & Hdesc & Hcat & Hprice & Hstock & Hc & Hu & Hd & _).
  unfold ProductResponse.validate, ProductResponse.required, dict_get.
  rewrite Hid, Hname, Hdesc, Hcat, Hprice, Hstock, Hc, Hu, Hd.
  clear. destruct p as [id name description category price stock created updated deleted].
  cbn [Product.id Product.name Product.description Product.category
       Product.price Product.stock Product.created_at Product.updated_at
       Product.deleted_at].
  destruct description, deleted;
    repeat first
      [ rewrite bind_ret
      | rewrite uuid_field_str
      | rewrite datetime_field_str
      | progress cbn beta iota delta
          [ProductResponse.str_field optional_str_value] ];
    reflexivity.
Qed.

Lemma for_each_validate ps w :
  for_each (λ p, ProductResponse.validate (Product.to_dict p)) ps w
  = (Ok (response_of <$> ps), w).
Proof.
  induction ps as [|p ps IH]; [done|].
  cbn [for_each]. unfold mbind at 1, M_bind at 1.
  rewrite validate_to_dict. cbn. unfold mbind, M_bind. by rewrite IH.
Qed.

Lemma create_product_outcome data w :
  (∃ p, (run_alone (ProductService.create_product data) w).1 = Ok p)
  ∨ (∃ cause, (run_alone (ProductService.create_product data) w).1
              = Raise (DatabaseException cause)).
Proof.
  unfold ProductService.create_product. cbn [run_alone]. unfold mbind, M_bind.
  rewrite init_run, create_run. destruct (outages _ _); [right; eauto|].
  destruct (bool_decide _); [right|left]; eauto.
Qed.

Lemma get_all_products_outcome w :
  (∃ ps, (run_alone ProductService.get_all_products w).1 = Ok ps)
  ∨ (∃ cause, (run_alone ProductService.get_all_products w).1
              = Raise (DatabaseException cause)).
Proof.
  unfold ProductService.get_all_products. cbn [run_alone]. unfold mbind, M_bind.
  rewrite find_all_run. destruct (outages _ _); [right; eauto|].
  destruct (read_all _); [left|right]; eauto.
Qed.

Lemma run_operation_outcome op product_id w :
  (∃ p, (run_operation op product_id w).1 = Ok p)
  ∨ (run_operation op product_id w).1
    = Raise (ProductNotFoundException (uuid_str product_id))
  ∨ (run_operation op product_id w).1
    = Raise (ProductAlreadyDeletedException (uuid_str product_id))
  ∨ (∃ cause, (run_operation op product_id w).1
              = Raise (DatabaseException cause)).
Proof.
  rewrite run_operation_run, find_by_id_run.
  destruct (outages _ _); [eauto 6|].
  destruct (list_find _ _) as [[i d]|]; [|eauto].
  destruct (read _) as [p|e]; [|eauto 6].
  destruct (Product.is_deleted p); [eauto|].
  destruct (proceed_outcome op p (called w)) as [[p' ->]|[cause ->]]; eauto 6.
Qed.

Lemma product_route (m : M Product.t) (h : exn → M ProductResponse.t) w :
  match m w with
  | (Ok p, w') =>
      (p ← m; r ← ProductResponse.validate (Product.to_dict p);
       mret (ProductBody r)) w = (Ok (ProductBody (response_of p)), w')
      ∧ (r ← try_except (p ← m; ProductResponse.validate (Product.to_dict p)) h;
         mret (ProductBody r)) w = (Ok (ProductBody (response_of p)), w')
  | (Raise e, w') =>
      (p ← m; r ← ProductResponse.validate (Product.to_dict p);
       mret (ProductBody r)) w = (Raise e, w')
      ∧ (r ← try_except (p ← m; ProductResponse.validate (Product.to_dict p)) h;
         mret (ProductBody r)) w = (r ← h e; mret (ProductBody r)) w'
  end.
Proof.
  unfold try_except, mbind, M_bind.
  destruct (m w) as [[p|e] w']; [|done].
  by rewrite validate_to_dict.
Qed.

Lemma except_chains e w :
  @Router.update_product_except ProductResponse.t e w
  = (Raise (HTTPException (spec_status e) (spec_detail e)), w)
  ∧ (spec_status e ≠ 400 →
     @Router.get_product_except ProductResponse.t e w
     = (Raise (HTTPException (spec_status e) (spec_detail e)), w)
     ∧ @Router.delete_product_except ProductResponse.t e w
       = (Raise (HTTPException (spec_status e) (spec_detail e)), w))
  ∧ (spec_status e ≠ 404 → spec_status e ≠ 410 →
     @Router.create_product_except ProductResponse.t e w
     = (Raise (HTTPException (spec_status e) (spec_detail e)), w))
  ∧ (spec_status e = 500 →
     @Router.get_all_products_except ProductListResponse.t e w
     = (Raise (HTTPException (spec_status e) (spec_detail e)), w)).
Proof. destruct e; cbn; repeat split; intros; done. Qed.

(** C6. On every request to a product route the endpoint answers what its
    try block produced, or, when the block raised an error kind, an
    HTTPException with the status code of that kind (NotFound 404,
    AlreadyDeleted 410, ValidationFailed 400, StorageFailure 500, anything
    else 500) whose detail is the message of the kind: the not-found and
    has-been-deleted texts with the id, the text starting with
    Database error, or the unexpected-error text around the message. The
    except clauses of PUT map every error this way, those of the other
    routes every kind of their row. *)
Theorem router_error_mapping req w :
  (∀ e,
     @Router.update_product_except ProductResponse.t e w
     = (Raise (HTTPException (spec_status e) (spec_detail e)), w)
     ∧ (spec_status e ≠ 400 →
        @Router.get_product_except ProductResponse.t e w
        = (Raise (HTTPException (spec_status e) (spec_detail e)), w)
        ∧ @Router.delete_product_except ProductResponse.t e w
          = (Raise (HTTPException (spec_status e) (spec_detail e)), w))
     ∧ (spec_status e ≠ 404 → spec_status e ≠ 410 →
        @Router.create_product_except ProductResponse.t e w
        = (Raise (HTTPException (spec_status e) (spec_detail e)), w))
     ∧ (spec_status e = 500 →
        @Router.get_all_products_except ProductListResponse.t e w
        = (Raise (HTTPException (spec_status e) (spec_detail e)), w)))
  ∧ match attempt req w with
    | (Ok b, w') => endpoint req w = (Ok b, w')
    | (Raise e, w') =>
        may_raise req e
        ∧ endpoint req w
          = (Raise (HTTPException (spec_status e) (spec_detail e)), w')
    end.
Proof.
  split; [intros e; apply except_chains|].
  destruct req as [data| |product_id|product_id data|product_id];
    cbn [attempt endpoint may_raise].
  - unfold Router.create_product.
    pose proof (product_route (run_alone (ProductService.create_product data))
                  Router.create_product_except w) as H.
    destruct (create_product_outcome data w) as [[p Hp]|[cause Hp]];
      destruct (run_alone (ProductService.create_product data) w) as [r w'];
      cbn [fst] in Hp; subst r; destruct H as [-> ->]; [done|].
    split; [by eexists|done].
  - unfold Router.get_all_products, try_except, mbind, M_bind.
    destruct (get_all_products_outcome w) as [[ps Hp]|[cause Hp]];
      destruct (run_alone ProductService.get_all_products w) as [r w'];
      cbn [fst] in Hp; subst r.
    + by rewrite for_each_validate.
    + split; [by eexists|done].
  - unfold Router.get_product.
    pose proof (product_route (run_alone (ProductService.get_product_by_id product_id))
                  Router.get_product_except w) as H.
    destruct (run_operation_outcome GetProductById product_id w)
      as [[p Hp]|[Hp|[Hp|[cause Hp]]]]; unfold run_operation in Hp; cbn [service_operation] in Hp;
      destruct (run_alone (ProductService.get_product_by_id product_id) w) as [r w'];
      cbn [fst] in Hp; subst r; destruct H as [-> ->]; try done;
      (split; [|done]); eauto.
  - unfold Router.update_product.
    pose proof (product_route (run_alone (ProductService.update_product product_id data))
                  Router.update_product_except w) as H.
    destruct (run_operation_outcome (UpdateProduct data) product_id w)
      as [[p Hp]|[Hp|[Hp|[cause Hp]]]]; unfold run_operation in Hp; cbn [service_operation] in Hp;
      destruct (run_alone (ProductService.update_product product_id data) w) as [r w'];
      cbn [fst] in Hp; subst r; destruct H as [-> ->]; try done;
      (split; [|done]); eauto.
  - unfold Router.delete_product.
    pose proof (product_route (run_alone (ProductService.delete_product product_id))
                  Router.delete_product_except w) as H.
    destruct (run_operation_outcome DeleteProduct product_id w)
      as [[p Hp]|[Hp|[Hp|[cause Hp]]]]; unfold run_operation in Hp; cbn [service_operation] in Hp;
      destruct (run_alone (ProductService.delete_product product_id) w) as [r w'];
      cbn [fst] in Hp; subst r; destruct H as [-> ->]; try done;
      (split; [|done]); eauto.
Qed.

(** ** Listing *)

Lemma matches_active d :
  Is_true (matches {["deletedAt" := VNone]} d) ↔ ¬ marked_deleted d.
Proof.
  unfold matches, marked_deleted, dict_get.
  rewrite bool_decide_spec, map_Forall_singleton. cbn [field_matches].
  destruct (d !! "deletedAt") as [v|]; split.
  - intros [H|[= ->]] Hv; done.
  - intros H. right. f_equal. destruct (decide (v = VNone)); [done|tauto].
  - intros _ H. by apply H.
  - by left.
Qed.

Lemma find_all_active_run w :
  ProductRepository.find_all false w
  = match outages w (calls w) with
    | Some message =>
        (Raise (DatabaseException ("Failed to find products: " +:+ message)),
         called w)
    | None =>
        match read_all (filter (λ d, ¬ marked_deleted d) (documents w)) with
        | Ok ps => (Ok ps, called w)
        | Raise e =>
            (Raise (DatabaseException ("Failed to find products: " +:+ str e)),
             called w)
        end
    end.
Proof.
  rewrite find_all_run. destruct (outages _ _); [done|].
  by rewrite (list_filter_iff _ (λ d, ¬ marked_deleted d) _ matches_active).
Qed.

Lemma read_active d p :
  read (delete "_id" d) = Ok p →
  (Product.deleted_at p = None ↔ ¬ marked_deleted d).
Proof.
  intros [_ Hdel]%read_Ok. unfold marked_deleted.
  replace (dict_get (delete "_id" d) "deletedAt")
    with (dict_get d "deletedAt") in Hdel
    by (unfold dict_get; by rewrite lookup_delete_ne).
  rewrite Hdel. split; [intros E H; by apply H|].
  intros H. by destruct (decide (dict_get d "deletedAt" = VNone)).
Qed.

Lemma read_all_Ok docs ps :
  read_all docs = Ok ps →
  length ps = length docs
  ∧ Forall2 (λ d p, read (delete "_id" d) = Ok p) docs ps.
Proof.
  revert ps. induction docs as [|d docs IH]; intros ps; cbn [read_all].
  - by intros [= <-].
  - destruct (read _) as [p|] eqn:Hp; [|done].
    destruct (read_all docs) as [qs|]; [|done]. intros [= <-].
    destruct (IH qs eq_refl) as [Hlen Hall]. split; [by cbn; rewrite Hlen|].
    by constructor.
Qed.

Lemma read_all_readable docs :
  Forall readable docs → ∃ ps, read_all docs = Ok ps.
Proof.
  induction 1 as [|d docs [p Hp] _ [ps IH]]; [by eexists|].
  cbn [read_all]. rewrite Hp, IH. by eexists.
Qed.

Lemma read_all_active docs ps :
  read_all (filter (λ d, ¬ marked_deleted d) docs) = Ok ps →
  Forall (λ p, Product.deleted_at p = None) ps.
Proof.
  intros [_ Hall]%read_all_Ok.
  assert (Hact : Forall (λ d, ¬ marked_deleted d)
                        (filter (λ d, ¬ marked_deleted d) docs)).
  { apply Forall_forall. by intros d [? _]%list_elem_of_filter. }
  induction Hall as [|d p ds ps Hread _ IH]; [constructor|].
  apply Forall_cons in Hact as [Hd Hds].
  constructor; [by apply (read_active d p)|by apply IH].
Qed.

Lemma length_filter_insert {A} (P : A → Prop) `{∀ x, Decision (P x)}
    (l : list A) i x y :
  l !! i = Some x →
  (length (filter P (<[i := y]> l)) + (if decide (P x) then 1 else 0)
   = length (filter P l) + (if decide (P y) then 1 else 0))%nat.
Proof.
  revert i. induction l as [|z l IH]; intros [|i] Hi; try done.
  - injection Hi as ->. change (<[0%nat := y]> (x :: l)) with (y :: l).
    rewrite !filter_cons. repeat case_decide; cbn [length]. all: lia.
  - change (<[S i := y]> (z :: l)) with (z :: <[i := y]> l).
    rewrite !filter_cons. specialize (IH i Hi).
    destruct (decide (P z)), (decide (P x)), (decide (P y)); cbn [length].
    all: lia.
Qed.

Lemma stored_marked_deleted p (d : document) :
  marked_deleted (Product.to_dict p ∪ d) ↔ is_Some (Product.deleted_at p).
Proof.
  unfold marked_deleted, dict_get.
  destruct (to_dict_lookup p) as (_ & _ & _ & _ & _ & _ & _ & _ & Hd & _).
  rewrite (lookup_union_Some_l _ _ _ _ Hd).
  destruct (Product.deleted_at p); split; intros H; try done;
    try (by destruct H); try (by eexists).
Qed.

Lemma read_fresh p v : read (delete "_id" (<["_id" := v]> (Product.to_dict p))) = Ok p.
Proof.
  rewrite delete_insert_eq, delete_id by done.
  unfold read. by rewrite from_dict_to_dict.
Qed.

Lemma fresh_marked_deleted p v :
  marked_deleted (<["_id" := v]> (Product.to_dict p))
  ↔ is_Some (Product.deleted_at p).
Proof.
  unfold marked_deleted, dict_get. rewrite lookup_insert_ne by done.
  destruct (to_dict_lookup p) as (_ & _ & _ & _ & _ & _ & _ & _ & Hd & _).
  rewrite Hd. destruct (Product.deleted_at p); split; intros H; try done;
    try (by destruct H); try (by eexists).
Qed.

(** What going on with a found, active product does to the collection. *)
Lemma proceed_stats op p w i d :
  list_find (has_id (Product.id p)) (documents w) = Some (i, d) →
  ¬ marked_deleted d →
  Product.deleted_at p = None →
  Forall readable (documents w) →
  Forall readable (documents (proceed op p w).2)
  ∧ length (documents (proceed op p w).2) = length (documents w)
  ∧ length (filter marked_deleted (documents (proceed op p w).2))
    = (length (filter marked_deleted (documents w))
       + match op, (proceed op p w).1 with
         | DeleteProduct, Ok _ => 1
         | _, _ => 0
         end)%nat.
Proof.
  intros Hfind Hd Hp Hread.
  apply list_find_Some in Hfind as Hi. destruct Hi as (Hi & _ & _).
  destruct op as [|data|].
  - cbn [proceed]. unfold mret, M_ret. cbn [fst snd].
    split; [done|split; [done|lia]].
  - rewrite proceed_update_run. unfold mbind, M_bind.
    rewrite model_update_run, update_run. cbn [outages calls set_ticks].
    destruct (outages w (calls w)); cbn [fst snd documents set_documents called
                                          set_calls set_ticks Product.id].
    { split; [done|split; [done|lia]]. }
    rewrite set_first_find, Hfind. split; [|split].
    + apply Forall_insert; [done|]. eexists. apply read_stored.
    + by rewrite length_insert.
    + match goal with
      | |- context [<[i := Product.to_dict ?q ∪ d]> (documents w)] =>
          pose proof (length_filter_insert marked_deleted (documents w) i d
                        (Product.to_dict q ∪ d) Hi) as Hcount;
          assert (Hq : ¬ marked_deleted (Product.to_dict q ∪ d))
            by (rewrite stored_marked_deleted; cbn [Product.deleted_at];
                rewrite Hp; by intros [? ?])
      end.
      rewrite !decide_False in Hcount by done. cbn [fst]. lia.
  - cbn [proceed]. unfold mbind, M_bind.
    rewrite soft_delete_run, update_run. cbn [outages calls set_ticks].
    destruct (outages w (calls w)); cbn [fst snd documents set_documents called
                                          set_calls set_ticks Product.id].
    { split; [done|split; [done|lia]]. }
    rewrite set_first_find, Hfind. split; [|split].
    + apply Forall_insert; [done|]. eexists. apply read_stored.
    + by rewrite length_insert.
    + match goal with
      | |- context [<[i := Product.to_dict ?q ∪ d]> (documents w)] =>
          pose proof (length_filter_insert marked_deleted (documents w) i d
                        (Product.to_dict q ∪ d) Hi) as Hcount;
          assert (Hq : marked_deleted (Product.to_dict q ∪ d))
            by (rewrite stored_marked_deleted; by eexists)
      end.
      rewrite decide_False in Hcount by done.
      rewrite decide_True in Hcount by done. cbn [fst]. lia.
Qed.

Lemma discard_result {A} (m : M A) w :
  ((_ ← m; mret ()) w).1
  = match (m w).1 with Ok _ => Ok () | Raise e => Raise e end.
Proof. unfold mbind, M_bind. by destruct (m w) as [[?|?] ?]. Qed.

Lemma is_deleted_false p :
  Product.is_deleted p = false ↔ Product.deleted_at p = None.
Proof. unfold Product.is_deleted. by destruct (Product.deleted_at p). Qed.

(** Every call keeps the documents readable, adds one document exactly
    when it is a Create that succeeds, and marks one more document deleted
    exactly when it is a Delete that succeeds. *)
Ltac unchanged op :=
  cbn [documents called set_calls];
  split; [done|split; [lia|]]; destruct op; cbn; lia.

Lemma perform_stats c w :
  Forall readable (documents w) →
  Forall readable (documents (perform c w).2)
  ∧ length (documents (perform c w).2)
    = (length (documents w) + created c (perform c w).1)%nat
  ∧ length (filter marked_deleted (documents (perform c w).2))
    = (length (filter marked_deleted (documents w))
       + deleted c (perform c w).1)%nat.
Proof.
  intros Hread.
  destruct c as [data| |op product_id]; cbn [perform];
    rewrite discard_world, discard_result.
  - unfold ProductService.create_product. cbn [run_alone]. unfold mbind, M_bind.
    rewrite init_run, create_run.
    cbn [outages calls documents set_ticks set_draws next_oid].
    destruct (outages w (calls w));
      cbn [fst snd documents called set_calls set_ticks set_draws
           created deleted].
    { split; [done|split; lia]. }
    destruct (bool_decide _);
      cbn [fst snd documents called set_calls set_documents set_next_oid
           set_ticks set_draws created deleted].
    { split; [done|split; lia]. }
    split; [|split].
    + apply Forall_app. split; [done|]. constructor; [|constructor].
      eexists. apply read_fresh.
    + rewrite length_app. cbn. lia.
    + rewrite filter_app, length_app, filter_cons_False, filter_nil; [cbn; lia|].
      rewrite fresh_marked_deleted. by intros [? ?].
  - rewrite get_all_products_documents. cbn [created deleted].
    split; [done|split; lia].
  - rewrite run_operation_run, find_by_id_run. cbn [created deleted].
    change (documents (called w)) with (documents w) in *.
    destruct (outages w (calls w)); cbn [fst snd]; [unchanged op|].
    destruct (list_find _ _) as [[i d]|] eqn:Hfind; cbn [fst snd];
      [|unchanged op].
    destruct (read _) as [p|e] eqn:Hp; cbn [fst snd]; [|unchanged op].
    apply list_find_Some in Hfind as Hd. destruct Hd as (_ & Hd & _).
    destruct (read_stored_active product_id d p Hd Hp) as [Hid Hactive].
    destruct (Product.is_deleted p) eqn:Hdel; cbn [fst snd]; [unchanged op|].
    destruct (proceed_stats op p (called w) i d) as (H1 & H2 & H3).
    + by rewrite Hid.
    + by apply Hactive.
    + by apply is_deleted_false.
    + done.
    + change (documents (called w)) with (documents w) in *.
      split; [done|split; [lia|]]. rewrite H3.
      destruct op; [cbn; lia|cbn; lia|].
      destruct (proceed DeleteProduct p (called w)).1; cbn; lia.
Qed.

Lemma perform_all_stats cs :
  ∀ w, Forall readable (documents w) →
    Forall readable (documents (perform_all cs w).2)
    ∧ length (documents (perform_all cs w).2)
      = (length (documents w) + (perform_all cs w).1.1)%nat
    ∧ length (filter marked_deleted (documents (perform_all cs w).2))
      = (length (filter marked_deleted (documents w))
         + (perform_all cs w).1.2)%nat.
Proof.
  induction cs as [|c cs IH]; intros w Hread; cbn [perform_all].
  - cbn. split; [done|split; lia].
  - destruct (perform_stats c w Hread) as (H1 & H2 & H3).
    destruct (perform c w) as [r w1]. cbn [fst snd] in *.
    destruct (IH w1 H1) as (H4 & H5 & H6).
    destruct (perform_all cs w1) as [[n k] w2]. cbn [fst snd] in *.
    split; [done|split; lia].
Qed.

Lemma length_filter_split {A} (P : A → Prop) `{∀ x, Decision (P x)} (l : list A) :
  (length (filter (λ x, ¬ P x) l) + length (filter P l) = length l)%nat.
Proof.
  induction l as [|x l IH]; [done|].
  rewrite !filter_cons. destruct (decide (P x)), (decide (¬ P x));
    cbn [length]; try tauto; lia.
Qed.

Lemma get_all_products_run w :
  Router.get_all_products w
  = match outages w (calls w) with
    | Some message =>
        (Raise (HTTPException 500
                  ("Database error: Failed to find products: " +:+ message)),
         called w)
    | None =>
        match read_all (filter (λ d, ¬ marked_deleted d) (documents w)) with
        | Ok ps =>
            (Ok (ProductListResponse.mk (response_of <$> ps)
                                        (Z.of_nat (length ps))), called w)
        | Raise e =>
            (Raise (HTTPException 500
                      ("Database error: Failed to find products: " +:+ str e)),
             called w)
        end
    end.
Proof.
  unfold Router.get_all_products, ProductService.get_all_products.
  cbn [run_alone]. unfold try_except, mbind, M_bind.
  rewrite find_all_active_run. destruct (outages _ _); [done|].
  destruct (read_all _) as [ps|e]; [|done].
  cbn [mret M_ret]. by rewrite for_each_validate.
Qed.

(** C3. After any sequence of Service calls on an empty collection, of
    which n were Creates that succeeded and k Deletes that succeeded, the
    collection holds n documents of which k are marked deleted, and GET
    /products, with the driver answering, returns the products read from
    exactly the documents not marked deleted, in stored order: n - k
    products, none with deletedAt set, and a total equal to their number.
    In any world, a list response has total equal to the length of its
    product collection and no product with deletedAt set. *)
Theorem listing_excludes_deleted cs w0 :
  documents w0 = [] →
  let n := (perform_all cs w0).1.1 in
  let k := (perform_all cs w0).1.2 in
  let w := (perform_all cs w0).2 in
  length (documents w) = n
  ∧ length (filter marked_deleted (documents w)) = k
  ∧ (outages w (calls w) = None →
     ∃ ps,
       read_all (filter (λ d, ¬ marked_deleted d) (documents w)) = Ok ps
       ∧ Router.get_all_products w
         = (Ok (ProductListResponse.mk (response_of <$> ps)
                                       (Z.of_nat (length ps))), called w)
       ∧ length ps = (n - k)%nat
       ∧ Forall (λ p, Product.deleted_at p = None) ps)
  ∧ (∀ w1 resp w2,
       Router.get_all_products w1 = (Ok resp, w2) →
       ProductListResponse.total resp
       = Z.of_nat (length (ProductListResponse.products resp))
       ∧ Forall (λ r, ProductResponse.deletedAt r = None)
                (ProductListResponse.products resp)).
Proof.
  intros Hempty. cbn zeta.
  destruct (perform_all_stats cs w0) as (Hread & Hlen & Hdel).
  { rewrite Hempty. constructor. }
  rewrite Hempty in Hlen, Hdel. cbn [length filter list_filter] in Hlen, Hdel.
  split; [done|]. split; [done|]. split.
  - intros Hup.
    destruct (read_all_readable
                (filter (λ d, ¬ marked_deleted d)
                        (documents (perform_all cs w0).2))) as [ps Hps].
    { apply Forall_forall. intros d [_ Hd]%list_elem_of_filter.
      by eapply Forall_forall in Hread. }
    exists ps. split; [done|]. split; [|split].
    + by rewrite get_all_products_run, Hup, Hps.
    + apply read_all_Ok in Hps as [-> _].
      pose proof (length_filter_split marked_deleted
                    (documents (perform_all cs w0).2)). lia.
    + by eapply read_all_active.
  - intros w1 resp w2. rewrite get_all_products_run.
    destruct (outages _ _); [done|].
    destruct (read_all _) as [ps|e] eqn:Hps; [|done].
    intros [= <- _]. cbn [ProductListResponse.total ProductListResponse.products].
    split; [by rewrite length_fmap|].
    apply Forall_fmap. by eapply read_all_active.
Qed.


Lemma listing_excludes_deleted_witness :
  let w := (perform_all [Create wireless_mouse; Create usb_cable;
                         On DeleteProduct id_b] opening).2 in
  ∃ ps,
    read_all (filter (λ d, ¬ marked_deleted d) (documents w)) = Ok ps
    ∧ Router.get_all_products w
      = (Ok (ProductListResponse.mk (response_of <$> ps)
                                    (Z.of_nat (length ps))), called w)
    ∧ length ps = (2 - 1)%nat
    ∧ Forall (λ p, Product.deleted_at p = None) ps.
Proof.
  pose proof (listing_excludes_deleted
                [Create wireless_mouse; Create usb_cable;
                 On DeleteProduct id_b] opening eq_refl) as H.
  cbv zeta in H. destruct H as (_ & _ & H & _).
  cbv zeta.
  destruct (H ltac:(vm_compute; reflexivity)) as (ps & H1 & H2 & H3 & H4).
  exists ps. split; [exact H1|]. split; [exact H2|]. split; [|exact H4].
  rewrite H3. vm_compute. reflexivity.
Defined.

(** ** The properties on the sample shop *)



Lemma router_error_mapping_witness :
  endpoint (GET_product id_c) shop
  = (Raise (HTTPException 404
       "Product with id 'ffffffff-ffff-ffff-ffff-ffffffffffff' not found"),
     called shop)
  ∧ @Router.get_product_except ProductResponse.t (DatabaseException "down") shop
    = (Raise (HTTPException 500 "Database error: down"), shop).
Proof.
  destruct (router_error_mapping (GET_product id_c) shop) as [Hchains Hreq].
  split.
  - assert (Hatt : attempt (GET_product id_c) shop
                   = (Raise (ProductNotFoundException
                               "ffffffff-ffff-ffff-ffff-ffffffffffff"),
                      called shop)) by (vm_compute; reflexivity).
    rewrite Hatt in Hreq. exact (proj2 Hreq).
  - destruct (Hchains (DatabaseException "down")) as (_ & Hget & _).
    apply Hget. discriminate.
Defined.

Lemma repository_update_set_semantics_witness :
  ∃ w',
    ProductRepository.update mouse stocked = (Ok mouse, w')
    ∧ length (documents w') = length (documents stocked)
    ∧ ((∀ d, d ∈ documents stocked → ¬ has_id id_a d) →
       documents w' = documents stocked)
    ∧ (∀ i d, list_find (has_id id_a) (documents stocked) = Some (i, d) →
         ∃ d', documents w' = <[i := d']> (documents stocked)
           ∧ (∀ k v, Product.to_dict mouse !! k = Some v → d' !! k = Some v)
           ∧ (∀ k, Product.to_dict mouse !! k = None → d' !! k = d !! k)).
Proof.
  apply (repository_update_set_semantics mouse stocked). reflexivity.
Defined.



(** * Further properties *)

(** ** What a Service call does to the collection *)

Lemma uuid_str_inj u v : uuid_str u = uuid_str v → u = v.
Proof.
  intros H. apply (f_equal uuid_parse) in H.
  rewrite !uuid_parse_str in H. by injection H.
Qed.

Lemma has_id_to_dict product_id p (d : document) :
  has_id product_id (Product.to_dict p ∪ d) ↔ Product.id p = product_id.
Proof.
  unfold has_id.
  destruct (to_dict_lookup p) as (Hid & _).
  rewrite (lookup_union_Some_l _ _ _ _ Hid). split.
  - intros H. apply uuid_str_inj. congruence.
  - by intros ->.
Qed.

(** What going on with a found product leaves behind: nothing written, or
    a success whose record, with the same id, is set on the first document
    carrying that id. *)
Lemma proceed_cases op p w :
  documents (proceed op p w).2 = documents w
  ∧ ((∃ e, (proceed op p w).1 = Raise e)
     ∨ (op = GetProductById ∧ (proceed op p w).1 = Ok p))
  ∨ ∃ p', (proceed op p w).1 = Ok p'
      ∧ op ≠ GetProductById
      ∧ Product.id p' = Product.id p
      ∧ documents (proceed op p w).2
        = set_first {["id" := VStr (uuid_str (Product.id p))]}
                    (Product.to_dict p') (documents w).
Proof.
  destruct op as [|data|].
  - left. split; [done|]. right. done.
  - rewrite proceed_update_run. unfold mbind, M_bind.
    rewrite model_update_run, update_run. cbn [outages calls set_ticks].
    destruct (outages w (calls w)).
    + left. split; [done|]. left. by eexists.
    + right. eexists. split; [done|]. split; [done|]. split; done.
  - cbn [proceed]. unfold mbind, M_bind.
    rewrite soft_delete_run, update_run. cbn [outages calls set_ticks].
    destruct (outages w (calls w)).
    + left. split; [done|]. left. by eexists.
    + right. eexists. split; [done|]. split; [done|]. split; done.
Qed.

(** The same for a whole operation: nothing written, or the first document
    with the id, which read as an active product, took the entries of the
    returned record. *)
Lemma run_operation_cases op product_id w :
  documents (run_operation op product_id w).2 = documents w
  ∧ ((∃ e, (run_operation op product_id w).1 = Raise e)
     ∨ op = GetProductById)
  ∨ ∃ i d p p',
      list_find (has_id product_id) (documents w) = Some (i, d)
      ∧ read (delete "_id" d) = Ok p
      ∧ Product.is_deleted p = false
      ∧ op ≠ GetProductById
      ∧ (run_operation op product_id w).1 = Ok p'
      ∧ Product.id p' = product_id
      ∧ documents (run_operation op product_id w).2
        = <[i := Product.to_dict p' ∪ d]> (documents w).
Proof.
  rewrite run_operation_run, find_by_id_run.
  destruct (outages w (calls w)).
  { left. split; [done|]. left. by eexists. }
  destruct (list_find _ _) as [[i d]|] eqn:Hfind.
  2: { left. split; [done|]. left. by eexists. }
  destruct (read _) as [p|e] eqn:Hp.
  2: { left. split; [done|]. left. by eexists. }
  apply list_find_Some in Hfind as Hd. destruct Hd as (_ & Hd & _).
  destruct (read_stored_active product_id d p Hd Hp) as [Hid _].
  destruct (Product.is_deleted p) eqn:Hdel.
  { left. split; [done|]. left. by eexists. }
  destruct (proceed_cases op p (called w))
    as [[Hsame Hres]|(p' & Hres & Hop & Hid' & Hdocs)].
  - left. split; [done|]. destruct Hres as [?|[-> _]]; [by left|by right].
  - right. exists i, d, p, p'.
    rewrite Hdocs, Hid, Hid'. cbn [documents called set_calls].
    by rewrite set_first_find, Hfind.
Qed.

Lemma create_product_run data w :
  run_alone (ProductService.create_product data) w
  = let p := Product.mk (uuids w (draws w)) (ProductCreate.name data)
               (ProductCreate.description data) (ProductCreate.category data)
               (ProductCreate.price data) (ProductCreate.stock data)
               (utc w (ticks w)) (utc w (S (ticks w))) None in
    let w1 := set_ticks (S (S (ticks w))) (set_draws (S (draws w)) w) in
    match outages w (calls w) with
    | Some message =>
        (Raise (DatabaseException ("Failed to create product: " +:+ message)),
         called w1)
    | None =>
        if bool_decide (Exists (has_id (Product.id p)) (documents w))
        then (Raise (DatabaseException
                       "Failed to create product: E11000 duplicate key error"),
              called w1)
        else (Ok p,
              set_documents
                (documents w ++ [<["_id" := VObjectId (next_oid w)]> (Product.to_dict p)])
                (set_next_oid (S (next_oid w)) (called w1)))
    end.
Proof.
  unfold ProductService.create_product. cbn [run_alone]. unfold mbind, M_bind.
  rewrite init_run, create_run. cbn zeta.
  cbn [outages calls documents next_oid set_ticks set_draws].
  destruct (outages w (calls w)); [done|].
  by erewrite bool_decide_ext.
Qed.

(** Every Service call leaves the collection as it was, or appends the
    document of a product whose id no stored document carried, or sets the
    entries of a record with the addressed id on the first document
    carrying it, which was not marked deleted. *)
Lemma perform_cases c w :
  (documents (perform c w).2 = documents w
   ∧ created c (perform c w).1 = 0%nat)
  ∨ (∃ data p,
       c = Create data ∧ (perform c w).1 = Ok ()
       ∧ ¬ Exists (has_id (Product.id p)) (documents w)
       ∧ documents (perform c w).2
         = (documents w
            ++ [<["_id" := VObjectId (next_oid w)]> (Product.to_dict p)])%list)
  ∨ (∃ op product_id i d p',
       c = On op product_id ∧ op ≠ GetProductById ∧ (perform c w).1 = Ok ()
       ∧ list_find (has_id product_id) (documents w) = Some (i, d)
       ∧ ¬ marked_deleted d
       ∧ Product.id p' = product_id
       ∧ documents (perform c w).2 = <[i := Product.to_dict p' ∪ d]> (documents w)).
Proof.
  destruct c as [data| |op product_id]; cbn [perform];
    rewrite discard_world, discard_result.
  - rewrite create_product_run. cbn zeta.
    destruct (outages w (calls w)); [by left|].
    case_bool_decide as Hdup; [by left|].
    right. left. eexists data, _.
    split; [reflexivity|]. split; [reflexivity|]. split; [exact Hdup|].
    reflexivity.
  - left. split; [apply get_all_products_documents|done].
  - destruct (run_operation_cases op product_id w)
      as [[Hsame _]|(i & d & p & p' & Hfind & Hp & Hdel & Hop & Hres & Hid & Hdocs)];
      [by left|].
    right. right. exists op, product_id, i, d, p'.
    rewrite Hres, Hdocs. repeat split; try done.
    apply list_find_Some in Hfind as (_ & Hd & _).
    by apply (read_stored_active product_id d p Hd Hp).
Qed.

(** X1. A Service call that raises, whatever the error, has written
    nothing: the collection is exactly as before the call. *)
Theorem failed_call_writes_nothing c w e :
  (perform c w).1 = Raise e →
  documents (perform c w).2 = documents w.
Proof.
  intros Hfail.
  destruct (perform_cases c w)
    as [[Hsame _]|[(data & p & _ & Hok & _)|(op & x & i & d & p' & _ & _ & Hok & _)]];
    [done|congruence|congruence].
Qed.

Lemma failed_call_writes_nothing_witness :
  documents (perform (On DeleteProduct id_b) shop).2 = documents shop.
Proof.
  apply (failed_call_writes_nothing (On DeleteProduct id_b) shop
           (ProductAlreadyDeletedException
              "123e4567-e89b-12d3-a456-426614174001")).
  vm_compute. reflexivity.
Defined.

(** X2. A Service call changes no stored document other than one carrying
    the id it addresses: Create and Get-all change none, and Get, Update
    and Delete on an id leave every document carrying another id (or none)
    as it was, at its place. *)
Theorem call_touches_only_its_product c w j d :
  documents w !! j = Some d →
  (∀ op product_id, c = On op product_id → ¬ has_id product_id d) →
  documents (perform c w).2 !! j = Some d.
Proof.
  intros Hj Hother.
  destruct (perform_cases c w)
    as [[-> _]|[(data & p & _ & _ & _ & ->)
           |(op & x & i & di & p' & -> & _ & _ & Hfind & _ & _ & ->)]].
  - done.
  - by apply lookup_app_l_Some.
  - apply list_find_Some in Hfind as (Hi & Hdi & _).
    rewrite list_lookup_insert_ne; [done|].
    intros <-. rewrite Hi in Hj. injection Hj as <-.
    by apply (Hother op x).
Qed.

Lemma call_touches_only_its_product_witness :
  documents (perform (On DeleteProduct id_a) stocked).2 !! 1%nat
  = Some (<["_id" := VObjectId 1]> (Product.to_dict cable_as_created)).
Proof.
  assert (Hstored : documents stocked !! 1%nat
                    = Some (<["_id" := VObjectId 1]>
                              (Product.to_dict cable_as_created)))
    by (apply (bool_decide_eq_true_1 _); vm_compute; reflexivity).
  refine (call_touches_only_its_product (On DeleteProduct id_a) stocked 1
            _ Hstored _).
  intros op product_id [= _ <-].
  apply (bool_decide_eq_false_1
           (has_id id_a (<["_id" := VObjectId 1]>
                           (Product.to_dict cable_as_created)))).
  vm_compute. reflexivity.
Defined.

(** ** Sequences of Service calls *)

Lemma perform_all_cons c cs w :
  (perform_all (c :: cs) w).2 = (perform_all cs (perform c w).2).2
  ∧ (perform_all (c :: cs) w).1.1
    = (created c (perform c w).1 + (perform_all cs (perform c w).2).1.1)%nat.
Proof.
  cbn [perform_all]. destruct (perform c w) as [r w1]. cbn [fst snd].
  by destruct (perform_all cs w1) as [[n k] w2].
Qed.

Lemma has_id_fresh product_id p v :
  has_id product_id (<["_id" := v]> (Product.to_dict p)) ↔ Product.id p = product_id.
Proof.
  unfold has_id. rewrite lookup_insert_ne by done.
  destruct (to_dict_lookup p) as (-> & _). split.
  - intros H. apply uuid_str_inj. congruence.
  - by intros ->.
Qed.

Lemma has_id_unique product_id x d : has_id product_id d → has_id x d → x = product_id.
Proof.
  unfold has_id. intros H1 H2. apply uuid_str_inj. congruence.
Qed.

(** One call keeps every document in its place, with its [id] and [_id]
    entries. *)
Lemma perform_persist c w j d :
  documents w !! j = Some d →
  ∃ d', documents (perform c w).2 !! j = Some d'
        ∧ d' !! "id" = d !! "id" ∧ d' !! "_id" = d !! "_id".
Proof.
  intros Hj.
  destruct (perform_cases c w)
    as [[-> _]|[(data & p & _ & _ & _ & ->)
               |(op & x & i & di & p' & _ & _ & _ & Hfind & _ & Hid & ->)]].
  - by exists d.
  - exists d. split; [by apply lookup_app_l_Some|done].
  - apply list_find_Some in Hfind as (Hi & Hdi & _).
    destruct (decide (i = j)) as [->|Hne].
    + rewrite Hi in Hj. injection Hj as ->.
      exists (Product.to_dict p' ∪ d).
      rewrite list_lookup_insert_eq by by eapply lookup_lt_Some.
      split; [done|]. split.
      * pose proof (has_id_stored p' d) as H. rewrite Hid in H.
        unfold has_id in H, Hdi. congruence.
      * destruct (to_dict_lookup p') as (_ & _ & _ & _ & _ & _ & _ & _ & _ & Hnone).
        by rewrite lookup_union_r.
    + exists d. by rewrite list_lookup_insert_ne.
Qed.

Lemma perform_length c w :
  length (documents (perform c w).2)
  = (length (documents w) + created c (perform c w).1)%nat.
Proof.
  destruct (perform_cases c w)
    as [[-> ->]|[(data & p & -> & -> & _ & ->)
                |(op & x & i & di & p' & -> & _ & -> & _ & _ & _ & ->)]].
  - lia.
  - rewrite length_app. reflexivity.
  - rewrite length_insert. cbn. lia.
Qed.

(** X3. The Service never removes or moves a stored document: after any
    sequence of Service calls every document is still at its place with
    the same [id] and [_id] entries, and the collection has grown by
    exactly the number of successful creates. *)
Theorem documents_persist cs w j d :
  documents w !! j = Some d →
  (∃ d', documents (perform_all cs w).2 !! j = Some d'
         ∧ d' !! "id" = d !! "id" ∧ d' !! "_id" = d !! "_id")
  ∧ length (documents (perform_all cs w).2)
    = (length (documents w) + (perform_all cs w).1.1)%nat.
Proof.
  revert w d. induction cs as [|c cs IH]; intros w d Hj.
  - cbn. split; [by exists d|lia].
  - destruct (perform_all_cons c cs w) as [-> ->].
    destruct (perform_persist c w j d Hj) as (d1 & Hj1 & Hid1 & Hoid1).
    destruct (IH _ _ Hj1) as [(d' & Hj' & Hid' & Hoid') Hlen].
    split.
    + exists d'. split; [done|]. split; congruence.
    + rewrite Hlen, perform_length. lia.
Qed.

Lemma documents_persist_witness :
  (∃ d', documents
           (perform_all [On DeleteProduct id_a; Create usb_cable;
                         On (UpdateProduct (only_price price_34_99)) id_b]
                        stocked).2 !! 0%nat = Some d'
         ∧ d' !! "id" = <["_id" := VObjectId 0]> (Product.to_dict mouse) !! "id"
         ∧ d' !! "_id"
           = <["_id" := VObjectId 0]> (Product.to_dict mouse) !! "_id")
  ∧ length (documents
              (perform_all [On DeleteProduct id_a; Create usb_cable;
                            On (UpdateProduct (only_price price_34_99)) id_b]
                           stocked).2)
    = (length (documents stocked)
       + (perform_all [On DeleteProduct id_a; Create usb_cable;
                       On (UpdateProduct (only_price price_34_99)) id_b]
                      stocked).1.1)%nat.
Proof.
  assert (Hstored : documents stocked !! 0%nat
                    = Some (<["_id" := VObjectId 0]> (Product.to_dict mouse)))
    by (apply (bool_decide_eq_true_1 _); vm_compute; reflexivity).
  exact (documents_persist
           [On DeleteProduct id_a; Create usb_cable;
            On (UpdateProduct (only_price price_34_99)) id_b]
           stocked 0 _ Hstored).
Defined.

(** ** The unique index on [id] *)

Lemma perform_distinct_ids c w :
  distinct_ids (documents w) → distinct_ids (documents (perform c w).2).
Proof.
  intros Hdistinct.
  destruct (perform_cases c w)
    as [[-> _]|[(data & p & _ & _ & Hnew & ->)
               |(op & x & i & di & p' & _ & _ & _ & Hfind & _ & Hid & ->)]].
  - done.
  - intros j1 j2 d1 d2 y H1 H2 Hy1 Hy2.
    apply lookup_app_Some in H1 as [H1|[Hle1 H1]];
      apply lookup_app_Some in H2 as [H2|[Hle2 H2]].
    + by apply (Hdistinct j1 j2 d1 d2 y).
    + apply list_lookup_singleton_Some in H2 as [_ <-].
      apply has_id_fresh in Hy2 as <-.
      destruct Hnew. apply Exists_exists. exists d1.
      split; [by eapply list_elem_of_lookup_2|done].
    + apply list_lookup_singleton_Some in H1 as [_ <-].
      apply has_id_fresh in Hy1 as <-.
      destruct Hnew. apply Exists_exists. exists d2.
      split; [by eapply list_elem_of_lookup_2|done].
    + apply list_lookup_singleton_Some in H1 as [H1 _].
      apply list_lookup_singleton_Some in H2 as [H2 _]. lia.
  - apply list_find_Some in Hfind as (Hi & Hdi & _).
    assert (Hback : ∀ j d y,
               <[i := Product.to_dict p' ∪ di]> (documents w) !! j = Some d →
               has_id y d → ∃ d0, documents w !! j = Some d0 ∧ has_id y d0).
    { intros j d y Hj Hy. destruct (decide (i = j)) as [->|Hne].
      - rewrite list_lookup_insert_eq in Hj by by eapply lookup_lt_Some.
        injection Hj as <-. exists di. split; [done|].
        apply has_id_to_dict in Hy. by rewrite <- Hy, Hid.
      - rewrite list_lookup_insert_ne in Hj by done. by exists d. }
    intros j1 j2 d1 d2 y H1 H2 Hy1 Hy2.
    destruct (Hback _ _ _ H1 Hy1) as (e1 & He1 & Hye1).
    destruct (Hback _ _ _ H2 Hy2) as (e2 & He2 & Hye2).
    by apply (Hdistinct j1 j2 e1 e2 y).
Qed.

Lemma distinct_ids_find docs j d product_id :
  distinct_ids docs → docs !! j = Some d → has_id product_id d →
  list_find (has_id product_id) docs = Some (j, d).
Proof.
  intros Hdistinct Hj Hd. apply list_find_Some. split; [done|]. split; [done|].
  intros i e Hi Hlt He.
  pose proof (Hdistinct i j e d product_id Hi Hj He Hd). lia.
Qed.

(** X4. Product ids stay unique: if no two stored documents carry the same
    product id, then after any sequence of Service calls still none do,
    and every stored document carrying an id is the one a look-up by that
    id reaches. *)
Theorem ids_stay_distinct cs w :
  distinct_ids (documents w) →
  distinct_ids (documents (perform_all cs w).2)
  ∧ ∀ j d product_id,
      documents (perform_all cs w).2 !! j = Some d → has_id product_id d →
      list_find (has_id product_id) (documents (perform_all cs w).2) = Some (j, d).
Proof.
  intros Hdistinct.
  assert (Hend : distinct_ids (documents (perform_all cs w).2)).
  { revert w Hdistinct. induction cs as [|c cs IH]; intros w Hdistinct; [done|].
    destruct (perform_all_cons c cs w) as [-> _].
    by apply IH, perform_distinct_ids. }
  split; [done|]. intros j d product_id. by apply distinct_ids_find.
Qed.

Lemma ids_stay_distinct_witness :
  distinct_ids
    (documents (perform_all [Create wireless_mouse; Create wireless_mouse;
                             On DeleteProduct id_a; Create usb_cable]
                            opening).2).
Proof.
  apply (ids_stay_distinct [Create wireless_mouse; Create wireless_mouse;
                            On DeleteProduct id_a; Create usb_cable] opening).
  intros i j d1 d2 product_id H. destruct i; vm_compute in H; discriminate H.
Defined.

(** ** A deleted product stays deleted *)

Lemma list_find_insert_other {A} (P : A → Prop) `{∀ x, Decision (P x)}
    (l : list A) i x j y :
  list_find P l = Some (i, x) → i ≠ j → ¬ P y →
  list_find P (<[j := y]> l) = Some (i, x).
Proof.
  intros Hfind Hne Hy. apply list_find_Some in Hfind as (Hi & Hx & Hbefore).
  apply list_find_Some. split; [by rewrite list_lookup_insert_ne|].
  split; [done|]. intros k z Hk Hlt.
  destruct (decide (j = k)) as [->|Hjk].
  - apply list_lookup_insert_Some in Hk as [(_ & <- & _)|[? _]]; done.
  - rewrite list_lookup_insert_ne in Hk by done. by apply (Hbefore k).
Qed.

Lemma delete_product_stores product_id w p :
  (run_alone (ProductService.delete_product product_id) w).1 = Ok p →
  stores_deleted product_id p (run_alone (ProductService.delete_product product_id) w).2.
Proof.
  intros Hok. split.
  - destruct (run_alone (ProductService.delete_product product_id) w) as [r w'] eqn:Hrun.
    cbn in Hok. subst r.
    destruct (delete_product_Ok _ _ _ _ Hrun) as [-> _]. by eexists.
  - destruct (run_operation_cases DeleteProduct product_id w)
      as [[_ [[e He]|[=]]]
         |(i & d & p0 & p' & Hfind & _ & _ & _ & Hres & Hid & Hdocs)].
    + unfold run_operation in He. cbn [service_operation] in He. congruence.
    + unfold run_operation in Hres, Hdocs. cbn [service_operation] in Hres, Hdocs.
      rewrite Hres in Hok.
      injection Hok as ->. exists i, d. rewrite Hdocs.
      apply (list_find_insert _ _ _ _ _ Hfind). rewrite <- Hid.
      apply has_id_stored.
Qed.

Lemma perform_stores_deleted product_id p c w :
  stores_deleted product_id p w → stores_deleted product_id p (perform c w).2.
Proof.
  intros [Hdel (i & d & Hfind)]. split; [done|]. exists i, d.
  destruct (perform_cases c w)
    as [[-> _]|[(data & q & _ & _ & _ & ->)
               |(op & x & j & dj & q' & _ & _ & _ & Hfindx & Hactive & Hid & ->)]].
  - done.
  - by apply list_find_app_l.
  - destruct (decide (i = j)) as [->|Hne].
    + destruct (decide (x = product_id)) as [->|Hx].
      * rewrite Hfind in Hfindx. injection Hfindx as <-.
        destruct Hactive. by apply stored_marked_deleted.
      * apply list_find_Some in Hfind as (Hi & Hd & _).
        apply list_find_Some in Hfindx as (Hj & Hdj & _).
        rewrite Hi in Hj. injection Hj as <-.
        destruct Hx. by apply (has_id_unique product_id x _ Hd Hdj).
    + apply list_find_insert_other; [done|done|].
      rewrite has_id_to_dict, Hid. intros ->.
      rewrite Hfind in Hfindx. by injection Hfindx.
Qed.

Lemma perform_all_stores_deleted product_id p cs :
  ∀ w, stores_deleted product_id p w →
       stores_deleted product_id p (perform_all cs w).2.
Proof.
  induction cs as [|c cs IH]; intros w Hw; [done|].
  destruct (perform_all_cons c cs w) as [-> _].
  by apply IH, perform_stores_deleted.
Qed.

Lemma stores_deleted_run product_id p op w :
  stores_deleted product_id p w →
  (ProductRepository.find_by_id product_id w
   = match outages w (calls w) with
     | Some message =>
         (Raise (DatabaseException ("Failed to find product: " +:+ message)),
          called w)
     | None => (Ok (Some p), called w)
     end)
  ∧ run_operation op product_id w
    = match outages w (calls w) with
      | Some message =>
          (Raise (DatabaseException ("Failed to find product: " +:+ message)),
           called w)
      | None =>
          (Raise (ProductAlreadyDeletedException (uuid_str product_id)),
           called w)
      end.
Proof.
  intros [Hdel (i & d & Hfind)].
  assert (Hrepo : ProductRepository.find_by_id product_id w
                  = match outages w (calls w) with
                    | Some message =>
                        (Raise (DatabaseException
                                  ("Failed to find product: " +:+ message)),
                         called w)
                    | None => (Ok (Some p), called w)
                    end).
  { rewrite find_by_id_run, Hfind, read_stored. reflexivity. }
  split; [done|].
  rewrite run_operation_run, Hrepo.
  destruct (outages w (calls w)); [done|].
  apply is_deleted_Some in Hdel. by rewrite Hdel.
Qed.

(** *** Calls interleaved by the event loop *)

Lemma keeps_discard (I : World → Prop) {A} (c : coroutine A) :
  keeps I c → keeps I (discard c).
Proof.
  induction c as [m|X m k IH]; cbn [discard keeps].
  - intros H w Hw. rewrite discard_world. by apply H.
  - intros H w Hw. destruct (H w Hw) as [H1 H2]. split; [done|].
    intros x Hx. by apply IH, H2.
Qed.

Lemma advance_keeps (I : World → Prop) {A} (c : coroutine A) w :
  I w → keeps I c → I (advance c w).2 ∧ task_keeps I (advance c w).1.
Proof.
  intros Hw H. destruct c as [m|X m k]; cbn [advance keeps] in *.
  - specialize (H w Hw). by destruct (m w) as [r w'].
  - destruct (H w Hw) as [H1 H2].
    destruct (m w) as [[x|e] w']; cbn [fst snd task_keeps] in *; [|done].
    split; [done|]. by apply H2.
Qed.

Lemma schedule_keeps (I : World → Prop) {A} turns :
  ∀ (tasks : list (task A)) w,
    I w → Forall (task_keeps I) tasks → I (schedule turns tasks w).2.
Proof.
  induction turns as [|i turns IH]; intros tasks w Hw Htasks; [done|].
  cbn [schedule]. destruct (tasks !! i) as [[c|r]|] eqn:Hi; try by apply IH.
  pose proof (Forall_lookup_1 _ _ _ _ Htasks Hi) as Hc.
  destruct (advance_keeps I c w Hw Hc) as [Hw' Ht].
  destruct (advance c w) as [t w']. apply IH; [done|].
  by apply Forall_insert.
Qed.

Lemma stores_deleted_same product_id p w w' :
  documents w' = documents w →
  stores_deleted product_id p w → stores_deleted product_id p w'.
Proof. unfold stores_deleted. by intros ->. Qed.

Lemma update_keeps_deleted product_id p q w :
  Product.id q ≠ product_id →
  stores_deleted product_id p w →
  stores_deleted product_id p (ProductRepository.update q w).2.
Proof.
  intros Hq Hw. rewrite update_run.
  destruct (outages w (calls w)); [by apply (stores_deleted_same _ _ w)|].
  destruct Hw as [Hdel (i & d & Hfind)]. split; [done|]. exists i, d.
  cbn [snd documents set_documents]. rewrite set_first_find.
  change (documents (called w)) with (documents w).
  destruct (list_find (has_id (Product.id q)) (documents w)) as [[j dj]|]
    eqn:Hfindq; [|done].
  apply list_find_insert_other; [done| |].
  - intros ->. apply list_find_Some in Hfind as (Hj & Hd & _).
    apply list_find_Some in Hfindq as (Hj' & Hdj & _).
    rewrite Hj in Hj'. injection Hj' as <-.
    by apply Hq, (has_id_unique product_id (Product.id q) _ Hd Hdj).
  - by rewrite has_id_to_dict.
Qed.

Lemma keeps_create product_id p data :
  keeps (stores_deleted product_id p) (ProductService.create_product data).
Proof.
  unfold ProductService.create_product. cbn [keeps]. intros w Hw.
  rewrite init_run. cbn [fst snd]. split; [by apply (stores_deleted_same _ _ w)|].
  intros q _. cbn [keeps]. intros w2 Hw2. rewrite create_run.
  destruct (outages w2 (calls w2)); [by apply (stores_deleted_same _ _ w2)|].
  destruct (bool_decide _); [by apply (stores_deleted_same _ _ w2)|].
  destruct Hw2 as [Hdel (i & d & Hfind)]. split; [done|]. exists i, d.
  by apply list_find_app_l.
Qed.

Lemma keeps_get_all product_id p :
  keeps (stores_deleted product_id p) ProductService.get_all_products.
Proof.
  unfold ProductService.get_all_products. cbn [keeps]. intros w Hw. split.
  - apply (stores_deleted_same _ _ w); [|done]. rewrite find_all_active_run.
    destruct (outages w (calls w)); [done|]. by destruct (read_all _).
  - intros ps _. cbn [keeps]. by intros w2 Hw2.
Qed.

Lemma keeps_operation product_id p op x :
  keeps (stores_deleted product_id p) (service_operation op x).
Proof.
  assert (Hfound : ∀ w q,
            stores_deleted product_id p w →
            (ProductRepository.find_by_id x w).1 = Ok (Some q) →
            Product.is_deleted q = false → Product.id q ≠ product_id).
  { intros w q [Hdel (i & d & Hfind)] Hq Hactive Hid.
    destruct (find_by_id_Some x w q Hq) as (_ & Hx & j & dj & Hfindq & Hread).
    rewrite Hx in Hid. subst x. rewrite Hfind in Hfindq.
    injection Hfindq as <- <-. rewrite read_stored in Hread.
    injection Hread as <-. apply is_deleted_Some in Hdel. congruence. }
  assert (Hlookup : ∀ w,
            stores_deleted product_id p w →
            stores_deleted product_id p (ProductRepository.find_by_id x w).2).
  { intros w Hw. rewrite find_by_id_world.
    by apply (stores_deleted_same _ _ w). }
  destruct op as [|data|]; cbn [service_operation];
    unfold ProductService.get_product_by_id, ProductService.update_product,
      ProductService.delete_product;
    cbn [keeps]; intros w Hw; (split; [by apply Hlookup|]);
    intros [q|] Hq; cbn [keeps].
  - intros w2 Hw2. by destruct (Product.is_deleted q).
  - by intros w2 Hw2.
  - destruct (Product.is_deleted q) eqn:Hactive; cbn [keeps];
      [by intros w2 Hw2|].
    pose proof (Hfound w q Hw Hq Hactive) as Hid.
    intros w2 Hw2. rewrite model_update_run. cbn [fst snd].
    split; [by apply (stores_deleted_same _ _ w2)|].
    intros q' [= <-]. cbn [keeps]. intros w3 Hw3.
    by apply update_keeps_deleted.
  - by intros w2 Hw2.
  - destruct (Product.is_deleted q) eqn:Hactive; cbn [keeps];
      [by intros w2 Hw2|].
    pose proof (Hfound w q Hw Hq Hactive) as Hid.
    intros w2 Hw2. rewrite soft_delete_run. cbn [fst snd].
    split; [by apply (stores_deleted_same _ _ w2)|].
    intros q' [= <-]. cbn [keeps]. intros w3 Hw3.
    by apply update_keeps_deleted.
  - by intros w2 Hw2.
Qed.

Lemma start_keeps product_id p c :
  task_keeps (stores_deleted product_id p) (start c).
Proof.
  destruct c as [data| |op x]; cbn [start task_keeps]; apply keeps_discard.
  - apply keeps_create.
  - apply keeps_get_all.
  - apply keeps_operation.
Qed.

Lemma schedule_stores_deleted product_id p cs turns w :
  stores_deleted product_id p w →
  stores_deleted product_id p (schedule turns (start <$> cs) w).2.
Proof.
  intros Hw. apply schedule_keeps; [done|].
  apply Forall_fmap, Forall_forall. intros c _. apply start_keeps.
Qed.

(** X5. Soft delete is final for what comes after it: once delete_product,
    run from its look-up to its write with no other task in between, has
    succeeded for an id, then after any Service calls started afterwards,
    run one after another or interleaved block by block in any order, the
    repository still holds the record exactly as the delete returned it,
    and get, update and delete of that id raise
    ProductAlreadyDeletedException with the id (or DatabaseException when
    the driver fails), never succeed, have nothing left to do after their
    look-up but raise, and write nothing. *)
Theorem delete_is_final product_id w p cs turns op w' :
  (run_alone (ProductService.delete_product product_id) w).1 = Ok p →
  let w1 := (run_alone (ProductService.delete_product product_id) w).2 in
  w' = (perform_all cs w1).2 ∨ w' = (schedule turns (start <$> cs) w1).2 →
  is_Some (Product.deleted_at p)
  ∧ (outages w' (calls w') = None →
     (ProductRepository.find_by_id product_id w').1 = Ok (Some p)
     ∧ (run_operation op product_id w').1
       = Raise (ProductAlreadyDeletedException (uuid_str product_id))
     ∧ advance (service_operation op product_id) w'
       = (raising (ProductAlreadyDeletedException (uuid_str product_id)),
          called w'))
  ∧ (∀ q, (run_operation op product_id w').1 ≠ Ok q)
  ∧ documents (run_operation op product_id w').2 = documents w'.
Proof.
  intros Hok w1 Hafter.
  assert (Hw1 : stores_deleted product_id p w1)
    by by apply delete_product_stores.
  assert (Hw' : stores_deleted product_id p w').
  { destruct Hafter as [->| ->].
    - by apply perform_all_stores_deleted.
    - by apply schedule_stores_deleted. }
  destruct (stores_deleted_run product_id p op w' Hw') as [Hrepo Hrun].
  split; [by destruct Hw'|].
  rewrite advance_service_operation, Hrepo, Hrun.
  destruct (outages w' (calls w')); [by repeat split|].
  destruct Hw' as [Hdel _]. apply is_deleted_Some in Hdel. rewrite Hdel.
  by repeat split.
Qed.

Lemma delete_is_final_witness :
  let w' := (schedule [1; 0; 2; 1; 0; 1; 2; 2]%nat
               (start <$> [Create usb_cable;
                           On (UpdateProduct (only_price price_34_99)) id_a;
                           On GetProductById id_a])
               (run_alone (ProductService.delete_product id_a) stocked).2).2 in
  (ProductRepository.find_by_id id_a w').1
  = Ok (Some (Product.mk id_a "Wireless Mouse"
                (Some "Ergonomic wireless mouse with USB receiver")
                "Electronics" price_29_99 150 (at_second 0 I) (at_second 5 I)
                (Some (at_second 4 I))))
  ∧ (run_operation (UpdateProduct (only_price price_34_99)) id_a w').1
    = Raise (ProductAlreadyDeletedException (uuid_str id_a))
  ∧ advance (service_operation (UpdateProduct (only_price price_34_99)) id_a) w'
    = (raising (ProductAlreadyDeletedException (uuid_str id_a)), called w').
Proof.
  intros w'.
  exact (proj1 (proj2
    (delete_is_final id_a stocked
       (Product.mk id_a "Wireless Mouse"
          (Some "Ergonomic wireless mouse with USB receiver")
          "Electronics" price_29_99 150 (at_second 0 I) (at_second 5 I)
          (Some (at_second 4 I)))
       [Create usb_cable; On (UpdateProduct (only_price price_34_99)) id_a;
        On GetProductById id_a]
       [1; 0; 2; 1; 0; 1; 2; 2]%nat
       (UpdateProduct (only_price price_34_99)) w'
       ltac:(vm_compute; reflexivity) (or_intror eq_refl)))
    ltac:(vm_compute; reflexivity)).
Defined.

(** ** The repository operations the Service does not call *)

Lemma remove_first_find product_id docs :
  remove_first {["id" := VStr (uuid_str product_id)]} docs
  = match list_find (has_id product_id) docs with
    | Some (i, d) => (delete i docs, 1)
    | None => (docs, 0)
    end.
Proof.
  induction docs as [|d rest IH]; [done|].
  cbn [remove_first list_find]. rewrite matches_id_bool.
  destruct (decide (has_id product_id d)) as [Hd|Hd].
  - by rewrite bool_decide_eq_true_2.
  - rewrite bool_decide_eq_false_2 by done. rewrite IH.
    by destruct (list_find (has_id product_id) rest) as [[i e]|].
Qed.

Lemma delete_run product_id w :
  ProductRepository.delete product_id w
  = match outages w (calls w) with
    | Some message =>
        (Raise (DatabaseException ("Failed to delete product: " +:+ message)),
         called w)
    | None =>
        match list_find (has_id product_id) (documents w) with
        | Some (i, d) =>
            (Ok true, set_documents (delete i (documents w)) (called w))
        | None => (Ok false, set_documents (documents w) (called w))
        end
    end.
Proof.
  unfold ProductRepository.delete, try_except, delete_one, driver_call,
    get_documents, put_documents, mbind, M_bind, mret, M_ret, called.
  destruct (outages w (calls w)) as [message|]; [done|].
  cbn [documents set_calls]. rewrite remove_first_find.
  by destruct (list_find (has_id product_id) (documents w)) as [[i d]|].
Qed.

Lemma filter_matches_id product_id (docs : list document) :
  filter (λ d, Is_true (matches {["id" := VStr (uuid_str product_id)]} d)) docs
  = filter (has_id product_id) docs.
Proof.
  apply list_filter_iff. intros d. apply matches_id.
Qed.

Lemma positive_length_filter {A} (P : A → Prop) `{∀ x, Decision (P x)} (l : list A) :
  (0 <? Z.of_nat (length (filter P l))) = bool_decide (Exists P l).
Proof.
  induction l as [|x l IH]; [done|].
  rewrite filter_cons. destruct (decide (P x)) as [Hx|Hx].
  - rewrite bool_decide_eq_true_2 by by left.
    cbn [length]. apply Z.ltb_lt. lia.
  - rewrite IH. apply bool_decide_ext. rewrite Exists_cons. tauto.
Qed.

Lemma exists_run product_id w :
  ProductRepository.exists_ product_id w
  = match outages w (calls w) with
    | Some message =>
        (Raise (DatabaseException
                  ("Failed to check product existence: " +:+ message)),
         called w)
    | None =>
        (Ok (bool_decide (Exists (has_id product_id) (documents w))), called w)
    end.
Proof.
  unfold ProductRepository.exists_, try_except, count_documents, driver_call,
    get_documents, mbind, M_bind, mret, M_ret, called.
  destruct (outages w (calls w)) as [message|]; [done|].
  cbn [documents set_calls].
  by rewrite filter_matches_id, positive_length_filter.
Qed.

Lemma list_find_None_Exists {A} (P : A → Prop) `{∀ x, Decision (P x)} (l : list A) :
  list_find P l = None ↔ ¬ Exists P l.
Proof.
  rewrite list_find_None, <- Forall_Exists_neg. done.
Qed.

Lemma filter_delete {A} (P : A → Prop) `{∀ x, Decision (P x)} (l : list A) i x :
  l !! i = Some x → ¬ P x → filter P (delete i l) = filter P l.
Proof.
  intros Hi Hx. rewrite <- (take_drop_middle l i x Hi) at 2.
  rewrite delete_take_drop, !filter_app, filter_cons_False by done. done.
Qed.

Lemma delete_distinct docs i d product_id :
  distinct_ids docs → docs !! i = Some d → has_id product_id d →
  ¬ Exists (has_id product_id) (delete i docs).
Proof.
  intros Hdistinct Hi Hd. rewrite Exists_exists.
  intros (e & [j Hj]%list_elem_of_lookup_1 & He).
  destruct (decide (j < i)%nat) as [Hlt|Hge].
  - rewrite list_lookup_delete_lt in Hj by done.
    pose proof (Hdistinct j i e d product_id Hj Hi He Hd). lia.
  - rewrite list_lookup_delete_ge in Hj by lia.
    pose proof (Hdistinct (S j) i e d product_id Hj Hi He Hd). lia.
Qed.

Lemma run_operation_unknown op product_id w :
  ¬ Exists (has_id product_id) (documents w) →
  run_operation op product_id w
  = match outages w (calls w) with
    | Some message =>
        (Raise (DatabaseException ("Failed to find product: " +:+ message)),
         called w)
    | None => (Raise (ProductNotFoundException (uuid_str product_id)), called w)
    end.
Proof.
  intros Hnone. apply (proj2 (list_find_None_Exists _ _)) in Hnone.
  rewrite run_operation_run, find_by_id_run, Hnone.
  by destruct (outages w (calls w)).
Qed.

(** X6. Hard delete, with the driver answering: ProductRepository.delete
    returns whether a document with the id was stored; it removes the
    first such document and nothing else, so every document of another
    product stays, in order. With unique ids no document carries the id
    afterwards, and the Service then answers every operation on it with
    ProductNotFoundException, not ProductAlreadyDeletedException. *)
Theorem hard_delete_removes_first product_id w :
  outages w (calls w) = None →
  let out := ProductRepository.delete product_id w in
  out.1 = Ok (bool_decide (Exists (has_id product_id) (documents w)))
  ∧ filter (λ d, ¬ has_id product_id d) (documents out.2)
    = filter (λ d, ¬ has_id product_id d) (documents w)
  ∧ (length (documents out.2)
     + (if decide (Exists (has_id product_id) (documents w)) then 1 else 0)
     = length (documents w))%nat
  ∧ (distinct_ids (documents w) →
     ¬ Exists (has_id product_id) (documents out.2)
     ∧ ∀ op, outages out.2 (calls out.2) = None →
         (run_operation op product_id out.2).1
         = Raise (ProductNotFoundException (uuid_str product_id))).
Proof.
  intros Hup out. subst out. rewrite delete_run, Hup.
  destruct (list_find (has_id product_id) (documents w)) as [[i d]|] eqn:Hfind.
  - apply list_find_Some in Hfind as (Hi & Hd & _).
    assert (Hex : Exists (has_id product_id) (documents w)).
    { apply Exists_exists. exists d. split; [by eapply list_elem_of_lookup_2|done]. }
    cbn [fst snd documents set_documents called set_calls].
    rewrite bool_decide_eq_true_2 by done.
    destruct (decide (Exists (has_id product_id) (documents w))); [|done].
    split; [done|]. split; [apply (filter_delete _ _ _ _ Hi); tauto|].
    split.
    + rewrite length_delete by by eexists.
      apply lookup_lt_Some in Hi. lia.
    + intros Hdistinct.
      pose proof (delete_distinct _ _ _ _ Hdistinct Hi Hd) as Hgone.
      split; [done|]. intros op Hup'.
      rewrite run_operation_unknown by done.
      cbn [outages calls set_documents called set_calls] in Hup' |- *.
      by rewrite Hup'.
  - pose proof (proj1 (list_find_None_Exists _ _) Hfind) as Hnone.
    cbn [fst snd documents set_documents called set_calls].
    rewrite bool_decide_eq_false_2 by done.
    destruct (decide (Exists (has_id product_id) (documents w))); [done|].
    split; [done|]. split; [done|]. split; [lia|].
    intros _. split; [done|]. intros op Hup'.
    rewrite run_operation_unknown by done.
    cbn [outages calls set_documents called set_calls] in Hup' |- *.
    by rewrite Hup'.
Qed.

Lemma hard_delete_removes_first_witness :
  let out := ProductRepository.delete id_b shop in
  out.1 = Ok (bool_decide (Exists (has_id id_b) (documents shop)))
  ∧ filter (λ d, ¬ has_id id_b d) (documents out.2)
    = filter (λ d, ¬ has_id id_b d) (documents shop)
  ∧ (length (documents out.2)
     + (if decide (Exists (has_id id_b) (documents shop)) then 1 else 0)
     = length (documents shop))%nat
  ∧ (distinct_ids (documents shop) →
     ¬ Exists (has_id id_b) (documents out.2)
     ∧ ∀ op, outages out.2 (calls out.2) = None →
         (run_operation op id_b out.2).1
         = Raise (ProductNotFoundException (uuid_str id_b))).
Proof.
  exact (hard_delete_removes_first id_b shop ltac:(vm_compute; reflexivity)).
Defined.

(** X7. ProductRepository.exists does not look at deletedAt: with the
    driver answering it returns whether any stored document carries the
    id and writes nothing, so it is false exactly when find_by_id returns
    None and true for every record find_by_id returns, soft-deleted or
    not. *)
Theorem exists_ignores_soft_delete product_id w :
  outages w (calls w) = None →
  ProductRepository.exists_ product_id w
  = (Ok (bool_decide (Exists (has_id product_id) (documents w))), called w)
  ∧ ((ProductRepository.exists_ product_id w).1 = Ok false
     ↔ (ProductRepository.find_by_id product_id w).1 = Ok None)
  ∧ (∀ p, (ProductRepository.find_by_id product_id w).1 = Ok (Some p) →
          (ProductRepository.exists_ product_id w).1 = Ok true)
  ∧ (∀ p, stores_deleted product_id p w →
          (ProductRepository.find_by_id product_id w).1 = Ok (Some p)
          ∧ Product.is_deleted p = true
          ∧ (ProductRepository.exists_ product_id w).1 = Ok true).
Proof.
  intros Hup. rewrite exists_run, find_by_id_run, Hup.
  split; [done|]. cbn [fst].
  destruct (list_find (has_id product_id) (documents w)) as [[i d]|] eqn:Hfind.
  - pose proof Hfind as (Hi & Hd & _)%list_find_Some.
    assert (Hex : Exists (has_id product_id) (documents w)).
    { apply Exists_exists. exists d. split; [by eapply list_elem_of_lookup_2|done]. }
    rewrite bool_decide_eq_true_2 by done.
    split; [|split; [done|]].
    + split; [done|]. by destruct (read (delete "_id" d)).
    + intros p [Hdel (i' & d' & Hfind')].
      rewrite Hfind in Hfind'. injection Hfind' as -> ->.
      rewrite read_stored. by apply is_deleted_Some in Hdel.
  - pose proof (proj1 (list_find_None_Exists _ _) Hfind) as Hnone.
    rewrite bool_decide_eq_false_2 by done.
    split; [done|]. split; [done|].
    intros p [_ (i' & d' & Hfind')]. congruence.
Qed.

Lemma exists_ignores_soft_delete_witness :
  (ProductRepository.find_by_id id_b shop).1 = Ok (Some cable)
  ∧ Product.is_deleted cable = true
  ∧ (ProductRepository.exists_ id_b shop).1 = Ok true.
Proof.
  apply (exists_ignores_soft_delete id_b shop ltac:(vm_compute; reflexivity)).
  split; [by eexists|].
  exists 1%nat, (<["_id" := VObjectId 1]> ∅).
  apply (bool_decide_eq_true_1 _). vm_compute. reflexivity.
Defined.

(** ** Listing with and without the soft-deleted products *)

Lemma filter_matches_all (docs : list document) :
  filter (λ d, Is_true (matches ∅ d)) docs = docs.
Proof.
  apply filter_all, Forall_forall. intros d _.
  unfold matches. rewrite bool_decide_eq_true_2; [done|].
  apply map_Forall_empty.
Qed.

Lemma find_all_deleted_run w :
  ProductRepository.find_all true w
  = match outages w (calls w) with
    | Some message =>
        (Raise (DatabaseException ("Failed to find products: " +:+ message)),
         called w)
    | None =>
        match read_all (documents w) with
        | Ok ps => (Ok ps, called w)
        | Raise e =>
            (Raise (DatabaseException ("Failed to find products: " +:+ str e)),
             called w)
        end
    end.
Proof.
  rewrite find_all_run. by rewrite filter_matches_all.
Qed.

Lemma read_all_filter_active docs ps :
  read_all docs = Ok ps →
  read_all (filter (λ d, ¬ marked_deleted d) docs)
  = Ok (filter (λ p, Product.deleted_at p = None) ps).
Proof.
  revert ps. induction docs as [|d docs IH]; intros ps Hps.
  - injection Hps as <-. done.
  - cbn [read_all] in Hps.
    destruct (read (delete "_id" d)) as [p|e] eqn:Hd; [|done].
    destruct (read_all docs) as [qs|e]; [|done].
    injection Hps as <-. specialize (IH qs eq_refl).
    pose proof (read_active d p Hd) as Hactive.
    rewrite !filter_cons.
    destruct (decide (¬ marked_deleted d)) as [Hyes|Hno].
    + destruct (decide (Product.deleted_at p = None)) as [_|Hp]; [|tauto].
      cbn [read_all]. by rewrite Hd, IH.
    + destruct (decide (Product.deleted_at p = None)) as [Hp|_]; [tauto|].
      exact IH.
Qed.

(** X8. find_all(include_deleted=True) reads every stored document, and
    whenever it succeeds find_all() succeeds too and returns exactly the
    products of that list whose deleted_at is None, in the same order;
    neither call writes. *)
Theorem find_all_include_deleted w ps :
  (ProductRepository.find_all true w).1 = Ok ps →
  length ps = length (documents w)
  ∧ Forall2 (λ d p, read (delete "_id" d) = Ok p) (documents w) ps
  ∧ (ProductRepository.find_all false w).1
    = Ok (filter (λ p, Product.deleted_at p = None) ps)
  ∧ documents (ProductRepository.find_all true w).2 = documents w
  ∧ documents (ProductRepository.find_all false w).2 = documents w.
Proof.
  rewrite find_all_deleted_run, find_all_active_run.
  destruct (outages w (calls w)) as [message|]; [done|].
  destruct (read_all (documents w)) as [qs|e] eqn:Hall; [|done].
  intros [= ->]. rewrite (read_all_filter_active _ _ Hall).
  destruct (read_all_Ok _ _ Hall) as [Hlen Hread]. done.
Qed.

Lemma find_all_include_deleted_witness :
  length [mouse; cable] = length (documents shop)
  ∧ Forall2 (λ d p, read (delete "_id" d) = Ok p) (documents shop) [mouse; cable]
  ∧ (ProductRepository.find_all false shop).1
    = Ok (filter (λ p, Product.deleted_at p = None) [mouse; cable])
  ∧ documents (ProductRepository.find_all true shop).2 = documents shop
  ∧ documents (ProductRepository.find_all false shop).2 = documents shop.
Proof.
  exact (find_all_include_deleted shop [mouse; cable]
           ltac:(vm_compute; reflexivity)).
Defined.

(** ** The domain model *)

Lemma getitem_Ok (data : document) key v w w' :
  getitem data key w = (Ok v, w') → data !! key = Some v ∧ w' = w.
Proof.
  unfold getitem. destruct (data !! key) as [x|]; [|done].
  by intros [<- <-]%ret_Ok.
Qed.

Lemma getitem_as_str_Ok (data : document) key s w w' :
  (getitem data key ≫= as_str) w = (Ok s, w') → data !! key = Some (VStr s).
Proof.
  intros H. inv_bind H as v Hv. apply getitem_Ok in Hv as [-> _].
  destruct v; try done. by apply ret_Ok in H as [<- _].
Qed.

Lemma read_fields data p :
  read data = Ok p →
  data !! "name" = Some (VStr (Product.name p))
  ∧ dict_get data "description" = optional_str_value (Product.description p)
  ∧ data !! "category" = Some (VStr (Product.category p))
  ∧ data !! "price" = Some (VFloat (Product.price p))
  ∧ data !! "stock" = Some (VInt (Product.stock p))
  ∧ is_Some (data !! "id") ∧ is_Some (data !! "createdAt")
  ∧ is_Some (data !! "updatedAt").
Proof.
  unfold read. destruct (Product.from_dict data blank) as [r w'] eqn:H.
  cbn [fst]. intros ->. unfold Product.from_dict in H.
  inv_bind H as v Hv. inv_bind H as id Hid. inv_bind H as name Hname.
  inv_bind H as description Hdescription. inv_bind H as category Hcategory.
  inv_bind H as price Hprice. inv_bind H as stock Hstock.
  inv_bind H as vc Hvc. inv_bind H as created Hcreated.
  inv_bind H as vu Hvu. inv_bind H as updated Hupdated.
  inv_bind H as deleted Hdeleted.
  unfold Product.init in H.
  inv_bind H as id' Hid'. inv_bind H as created' Hcreated'.
  inv_bind H as updated' Hupdated'.
  apply ret_Ok in H as [<- _].
  cbn [Product.name Product.description Product.category Product.price
       Product.stock].
  apply getitem_Ok in Hv as [Hv _]. apply getitem_Ok in Hvc as [Hvc _].
  apply getitem_Ok in Hvu as [Hvu _].
  apply getitem_as_str_Ok in Hname. apply getitem_as_str_Ok in Hcategory.
  split; [done|]. split.
  { destruct (dict_get data "description"); try done;
      by apply ret_Ok in Hdescription as [<- _]. }
  split; [done|]. split.
  { inv_bind Hprice as x Hx. apply getitem_Ok in Hx as [-> _].
    destruct x; try done. by apply ret_Ok in Hprice as [<- _]. }
  split.
  { inv_bind Hstock as x Hx. apply getitem_Ok in Hx as [-> _].
    destruct x; try done. by apply ret_Ok in Hstock as [<- _]. }
  rewrite Hv, Hvc, Hvu. by repeat split.
Qed.

Lemma required_keys_present (data : document) :
  is_Some (data !! "id") → is_Some (data !! "name") →
  is_Some (data !! "category") → is_Some (data !! "price") →
  is_Some (data !! "stock") → is_Some (data !! "createdAt") →
  is_Some (data !! "updatedAt") →
  ¬ lacks_required_key data.
Proof.
  intros H1 H2 H3 H4 H5 H6 H7 Hlacks. unfold lacks_required_key, required_keys in Hlacks.
  repeat (apply Exists_cons in Hlacks as [Hk|Hlacks];
          [rewrite Hk in *; by match goal with H : is_Some None |- _ =>
                                 destruct H end|]).
  by apply Exists_nil in Hlacks.
Qed.

Lemma read_needs_keys data p : read data = Ok p → ¬ lacks_required_key data.
Proof.
  intros (Hname & _ & Hcategory & Hprice & Hstock & Hid & Hc & Hu)%read_fields.
  apply required_keys_present; try done; by eexists.
Qed.

Lemma read_sources data p :
  read data = Ok p →
  (data !! "id" = Some (VUuid (Product.id p))
   ∨ ∃ s, data !! "id" = Some (VStr s) ∧ uuid_parse s = Some (Product.id p))
  ∧ (data !! "createdAt" = Some (VDatetime (Product.created_at p))
     ∨ ∃ s, data !! "createdAt" = Some (VStr s)
            ∧ fromisoformat s = Some (Product.created_at p))
  ∧ (data !! "updatedAt" = Some (VDatetime (Product.updated_at p))
     ∨ ∃ s, data !! "updatedAt" = Some (VStr s)
            ∧ fromisoformat s = Some (Product.updated_at p)).
Proof.
  unfold read. destruct (Product.from_dict data blank) as [r w'] eqn:H.
  cbn [fst]. intros ->. unfold Product.from_dict in H.
  inv_bind H as v Hv. inv_bind H as id Hid. inv_bind H as name Hname.
  inv_bind H as description Hdescription. inv_bind H as category Hcategory.
  inv_bind H as price Hprice. inv_bind H as stock Hstock.
  inv_bind H as vc Hvc. inv_bind H as created Hcreated.
  inv_bind H as vu Hvu. inv_bind H as updated Hupdated.
  inv_bind H as deleted Hdeleted.
  unfold Product.init in H.
  inv_bind H as id' Hid'. inv_bind H as created' Hcreated'.
  inv_bind H as updated' Hupdated'.
  apply ret_Ok in H as [<- _].
  apply ret_Ok in Hid' as [<- _]. apply ret_Ok in Hcreated' as [<- _].
  apply ret_Ok in Hupdated' as [<- _].
  cbn [Product.id Product.created_at Product.updated_at].
  apply getitem_Ok in Hv as [-> _]. apply getitem_Ok in Hvc as [-> _].
  apply getitem_Ok in Hvu as [-> _].
  split; [|split].
  - destruct v; cbn [is_str] in Hid; try done.
    + inv_bind Hid as s' Hs. apply ret_Ok in Hs as [<- _].
      unfold UUID_of_str in Hid. destruct (uuid_parse s) eqn:Hparse; [|done].
      apply ret_Ok in Hid as [<- _]. right. by exists s.
    + apply ret_Ok in Hid as [<- _]. by left.
  - destruct vc; cbn [is_str] in Hcreated; try done.
    + inv_bind Hcreated as s' Hs. apply ret_Ok in Hs as [<- _].
      unfold datetime_fromisoformat in Hcreated.
      destruct (fromisoformat s) eqn:Hparse; [|done].
      apply ret_Ok in Hcreated as [<- _]. right. by exists s.
    + apply ret_Ok in Hcreated as [<- _]. by left.
  - destruct vu; cbn [is_str] in Hupdated; try done.
    + inv_bind Hupdated as s' Hs. apply ret_Ok in Hs as [<- _].
      unfold datetime_fromisoformat in Hupdated.
      destruct (fromisoformat s) eqn:Hparse; [|done].
      apply ret_Ok in Hupdated as [<- _]. right. by exists s.
    + apply ret_Ok in Hupdated as [<- _]. by left.
Qed.

(** X9. When from_dict returns a product whose fields have the types of
    their annotations, from a document whose id and timestamps are typed
    or strings in the formats to_dict writes, the world is as before and
    the document has all seven keys it reads with data[key] (description
    and deletedAt may be missing);
    the id and the two timestamps are the document's own, typed or parsed
    from its strings, so that no id was drawn and the clock was not read;
    name, description, category, price and stock are the document's
    entries; and the product is active exactly when deletedAt is missing
    or None. A document without [id] raises KeyError for 'id' before
    anything else happens. *)
Theorem from_dict_reads_entries data w :
  (∀ p, (Product.from_dict data w).1 = Ok p →
       (Product.from_dict data w).2 = w
       ∧ ¬ lacks_required_key data
       ∧ (data !! "id" = Some (VUuid (Product.id p))
          ∨ ∃ s, data !! "id" = Some (VStr s)
                 ∧ uuid_parse s = Some (Product.id p))
       ∧ (data !! "createdAt" = Some (VDatetime (Product.created_at p))
          ∨ ∃ s, data !! "createdAt" = Some (VStr s)
                 ∧ fromisoformat s = Some (Product.created_at p))
       ∧ (data !! "updatedAt" = Some (VDatetime (Product.updated_at p))
          ∨ ∃ s, data !! "updatedAt" = Some (VStr s)
                 ∧ fromisoformat s = Some (Product.updated_at p))
       ∧ data !! "name" = Some (VStr (Product.name p))
       ∧ dict_get data "description" = optional_str_value (Product.description p)
       ∧ data !! "category" = Some (VStr (Product.category p))
       ∧ data !! "price" = Some (VFloat (Product.price p))
       ∧ data !! "stock" = Some (VInt (Product.stock p))
       ∧ (Product.is_deleted p = false ↔ dict_get data "deletedAt" = VNone))
  ∧ (data !! "id" = None →
     Product.from_dict data w = (Raise (KeyError "id"), w)).
Proof.
  rewrite from_dict_read. cbn [fst snd]. split.
  - intros p Hp. split; [done|]. split; [by eapply read_needs_keys|].
    destruct (read_sources _ _ Hp) as (? & ? & ?).
    destruct (read_fields _ _ Hp) as (? & ? & ? & ? & ? & _).
    destruct (read_Ok _ _ Hp) as [_ Hdel].
    rewrite is_deleted_false. done.
  - intros Hid. unfold read, Product.from_dict, getitem. rewrite Hid. done.
Qed.

Lemma from_dict_reads_entries_witness :
  (Product.from_dict (Product.to_dict mouse) blank).1 = Ok mouse
  ∧ (Product.from_dict (Product.to_dict mouse) blank).2 = blank
  ∧ ¬ lacks_required_key (Product.to_dict mouse)
  ∧ Product.to_dict mouse !! "name" = Some (VStr (Product.name mouse)).
Proof.
  assert (H : (Product.from_dict (Product.to_dict mouse) blank).1 = Ok mouse)
    by (vm_compute; reflexivity).
  destruct (proj1 (from_dict_reads_entries (Product.to_dict mouse) blank)
                  mouse H) as (Hw & Hkeys & _ & _ & _ & Hname & _).
  exact (conj H (conj Hw (conj Hkeys Hname))).
Defined.

(** X10. to_dict writes exactly the nine keys of the product document,
    never [_id], and different products never have the same document. *)
Theorem to_dict_injective p q :
  dom (Product.to_dict p)
  = ({["id"; "name"; "description"; "category"; "price"; "stock";
       "createdAt"; "updatedAt"; "deletedAt"]} : gset string)
  ∧ (Product.to_dict p = Product.to_dict q → p = q).
Proof.
  split.
  - unfold Product.to_dict. rewrite !dom_insert_L, dom_empty_L.
    apply set_eq. intros k.
    rewrite !elem_of_union, !elem_of_singleton, elem_of_empty. tauto.
  - intros Heq.
    assert (H : (mret p : M Product.t) blank = (mret q : M Product.t) blank)
      by by rewrite <- !from_dict_to_dict, Heq.
    by injection H.
Qed.

Lemma mutate_run m p w :
  ∃ p' w',
    mutate m p w = (Ok p', w')
    ∧ Product.id p' = Product.id p
    ∧ Product.created_at p' = Product.created_at p
    ∧ Product.updated_at p' = utc w (ticks w + readings m - 1)
    ∧ (is_Some (Product.deleted_at p')
       ↔ is_Some (Product.deleted_at p) ∨ m = MarkDeleted)
    ∧ ticks w' = (ticks w + readings m)%nat
    ∧ utc w' = utc w ∧ documents w' = documents w ∧ draws w' = draws w
    ∧ calls w' = calls w.
Proof.
  destruct m as [name description category price stock|]; cbn [mutate readings].
  - rewrite model_update_run. eexists _, _. split; [reflexivity|].
    cbn [Product.id Product.created_at Product.updated_at Product.deleted_at
         ticks utc documents draws calls set_ticks].
    replace (ticks w + 1 - 1)%nat with (ticks w) by lia.
    split_and!; try done; try lia. split; [tauto|]. by intros [?|?].
  - rewrite soft_delete_run. eexists _, _. split; [reflexivity|].
    cbn [Product.id Product.created_at Product.updated_at Product.deleted_at
         ticks utc documents draws calls set_ticks].
    replace (ticks w + 2 - 1)%nat with (S (ticks w)) by lia.
    split_and!; try done; try lia. split; [by right|by eexists].
Qed.

(** X11. The mutations of the domain model never fail and never touch the
    collection or the id stream. Any sequence of update and soft_delete
    keeps id and created_at, takes one clock reading per update and two
    per soft_delete, leaves updated_at at the last reading taken, and ends
    with deleted_at set exactly when it was set before or the sequence
    contains a soft_delete: update never clears it, and soft_delete does
    not test it. *)
Theorem mutations_frame ms p w :
  ∃ p' w',
    mutate_all ms p w = (Ok p', w')
    ∧ Product.id p' = Product.id p
    ∧ Product.created_at p' = Product.created_at p
    ∧ Product.updated_at p'
      = match ms with
        | [] => Product.updated_at p
        | _ => utc w (ticks w + total_readings ms - 1)
        end
    ∧ (is_Some (Product.deleted_at p')
       ↔ is_Some (Product.deleted_at p) ∨ MarkDeleted ∈ ms)
    ∧ ticks w' = (ticks w + total_readings ms)%nat
    ∧ utc w' = utc w ∧ documents w' = documents w ∧ draws w' = draws w
    ∧ calls w' = calls w.
Proof.
  revert p w. induction ms as [|m ms IH]; intros p w.
  - exists p, w. cbn. split_and!; try done; try lia. split; [tauto|].
    intros [?|H]; [done|]. by apply elem_of_nil in H.
  - destruct (mutate_run m p w)
      as (p1 & w1 & Hrun & Hid & Hc & Hu & Hd & Ht & Hutc & Hdocs & Hdraws & Hcalls).
    destruct (IH p1 w1)
      as (p' & w' & Hrun' & Hid' & Hc' & Hu' & Hd' & Ht' & Hutc' & Hdocs' & Hdraws'
          & Hcalls').
    exists p', w'. cbn [mutate_all total_readings foldr].
    fold (total_readings ms).
    split; [unfold mbind, M_bind; by rewrite Hrun|].
    split; [congruence|]. split; [congruence|]. split.
    { rewrite Hu'. destruct ms as [|m' ms'].
      - cbn [total_readings foldr]. rewrite Hu. f_equal. lia.
      - rewrite Hutc, Ht. f_equal.
        assert (0 < readings m')%nat by (destruct m'; cbn; lia).
        cbn [total_readings foldr]. cbn [total_readings foldr] in *. lia. }
    split.
    { rewrite Hd', Hd, elem_of_cons. intuition congruence. }
    split; [lia|]. split_and!; congruence.
Qed.

(** ** Reading back what the Service wrote *)

Lemma perform_stores product_id p c w :
  stores product_id p w → ¬ writes_to product_id c →
  stores product_id p (perform c w).2.
Proof.
  intros (i & d & Hfind) Hc. exists i, d.
  destruct (perform_cases c w)
    as [[-> _]|[(data & q & _ & _ & _ & ->)
               |(op & x & j & dj & q' & -> & Hop & _ & Hfindx & _ & Hid & ->)]].
  - done.
  - by apply list_find_app_l.
  - assert (Hx : x ≠ product_id) by (intros ->; by destruct op).
    apply list_find_insert_other; [done| |].
    + intros ->. apply list_find_Some in Hfind as (Hj & Hd & _).
      apply list_find_Some in Hfindx as (Hj' & Hdj & _).
      rewrite Hj in Hj'. injection Hj' as <-.
      by apply Hx, (has_id_unique product_id x _ Hd Hdj).
    + rewrite has_id_to_dict. congruence.
Qed.

Lemma perform_all_stores product_id p cs :
  ∀ w, stores product_id p w → Forall (λ c, ¬ writes_to product_id c) cs →
       stores product_id p (perform_all cs w).2.
Proof.
  induction cs as [|c cs IH]; intros w Hw Hcs; [done|].
  apply Forall_cons in Hcs as [Hc Hcs].
  destruct (perform_all_cons c cs w) as [-> _].
  by apply IH; [apply perform_stores|].
Qed.

Lemma stores_get product_id p w :
  stores product_id p w →
  ProductRepository.find_by_id product_id w
  = match outages w (calls w) with
    | Some message =>
        (Raise (DatabaseException ("Failed to find product: " +:+ message)),
         called w)
    | None => (Ok (Some p), called w)
    end.
Proof.
  intros (i & d & Hfind). by rewrite find_by_id_run, Hfind, read_stored.
Qed.

Lemma create_product_stores data w p :
  (run_alone (ProductService.create_product data) w).1 = Ok p →
  stores (Product.id p) p (run_alone (ProductService.create_product data) w).2
  ∧ p = Product.mk (uuids w (draws w)) (ProductCreate.name data)
                   (ProductCreate.description data)
                   (ProductCreate.category data) (ProductCreate.price data)
                   (ProductCreate.stock data)
                   (utc w (ticks w)) (utc w (S (ticks w))) None.
Proof.
  rewrite create_product_run. cbn zeta.
  destruct (outages w (calls w)); [done|].
  case_bool_decide as Hdup; [done|].
  cbn [fst snd]. intros [= <-]. split; [|done].
  exists (length (documents w)), {["_id" := VObjectId (next_oid w)]}.
  cbn [documents set_documents].
  pose proof (proj2 (list_find_None_Exists _ _) Hdup) as Hnone.
  rewrite (list_find_app_r _ _ _ Hnone).
  cbn [list_find]. rewrite decide_True by (by apply has_id_fresh).
  cbn [fmap option_fmap option_map prod_map fst snd].
  rewrite insert_union_singleton_r; [done|].
  by destruct (to_dict_lookup
                 (Product.mk (uuids w (draws w)) (ProductCreate.name data)
                    (ProductCreate.description data)
                    (ProductCreate.category data) (ProductCreate.price data)
                    (ProductCreate.stock data)
                    (utc w (ticks w)) (utc w (S (ticks w))) None))
    as (_ & _ & _ & _ & _ & _ & _ & _ & _ & ?).
Qed.

(** X12. Read your own create: a product that create_product returned is
    built from the request, the next id of the stream and two clock
    readings, with no deletion time; as long as no Update or Delete of
    its id is performed, after any further Service calls
    get_product_by_id of that id returns exactly this record whenever the
    driver answers. *)
Theorem create_then_get data w p cs :
  (run_alone (ProductService.create_product data) w).1 = Ok p →
  Forall (λ c, ¬ writes_to (Product.id p) c) cs →
  let w' := (perform_all cs (run_alone (ProductService.create_product data) w).2).2 in
  p = Product.mk (uuids w (draws w)) (ProductCreate.name data)
                 (ProductCreate.description data)
                 (ProductCreate.category data) (ProductCreate.price data)
                 (ProductCreate.stock data)
                 (utc w (ticks w)) (utc w (S (ticks w))) None
  ∧ (outages w' (calls w') = None →
     run_alone (ProductService.get_product_by_id (Product.id p)) w' = (Ok p, called w')).
Proof.
  intros Hok Hcs w'.
  destruct (create_product_stores data w p Hok) as [Hstores Hp].
  split; [done|]. intros Hup.
  pose proof (perform_all_stores _ _ cs _ Hstores Hcs) as Hw'.
  fold w' in Hw'.
  change (run_alone (ProductService.get_product_by_id (Product.id p)))
    with (run_operation GetProductById (Product.id p)).
  rewrite run_operation_run, (stores_get _ _ _ Hw'), Hup.
  rewrite Hp at 1. done.
Qed.

Lemma create_then_get_witness :
  let w' := (perform_all [Create usb_cable; On DeleteProduct id_b; GetAll]
               (run_alone (ProductService.create_product wireless_mouse) opening).2).2 in
  run_alone (ProductService.get_product_by_id (Product.id mouse)) w' = (Ok mouse, called w').
Proof.
  intros w'.
  refine (proj2 (create_then_get wireless_mouse opening mouse
                   [Create usb_cable; On DeleteProduct id_b; GetAll]
                   ltac:(vm_compute; reflexivity) _) ltac:(vm_compute; reflexivity)).
  repeat constructor; cbn; try tauto. intros H. by inversion H.
Defined.

(** X13. Update is a patch, and it can be read back: for an active stored
    product and any request, update_product returns the record in which
    each of name, description, category, price and stock is the request's
    value when the field was sent with a value, and the stored value
    otherwise; id and created_at are kept, updated_at is the clock
    reading, also for an empty request. The record is written over the
    first document with the id, and get_product_by_id then returns it. *)
Theorem update_product_patch product_id data p w :
  (ProductRepository.find_by_id product_id w).1 = Ok (Some p) →
  Product.is_deleted p = false →
  outages w (S (calls w)) = None →
  let p' :=
    Product.mk (Product.id p)
      (default (Product.name p) (supplied data "name" (ProductUpdate.name data)))
      (match supplied data "description" (ProductUpdate.description data) with
       | Some s => Some s
       | None => Product.description p
       end)
      (default (Product.category p)
               (supplied data "category" (ProductUpdate.category data)))
      (default (Product.price p) (supplied data "price" (ProductUpdate.price data)))
      (default (Product.stock p) (supplied data "stock" (ProductUpdate.stock data)))
      (Product.created_at p) (utc w (ticks w)) None in
  ∃ w',
    run_alone (ProductService.update_product product_id data) w = (Ok p', w')
    ∧ stores product_id p' w'
    ∧ length (documents w') = length (documents w)
    ∧ ticks w' = S (ticks w)
    ∧ (outages w' (calls w') = None →
       run_alone (ProductService.get_product_by_id product_id) w' = (Ok p', called w')).
Proof.
  intros Hfound Hactive Hup p'.
  pose proof (find_by_id_world product_id w) as Hw.
  destruct (find_by_id_Some product_id w p Hfound)
    as (Hup0 & Hid & i & d & Hfind & Hread).
  change (run_alone (ProductService.update_product product_id data))
    with (run_operation (UpdateProduct data) product_id).
  rewrite run_operation_run.
  destruct (ProductRepository.find_by_id product_id w) as [r w1].
  cbn [fst snd] in *. subst r w1. rewrite Hactive, proceed_update_run.
  unfold mbind, M_bind. rewrite model_update_run, update_run.
  cbn [called outages calls set_calls set_ticks documents]. rewrite Hup.
  apply is_deleted_false in Hactive. rewrite Hactive.
  change (utc (called w)) with (utc w). change (ticks (called w)) with (ticks w).
  fold p'.
  eexists. split; [reflexivity|].
  match goal with
  | |- stores _ _ ?w' ∧ _ => assert (Hstores : stores product_id p' w')
  end.
  { exists i, d. cbn [documents set_documents].
    change (Product.id p') with (Product.id p).
    rewrite Hid, set_first_find, Hfind.
    apply (list_find_insert (has_id product_id) (documents w) i d
             (Product.to_dict p' ∪ d) Hfind).
    apply (proj2 (has_id_to_dict product_id p' d)). exact Hid. }
  split; [exact Hstores|]. split.
  { cbn [documents set_documents].
    change (Product.id p') with (Product.id p).
    rewrite Hid, set_first_find, Hfind. apply length_insert. }
  split; [done|]. intros Hup2.
  change (run_alone (ProductService.get_product_by_id product_id))
    with (run_operation GetProductById product_id).
  rewrite run_operation_run, (stores_get _ _ _ Hstores), Hup2. done.
Qed.


Lemma update_product_patch_witness :
  ∃ w',
    run_alone (ProductService.update_product id_a
      (ProductUpdate.mk (Some "Mouse") None None None (Some 7)
                        {["name"; "stock"; "description"]})) stocked
    = (Ok (Product.mk id_a "Mouse"
             (Some "Ergonomic wireless mouse with USB receiver") "Electronics"
             price_29_99 7 (at_second 0 I) (at_second 4 I) None), w')
    ∧ length (documents w') = length (documents stocked).
Proof.
  pose proof (update_product_patch id_a
              (ProductUpdate.mk (Some "Mouse") None None None (Some 7)
                                {["name"; "stock"; "description"]})
              mouse stocked
              ltac:(vm_compute; reflexivity) ltac:(vm_compute; reflexivity)
              ltac:(vm_compute; reflexivity)) as H.
  cbv zeta in H. destruct H as (w' & Hrun & _ & Hlen & _).
  exists w'. split; [|exact Hlen].
  rewrite Hrun. f_equal.
Defined.

(** ** The routes, seen from the client *)

Lemma endpoint_route op product_id w :
  endpoint (route op product_id) w
  = match run_operation op product_id w with
    | (Ok p, w') => (Ok (ProductBody (response_of p)), w')
    | (Raise e, w') => (Raise (HTTPException (spec_status e) (spec_detail e)), w')
    end.
Proof.
  pose proof (run_operation_outcome op product_id w) as Hout.
  assert (Hchain : ∀ e w',
    (run_operation op product_id w).1 = Raise e →
    @Router.get_product_except ProductResponse.t e w'
    = (Raise (HTTPException (spec_status e) (spec_detail e)), w')
    ∧ @Router.update_product_except ProductResponse.t e w'
      = (Raise (HTTPException (spec_status e) (spec_detail e)), w')
    ∧ @Router.delete_product_except ProductResponse.t e w'
      = (Raise (HTTPException (spec_status e) (spec_detail e)), w')).
  { intros e w' He. rewrite He in Hout.
    destruct Hout as [[p [=]]|[[= ->]|[[= ->]|[cause [= ->]]]]]; done. }
  destruct op as [|data|]; unfold run_operation in *; cbn [route endpoint service_operation] in *.
  - pose proof (product_route (run_alone (ProductService.get_product_by_id product_id))
                  Router.get_product_except w) as H.
    destruct (run_alone (ProductService.get_product_by_id product_id) w) as [[p|e] w'].
    + exact (proj2 H).
    + unfold Router.get_product. rewrite (proj2 H).
      unfold mbind, M_bind.
      by rewrite (proj1 (Hchain e w' eq_refl)).
  - pose proof (product_route
                  (run_alone (ProductService.update_product product_id data))
                  Router.update_product_except w) as H.
    destruct (run_alone (ProductService.update_product product_id data) w) as [[p|e] w'].
    + exact (proj2 H).
    + unfold Router.update_product. rewrite (proj2 H).
      unfold mbind, M_bind.
      by rewrite (proj1 (proj2 (Hchain e w' eq_refl))).
  - pose proof (product_route (run_alone (ProductService.delete_product product_id))
                  Router.delete_product_except w) as H.
    destruct (run_alone (ProductService.delete_product product_id) w) as [[p|e] w'].
    + exact (proj2 H).
    + unfold Router.delete_product. rewrite (proj2 H).
      unfold mbind, M_bind.
      by rewrite (proj2 (proj2 (Hchain e w' eq_refl))).
Qed.

Lemma endpoint_create data w :
  endpoint (POST_products data) w
  = match run_alone (ProductService.create_product data) w with
    | (Ok p, w') => (Ok (ProductBody (response_of p)), w')
    | (Raise e, w') => (Raise (HTTPException (spec_status e) (spec_detail e)), w')
    end.
Proof.
  pose proof (create_product_outcome data w) as Hout.
  pose proof (product_route (run_alone (ProductService.create_product data))
                Router.create_product_except w) as H.
  cbn [endpoint].
  destruct (run_alone (ProductService.create_product data) w) as [[p|e] w'].
  - exact (proj2 H).
  - unfold Router.create_product. rewrite (proj2 H).
    unfold mbind, M_bind. cbn [fst] in Hout.
    by destruct Hout as [[p [=]]|[cause [= ->]]].
Qed.

Lemma endpoint_list w :
  endpoint GET_products w
  = match Router.get_all_products w with
    | (Ok r, w') => (Ok (ListBody r), w')
    | (Raise e, w') => (Raise e, w')
    end.
Proof.
  cbn [endpoint]. unfold mbind, M_bind.
  by destruct (Router.get_all_products w) as [[r|e] w'].
Qed.

Lemma get_all_products_world w :
  (Router.get_all_products w).2 = (run_alone ProductService.get_all_products w).2.
Proof.
  rewrite get_all_products_run.
  unfold ProductService.get_all_products. cbn [run_alone]. unfold mbind, M_bind.
  rewrite find_all_active_run.
  destruct (outages w (calls w)); [done|].
  by destruct (read_all _).
Qed.

Lemma endpoint_world req w : (endpoint req w).2 = (perform (call_of req) w).2.
Proof.
  destruct req as [data| |product_id|product_id data|product_id];
    cbn [call_of perform]; rewrite discard_world.
  - rewrite endpoint_create.
    by destruct (run_alone (ProductService.create_product data) w) as [[p|e] w'].
  - rewrite endpoint_list, <- get_all_products_world.
    by destruct (Router.get_all_products w) as [[r|e] w'].
  - change (GET_product product_id) with (route GetProductById product_id).
    rewrite endpoint_route.
    by destruct (run_operation GetProductById product_id w) as [[p|e] w'].
  - change (PUT_product product_id data)
      with (route (UpdateProduct data) product_id).
    rewrite endpoint_route.
    by destruct (run_operation (UpdateProduct data) product_id w) as [[p|e] w'].
  - change (DELETE_product product_id) with (route DeleteProduct product_id).
    rewrite endpoint_route.
    by destruct (run_operation DeleteProduct product_id w) as [[p|e] w'].
Qed.

Lemma serve_all_perform_all reqs :
  ∀ w, serve_all reqs w = (perform_all (call_of <$> reqs) w).2.
Proof.
  induction reqs as [|req reqs IH]; intros w; [done|].
  cbn [serve_all fmap list_fmap].
  destruct (perform_all_cons (call_of req) (call_of <$> reqs) w) as [-> _].
  by rewrite IH, endpoint_world.
Qed.

(** X14. With the driver answering, GET, PUT and DELETE of an id answer
    404 with the not-found message exactly when no stored document
    carries the id; the 404 writes nothing, and an id that some document
    carries never gives 404. *)
Theorem unknown_product_is_404 op product_id w :
  outages w (calls w) = None →
  (¬ Exists (has_id product_id) (documents w) →
   endpoint (route op product_id) w
   = (Raise (HTTPException 404
               ("Product with id '" +:+ uuid_str product_id +:+ "' not found")),
      called w))
  ∧ (Exists (has_id product_id) (documents w) →
     ∀ detail, (endpoint (route op product_id) w).1
               ≠ Raise (HTTPException 404 detail)).
Proof.
  intros Hup. rewrite endpoint_route. split.
  - intros Hnone. by rewrite run_operation_unknown, Hup.
  - intros Hex detail. rewrite run_operation_run, find_by_id_run, Hup.
    destruct (list_find (has_id product_id) (documents w)) as [[i d]|] eqn:Hfind.
    + destruct (read (delete "_id" d)) as [p|e]; [|done].
      destruct (Product.is_deleted p); [done|].
      destruct (proceed_outcome op p (called w)) as [[p' Hp']|[cause Hcause]];
        destruct (proceed op p (called w)) as [r w']; cbn [fst] in *; by subst r.
    + by apply (proj1 (list_find_None_Exists _ _)) in Hfind.
Qed.

Lemma unknown_product_is_404_witness :
  endpoint (route (UpdateProduct (only_price price_34_99)) id_c) shop
  = (Raise (HTTPException 404
              ("Product with id '" +:+ uuid_str id_c +:+ "' not found")),
     called shop).
Proof.
  apply (unknown_product_is_404 (UpdateProduct (only_price price_34_99)) id_c
           shop ltac:(vm_compute; reflexivity)).
  apply (bool_decide_eq_false_1 (Exists (has_id id_c) (documents shop))).
  vm_compute. reflexivity.
Defined.

(** X15. When DELETE of an id, served alone, has answered with a body,
    that body carries the id and the deletion time, and after any further
    requests, served one at a time or with the blocks of their Service
    calls interleaved in any order (a handler awaits only inside its
    Service call), GET, PUT and DELETE of the id answer 410 with the
    deleted message whenever the driver answers, and write nothing. *)
Theorem deleted_product_is_410 product_id w b reqs turns op w' :
  (endpoint (DELETE_product product_id) w).1 = Ok b →
  let w1 := (endpoint (DELETE_product product_id) w).2 in
  w' = serve_all reqs w1
  ∨ w' = (schedule turns (start <$> (call_of <$> reqs)) w1).2 →
  (∃ r, b = ProductBody r
        ∧ ProductResponse.id r = product_id
        ∧ ProductResponse.deletedAt r = Some (utc w (ticks w)))
  ∧ (outages w' (calls w') = None →
     endpoint (route op product_id) w'
     = (Raise (HTTPException 410
                 ("Product with id '" +:+ uuid_str product_id
                  +:+ "' has been deleted")),
        called w')).
Proof.
  change (DELETE_product product_id) with (route DeleteProduct product_id).
  rewrite endpoint_route. unfold run_operation. cbn [service_operation].
  destruct (run_alone (ProductService.delete_product product_id) w)
    as [[p|e] w1] eqn:Hrun; [|done].
  cbn [fst snd]. intros [= <-] Hafter.
  assert (Hstored : stores_deleted product_id p w1).
  { pose proof (delete_product_stores product_id w p) as H.
    rewrite Hrun in H. by apply H. }
  split.
  - exists (response_of p). split; [done|].
    destruct (delete_product_Ok _ _ _ _ Hrun) as [Hdel _].
    cbn [response_of ProductResponse.id ProductResponse.deletedAt].
    split; [|done].
    destruct Hstored as [_ (i & d & (_ & Hd & _)%list_find_Some)].
    by apply has_id_to_dict in Hd.
  - intros Hup.
    assert (Hw' : stores_deleted product_id p w').
    { destruct Hafter as [->| ->].
      - rewrite serve_all_perform_all.
        by apply perform_all_stores_deleted.
      - by apply schedule_stores_deleted. }
    rewrite endpoint_route.
    destruct (stores_deleted_run product_id p op _ Hw') as [_ ->].
    by rewrite Hup.
Qed.

Lemma deleted_product_is_410_witness :
  let w' := (schedule [1; 0; 1; 0; 1]%nat
               (start <$> (call_of <$>
                  [GET_products; PUT_product id_a (only_price price_34_99)]))
               (endpoint (DELETE_product id_a) stocked).2).2 in
  endpoint (route GetProductById id_a) w'
  = (Raise (HTTPException 410
              ("Product with id '" +:+ uuid_str id_a +:+ "' has been deleted")),
     called w').
Proof.
  intros w'.
  exact (proj2
    (deleted_product_is_410 id_a stocked
       (ProductBody
          (ProductResponse.mk id_a "Wireless Mouse"
             (Some "Ergonomic wireless mouse with USB receiver")
             "Electronics" price_29_99 150 (at_second 0 I) (at_second 5 I)
             (Some (at_second 4 I))))
       [GET_products; PUT_product id_a (only_price price_34_99)]
       [1; 0; 1; 0; 1]%nat
       GetProductById w' ltac:(vm_compute; reflexivity) (or_intror eq_refl))
    ltac:(vm_compute; reflexivity)).
Defined.

(** X16. When the driver fails at the first call of a request, every
    route answers 500 with "Database error: " followed by the
    repository's wording of the failed operation and the driver's
    message, and nothing is written. *)
Theorem driver_outage_is_500 req w message :
  outages w (calls w) = Some message →
  (endpoint req w).1
  = Raise (HTTPException 500
             ("Database error: " +:+ failed_to req +:+ message))
  ∧ documents (endpoint req w).2 = documents w.
Proof.
  intros Hdown.
  destruct req as [data| |product_id|product_id data|product_id].
  - rewrite endpoint_create, create_product_run. cbn zeta. by rewrite Hdown.
  - rewrite endpoint_list, get_all_products_run. by rewrite Hdown.
  - change (GET_product product_id) with (route GetProductById product_id).
    rewrite endpoint_route, run_operation_run, find_by_id_run. by rewrite Hdown.
  - change (PUT_product product_id data)
      with (route (UpdateProduct data) product_id).
    rewrite endpoint_route, run_operation_run, find_by_id_run. by rewrite Hdown.
  - change (DELETE_product product_id) with (route DeleteProduct product_id).
    rewrite endpoint_route, run_operation_run, find_by_id_run. by rewrite Hdown.
Qed.

Lemma driver_outage_is_500_witness :
  (endpoint (DELETE_product id_a)
     (mkWorld (documents stocked) 2 ticking 4 sample_uuids 2
              (λ _, Some "connection refused") 4)).1
  = Raise (HTTPException 500
             ("Database error: " +:+ failed_to (DELETE_product id_a)
              +:+ "connection refused")).
Proof.
  apply (driver_outage_is_500 (DELETE_product id_a)
           (mkWorld (documents stocked) 2 ticking 4 sample_uuids 2
                    (λ _, Some "connection refused") 4)
           "connection refused" eq_refl).
Defined.

(** X17. When the look-up of an Update or Delete succeeds and the driver
    fails at the write, PUT and DELETE both answer 500 with
    "Database error: Failed to update product: " and the driver's
    message (the soft delete is written as an update), and the stored
    documents are as before. *)
Theorem write_outage_is_500 op product_id p w message :
  op ≠ GetProductById →
  (ProductRepository.find_by_id product_id w).1 = Ok (Some p) →
  Product.is_deleted p = false →
  outages w (S (calls w)) = Some message →
  (endpoint (route op product_id) w).1
  = Raise (HTTPException 500
             ("Database error: Failed to update product: " +:+ message))
  ∧ documents (endpoint (route op product_id) w).2 = documents w.
Proof.
  intros Hop Hfound Hactive Hdown.
  pose proof (find_by_id_world product_id w) as Hw.
  rewrite endpoint_route, run_operation_run.
  destruct (ProductRepository.find_by_id product_id w) as [r w1].
  cbn [fst snd] in *. subst r w1. rewrite Hactive.
  destruct op as [|data|]; [done| |].
  - rewrite proceed_update_run. unfold mbind, M_bind.
    rewrite model_update_run, update_run.
    cbn [called outages calls set_calls set_ticks documents].
    by rewrite Hdown.
  - cbn [proceed]. unfold mbind, M_bind.
    rewrite soft_delete_run, update_run.
    cbn [called outages calls set_calls set_ticks documents].
    by rewrite Hdown.
Qed.

Lemma write_outage_is_500_witness :
  (endpoint (route DeleteProduct id_a)
     (mkWorld (documents stocked) 2 ticking 4 sample_uuids 2
              (λ n, match n with 5%nat => Some "timed out" | _ => None end)
              4)).1
  = Raise (HTTPException 500
             ("Database error: Failed to update product: " +:+ "timed out")).
Proof.
  apply (write_outage_is_500 DeleteProduct id_a mouse
           (mkWorld (documents stocked) 2 ticking 4 sample_uuids 2
              (λ n, match n with 5%nat => Some "timed out" | _ => None end) 4)
           "timed out"
           ltac:(discriminate) ltac:(vm_compute; reflexivity)
           ltac:(vm_compute; reflexivity) eq_refl).
Defined.

(** X18. POST /products answers with a body that repeats the request's
    name, description, category, price and stock, with the next id of the
    stream, the next two clock readings as createdAt and updatedAt and no
    deletedAt, unless the driver fails or a stored document already
    carries that id; then it answers 500 and stores nothing, though the
    id and the two readings are used up. *)
Theorem post_response data w :
  (endpoint (POST_products data) w).1
  = match outages w (calls w) with
    | Some message =>
        Raise (HTTPException 500
                 ("Database error: Failed to create product: " +:+ message))
    | None =>
        if bool_decide (Exists (has_id (uuids w (draws w))) (documents w))
        then Raise (HTTPException 500
                      "Database error: Failed to create product: E11000 duplicate key error")
        else Ok (ProductBody
                   (ProductResponse.mk (uuids w (draws w))
                      (ProductCreate.name data) (ProductCreate.description data)
                      (ProductCreate.category data) (ProductCreate.price data)
                      (ProductCreate.stock data)
                      (utc w (ticks w)) (utc w (S (ticks w))) None))
    end
  ∧ ticks (endpoint (POST_products data) w).2 = S (S (ticks w))
  ∧ draws (endpoint (POST_products data) w).2 = S (draws w)
  ∧ ((∀ b, (endpoint (POST_products data) w).1 ≠ Ok b) →
     documents (endpoint (POST_products data) w).2 = documents w).
Proof.
  rewrite endpoint_create, create_product_run. cbn zeta.
  destruct (outages w (calls w)) as [message|];
    [split_and!; try reflexivity; intros _; reflexivity|].
  cbn [Product.id].
  case_bool_decide as Hdup;
    [split_and!; try reflexivity; intros _; reflexivity|].
  cbn [fst snd]. split_and!; try done.
  intros Hnever. by destruct (Hnever _ eq_refl).
Qed.

Lemma lacks_key_unreadable d :
  lacks_required_key d → ∃ e, read (delete "_id" d) = Raise e.
Proof.
  intros Hlacks. destruct (read (delete "_id" d)) as [p|e] eqn:Hread;
    [|by eexists].
  destruct (read_needs_keys _ _ Hread).
  unfold lacks_required_key in *. eapply Exists_impl; [exact Hlacks|].
  intros k Hk. cbn beta in Hk |- *.
  destruct (decide (k = "_id")) as [->|Hne].
  - apply lookup_delete_eq.
  - by rewrite lookup_delete_ne.
Qed.

Lemma read_all_unreadable docs d :
  d ∈ docs → (∃ e, read (delete "_id" d) = Raise e) →
  ∃ e, read_all docs = Raise e.
Proof.
  intros [i Hi]%list_elem_of_lookup_1 [e He].
  destruct (read_all docs) as [ps|e'] eqn:Hall; [|by eexists].
  destruct (read_all_Ok _ _ Hall) as [_ Hread].
  destruct (Forall2_lookup_l _ _ _ _ _ Hread Hi) as (p & _ & Hp). congruence.
Qed.

(** X19. A stored document that lacks one of the keys from_dict reads
    with data[key] is answered as a server error, not skipped: if it is
    not marked deleted, GET /products fails as a whole with 500
    "Database error: Failed to find products: ...", and if it is the
    first document with its id, GET, PUT and DELETE of that id answer 500
    "Database error: Failed to find product: ..."; nothing is written. *)
Theorem document_without_key_is_500 w i d :
  outages w (calls w) = None →
  documents w !! i = Some d →
  lacks_required_key d →
  (¬ marked_deleted d →
   ∃ cause,
     endpoint GET_products w
     = (Raise (HTTPException 500
                 ("Database error: Failed to find products: " +:+ cause)),
        called w))
  ∧ (∀ op product_id,
       list_find (has_id product_id) (documents w) = Some (i, d) →
       ∃ cause,
         endpoint (route op product_id) w
         = (Raise (HTTPException 500
                     ("Database error: Failed to find product: " +:+ cause)),
            called w)).
Proof.
  intros Hup Hi Hlacks.
  pose proof (lacks_key_unreadable d Hlacks) as Hbad. split.
  - intros Hactive.
    rewrite endpoint_list, get_all_products_run, Hup.
    destruct (read_all_unreadable
                (filter (λ d, ¬ marked_deleted d) (documents w)) d) as [e ->].
    + apply list_elem_of_filter. split; [done|]. by eapply list_elem_of_lookup_2.
    + done.
    + by exists (str e).
  - intros op product_id Hfind. destruct Hbad as [e He].
    rewrite endpoint_route, run_operation_run, find_by_id_run, Hup, Hfind, He.
    by exists (str e).
Qed.

Lemma document_without_key_is_500_witness :
  ∃ cause,
    endpoint GET_products
      (mkWorld [delete "price" (Product.to_dict mouse)] 1 ticking 2
               sample_uuids 1 (λ _, None) 1)
    = (Raise (HTTPException 500
                ("Database error: Failed to find products: " +:+ cause)),
       called (mkWorld [delete "price" (Product.to_dict mouse)] 1 ticking 2
                       sample_uuids 1 (λ _, None) 1)).
Proof.
  assert (Hlacks : lacks_required_key (delete "price" (Product.to_dict mouse))).
  { unfold lacks_required_key, required_keys.
    do 3 apply Exists_cons_tl. apply Exists_cons_hd. apply lookup_delete_eq. }
  assert (Hactive : ¬ marked_deleted (delete "price" (Product.to_dict mouse))).
  { intros H. apply H. vm_compute. reflexivity. }
  exact (proj1 (document_without_key_is_500
                  (mkWorld [delete "price" (Product.to_dict mouse)] 1 ticking 2
                           sample_uuids 1 (λ _, None) 1)
                  0 (delete "price" (Product.to_dict mouse))
                  eq_refl eq_refl Hlacks) Hactive).
Defined.

(** ** Settings and request validation *)

Lemma text_chars s : text (chars s) = s.
Proof. apply string_of_list_ascii_of_string. Qed.

Lemma text_nil cs : text cs = "" ↔ cs = [].
Proof. split; [by destruct cs|by intros ->]. Qed.

Lemma lstrip_chars_blank cs :
  lstrip_chars cs = [] ↔ Forall (λ c, Is_true (is_space c)) cs.
Proof.
  induction cs as [|c cs IH]; [done|]. cbn [lstrip_chars].
  destruct (is_space c) eqn:Hc.
  - rewrite IH, Forall_cons, Hc. cbn. tauto.
  - split; [done|]. intros [H _]%Forall_cons. by rewrite Hc in H.
Qed.

Lemma lstrip_chars_head cs :
  lstrip_chars cs = []
  ∨ ∃ c rest, lstrip_chars cs = c :: rest ∧ is_space c = false.
Proof.
  induction cs as [|c cs IH]; [by left|]. cbn [lstrip_chars].
  destruct (is_space c) eqn:Hc; [done|]. right. by exists c, cs.
Qed.

Lemma lstrip_chars_fixed c rest :
  is_space c = false → lstrip_chars (c :: rest) = c :: rest.
Proof. intros Hc. cbn [lstrip_chars]. by rewrite Hc. Qed.

Lemma lstrip_chars_idemp cs : lstrip_chars (lstrip_chars cs) = lstrip_chars cs.
Proof.
  destruct (lstrip_chars_head cs) as [->|(c & rest & -> & Hc)]; [done|].
  by apply lstrip_chars_fixed.
Qed.

Lemma lstrip_chars_elem cs x : x ∈ lstrip_chars cs → x ∈ cs.
Proof.
  induction cs as [|c cs IH]; [done|]. cbn [lstrip_chars].
  destruct (is_space c); [|done]. intros H. right. by apply IH.
Qed.

Lemma lstrip_chars_snoc cs c :
  is_space c = false →
  lstrip_chars (cs ++ [c])%list = (lstrip_chars cs ++ [c])%list.
Proof.
  intros Hc. induction cs as [|x cs IH].
  - cbn. by rewrite Hc.
  - cbn [app lstrip_chars]. by destruct (is_space x).
Qed.

Lemma rstrip_chars_cons c rest :
  is_space c = false → rstrip_chars (c :: rest) = c :: rstrip_chars rest.
Proof.
  intros Hc. unfold rstrip_chars.
  by rewrite reverse_cons, lstrip_chars_snoc, reverse_app.
Qed.

Lemma rstrip_chars_elem cs x : x ∈ rstrip_chars cs → x ∈ cs.
Proof.
  unfold rstrip_chars. rewrite elem_of_reverse. intros H%lstrip_chars_elem.
  by apply elem_of_reverse.
Qed.

Lemma rstrip_chars_idemp cs : rstrip_chars (rstrip_chars cs) = rstrip_chars cs.
Proof.
  unfold rstrip_chars. by rewrite reverse_involutive, lstrip_chars_idemp.
Qed.

Lemma strip_chars_cases cs :
  rstrip_chars (lstrip_chars cs) = [] ∧ lstrip_chars cs = []
  ∨ ∃ c rest, rstrip_chars (lstrip_chars cs) = c :: rest ∧ is_space c = false.
Proof.
  destruct (lstrip_chars_head cs) as [->|(c & rest & -> & Hc)]; [by left|].
  right. exists c, (rstrip_chars rest). by rewrite rstrip_chars_cons.
Qed.

Lemma strip_idemp s : strip (strip s) = strip s.
Proof.
  unfold strip. rewrite chars_text. f_equal.
  destruct (strip_chars_cases (chars s)) as [[-> _]|(c & rest & Heq & Hc)];
    [done|].
  rewrite Heq, lstrip_chars_fixed by done.
  rewrite <- Heq. apply rstrip_chars_idemp.
Qed.

Lemma strip_elem s x : x ∈ chars (strip s) → x ∈ chars s.
Proof.
  unfold strip. rewrite chars_text.
  intros H%rstrip_chars_elem. by apply lstrip_chars_elem.
Qed.

Lemma split_chars_length sep cs :
  length (split_chars sep cs) = S (length (filter (λ c, c = sep) cs)).
Proof.
  induction cs as [|c cs IH]; [done|]. cbn [split_chars].
  rewrite filter_cons. destruct (Ascii.eqb_spec c sep) as [->|Hne].
  - rewrite decide_True by done. cbn [length]. by rewrite IH.
  - rewrite decide_False by done.
    destruct (split_chars sep cs) as [|word words]; [done|]. by rewrite <- IH.
Qed.

Lemma split_chars_no_sep sep cs :
  Forall (λ word, sep ∉ word) (split_chars sep cs).
Proof.
  induction cs as [|c cs IH].
  - repeat constructor. by intros ?%elem_of_nil.
  - cbn [split_chars]. destruct (Ascii.eqb_spec c sep) as [->|Hne].
    + constructor; [by intros ?%elem_of_nil|done].
    + destruct (split_chars sep cs) as [|word words].
      * repeat constructor. by intros [?|?%elem_of_nil]%elem_of_cons.
      * apply Forall_cons in IH as [Hword Hwords].
        constructor; [|done]. by intros [?|?]%elem_of_cons.
Qed.

Lemma join_cons_char sep c word words :
  join sep (String c word :: words) = String c (join sep (word :: words)).
Proof. by destruct words. Qed.

Lemma join_split_chars sep cs :
  join (String sep "") (text <$> split_chars sep cs) = text cs.
Proof.
  induction cs as [|c cs IH]; [done|]. cbn [split_chars].
  pose proof (split_chars_length sep cs) as Hlen.
  destruct (Ascii.eqb_spec c sep) as [->|Hne];
    destruct (split_chars sep cs) as [|word words]; try done.
  - change (text (sep :: cs)) with (String sep (text cs)).
    rewrite <- IH. reflexivity.
  - change (text (c :: cs)) with (String c (text cs)).
    rewrite <- IH. cbn [fmap list_fmap].
    change (text (c :: word)) with (String c (text word)).
    apply join_cons_char.
Qed.

Lemma join_split sep s : join (String sep "") (split sep s) = s.
Proof.
  unfold split. by rewrite join_split_chars, text_chars.
Qed.

(** X20. cors_origins_list has one entry more than the setting has
    commas, so it is never empty (the empty setting gives one empty
    origin); no entry contains a comma, and every entry is stripped:
    stripping it again changes nothing. *)
Theorem cors_origins_list_entries self :
  length (CorsSettings.cors_origins_list self)
  = S (length (filter (λ c, c = ","%char)
                      (chars (CorsSettings.cors_origins self))))
  ∧ Forall (λ origin, (","%char ∉ chars origin) ∧ strip origin = origin)
           (CorsSettings.cors_origins_list self)
  ∧ (CorsSettings.cors_origins self = "" →
     CorsSettings.cors_origins_list self = [""]).
Proof.
  unfold CorsSettings.cors_origins_list, split. split; [|split].
  - by rewrite !length_fmap, split_chars_length.
  - rewrite <- list_fmap_compose. apply Forall_fmap.
    eapply Forall_impl; [apply (split_chars_no_sep ","%char)|].
    intros word Hword. cbn [compose]. split; [|apply strip_idemp].
    intros H%strip_elem. by rewrite chars_text in H.
  - by intros ->.
Qed.

(** X21. The allow_methods and allow_headers lists handed to the CORS
    middleware are the raw pieces of the setting between commas: the
    wildcard test changes nothing, and joining the list with commas gives
    the setting back, so whitespace around a method or header is kept,
    unlike for origins. *)
Theorem allow_lists_are_raw settings :
  CorsSettings.allow_methods settings
  = split "," (CorsSettings.cors_allow_methods settings)
  ∧ CorsSettings.allow_headers settings
    = split "," (CorsSettings.cors_allow_headers settings)
  ∧ join "," (CorsSettings.allow_methods settings)
    = CorsSettings.cors_allow_methods settings
  ∧ join "," (CorsSettings.allow_headers settings)
    = CorsSettings.cors_allow_headers settings.
Proof.
  assert (Hm : CorsSettings.allow_methods settings
               = split "," (CorsSettings.cors_allow_methods settings)).
  { unfold CorsSettings.allow_methods.
    destruct (String.eqb_spec (CorsSettings.cors_allow_methods settings) "*")
      as [->|_]; done. }
  assert (Hh : CorsSettings.allow_headers settings
               = split "," (CorsSettings.cors_allow_headers settings)).
  { unfold CorsSettings.allow_headers.
    destruct (String.eqb_spec (CorsSettings.cors_allow_headers settings) "*")
      as [->|_]; done. }
  rewrite Hm, Hh. split_and!; try done; apply (join_split ","%char).
Qed.

Lemma lstrip_code_points_whitespace s :
  lstrip_code_points s = [] ↔ whitespace_only s.
Proof.
  unfold whitespace_only. induction s as [|c s IH]; [done|].
  cbn [lstrip_code_points]. destruct (isspace c) eqn:Hc.
  - rewrite IH, Forall_cons, Hc. cbn. tauto.
  - split; [done|]. intros [H _]%Forall_cons. by rewrite Hc in H.
Qed.

Lemma strip_code_points_whitespace s :
  strip_code_points s = [] ↔ whitespace_only s.
Proof.
  rewrite <- lstrip_code_points_whitespace.
  unfold strip_code_points, rstrip_code_points. split.
  - intros H. apply (f_equal reverse) in H.
    rewrite reverse_involutive, reverse_nil in H.
    apply lstrip_code_points_whitespace in H.
    destruct (lstrip_code_points s) as [|c rest] eqn:Hs; [done|].
    assert (Hc : Is_true (isspace c)).
    { unfold whitespace_only in H. rewrite Forall_forall in H. apply H.
      rewrite elem_of_reverse. by left. }
    assert (Hfalse : isspace c = false); [|by rewrite Hfalse in Hc].
    clear -Hs. induction s as [|x s IH]; [done|].
    cbn [lstrip_code_points] in Hs. destruct (isspace x) eqn:Hx; [by apply IH|].
    by injection Hs as <- _.
  - by intros ->.
Qed.

(** X22. The validator of ProductUpdate raises ValueError exactly for a
    str made of whitespace code points only, the empty str included, with
    whitespace as str.isspace() has it over all of Unicode; None and every
    other str are returned as they are, not trimmed.  An EM SPACE alone is
    refused, a name between spaces is kept with its spaces. *)
Theorem validate_non_empty_strings_spec v :
  (ProductUpdateValidator.validate_non_empty_strings v
   = Raise (ValueError "Field cannot be empty or whitespace only")
   ↔ ∃ s, v = Some s ∧ whitespace_only s)
  ∧ ((∀ s, v = Some s → ¬ whitespace_only s) →
     ProductUpdateValidator.validate_non_empty_strings v = Ok v)
  ∧ ProductUpdateValidator.validate_non_empty_strings (Some [8195])
    = Raise (ValueError "Field cannot be empty or whitespace only")
  ∧ ProductUpdateValidator.validate_non_empty_strings (Some [32; 77; 32])
    = Ok (Some [32; 77; 32]).
Proof.
  unfold ProductUpdateValidator.validate_non_empty_strings.
  split_and!; [| |done|done].
  - destruct v as [s|]; [|split; [done|by intros (s & ? & _)]].
    case_bool_decide as Hs.
    + apply strip_code_points_whitespace in Hs. split; [by exists s|done].
    + split; [done|]. intros (s' & [= <-] & Hblank).
      by apply strip_code_points_whitespace in Hblank.
  - intros Hv. destruct v as [s|]; [|done].
    case_bool_decide as Hs; [|done].
    apply strip_code_points_whitespace in Hs. by destruct (Hv s).
Qed.

Lemma validate_non_empty_strings_spec_witness :
  ProductUpdateValidator.validate_non_empty_strings (Some [160; 8195; 12288])
  = Raise (ValueError "Field cannot be empty or whitespace only")
  ∧ ProductUpdateValidator.validate_non_empty_strings (Some [87; 105; 8195])
    = Ok (Some [87; 105; 8195]).
Proof.
  split.
  - apply (proj2 (proj1 (validate_non_empty_strings_spec
                           (Some [160; 8195; 12288])))).
    exists [160; 8195; 12288]. split; [reflexivity|].
    repeat constructor.
  - apply (proj1 (proj2 (validate_non_empty_strings_spec
                           (Some [87; 105; 8195])))).
    intros s Hs Hblank. injection Hs as <-.
    apply Forall_cons in Hblank as [H _]. exact H.
Defined.

(** ** The connection manager over the life of the application *)

(** X23. After any sequence of connect_db and close_db calls,
    get_collection raises RuntimeError exactly when connect_db was never
    called, and otherwise returns the collection named by the settings,
    however many close_db calls followed; the client is then closed
    exactly when the last call was close_db, and every connect_db has
    requested the three indexes again. *)
Theorem database_lifecycle settings events :
  let cls := run_lifecycle settings events in
  Database.get_collection cls
  = (if bool_decide (ConnectDb ∈ events)
     then Ok (Database.mkCollection (Settings.mongodb_database settings)
                                    (Settings.mongodb_collection settings))
     else Raise (RuntimeError "Database not connected. Call connect_db() first."))
  ∧ Database.closed <$> Database.client cls
    = (if bool_decide (ConnectDb ∈ events)
       then Some (bool_decide (last events = Some CloseDb))
       else None)
  ∧ length (Database.indexes cls)
    = (3 * length (filter (λ event, event = ConnectDb) events))%nat.
Proof.
  unfold run_lifecycle. induction events as [|event events IH] using rev_ind.
  - done.
  - rewrite foldl_snoc, last_snoc, filter_app, length_app.
    destruct IH as (Hcollection & Hclient & Hindexes).
    assert (Hcount : length (filter (λ e, e = ConnectDb) [event])
                     = match event with ConnectDb => 1 | CloseDb => 0 end%nat)
      by by destruct event.
    rewrite Hcount. clear Hcount.
    destruct event; cbn [lifecycle_step].
    + rewrite bool_decide_eq_true_2 by (apply elem_of_app; right; by left).
      rewrite (bool_decide_eq_false_2 (Some ConnectDb = Some CloseDb)) by done.
      split; [done|]. split; [done|].
      cbn [Database.connect_db Database.indexes]. rewrite length_app, Hindexes.
      cbn [length]. lia.
    + assert (Hsame : bool_decide (ConnectDb ∈ (events ++ [CloseDb])%list)
                      = bool_decide (ConnectDb ∈ events)).
      { apply bool_decide_ext. rewrite elem_of_app, list_elem_of_singleton.
        split; [by intros [?|?]|by left]. }
      rewrite Hsame, (bool_decide_eq_true_2 (Some CloseDb = Some CloseDb)) by done.
      unfold Database.close_db, Database.get_collection in *.
      destruct (Database.client (foldl (lifecycle_step settings)
                                       Database.initial events)) as [c|] eqn:Hc;
        cbn [Database.collection Database.client Database.indexes];
        rewrite ?Hc;
        cbn [fmap option_fmap option_map Database.closed] in *.
      * split; [done|]. split; [by destruct (bool_decide _)|].
        rewrite Hindexes. lia.
      * split; [done|].
        split; [by destruct (bool_decide (ConnectDb ∈ events))|].
        rewrite Hindexes. lia.
Qed.

